(** * Airbnb MCP server: cookie jar, redirect-following client and the two
      extraction pipelines of [src/index.ts], embedded in Rocq.

    Conventions of the embedding.
    - A JavaScript string is the [string] of the bytes of its UTF-8 form;
      a surrogate that is not part of a pair is written as the three bytes
      UTF-8 would give its code point ([ED A0 80] to [ED BF BF]), so that
      every JavaScript string has exactly one such form.  The separators the
      program splits on are ASCII, so splitting, searching and joining act
      on the bytes as they act on the code units.
    - A [Map] is an association list in insertion order with unique keys;
      [Map_set] overwrites in place, as [Map.set] does.  An object is an
      association list in the order in which the engine enumerates its
      keys: array indices first, in ascending order, then the other keys in
      the order of their creation ([Object_set]).
    - A Number is modelled when its value is an integer, an infinity or
      [NaN]; arithmetic and printing round as IEEE doubles do.  Numbers
      with a fractional part, arrays and objects are not among the tool
      arguments of the model.
    - Module-level mutable state ([cookieJar], [robotsTxtContent]), the
      network and the console are threaded explicitly through a state and
      exception monad [M].
    - Platform and library functions whose code is not part of the
      repository (the WHATWG URL parser on arbitrary input, [robots-parser],
      [cheerio], [JSON.parse], the helpers of [./util.js]) are parameters. *)

From Stdlib Require Import String Ascii List ZArith NArith Bool Arith Lia.
From Stdlib Require Import DecimalString DecimalPos.
Import ListNotations.
Open Scope string_scope.
Set Warnings "-register-all".

(* ================================================================== *)
(** ** JavaScript string primitives *)
(* ================================================================== *)

(** [s.split(sep)] for a one-character separator: never empty. *)
Fixpoint split (sep : ascii) (s : string) : list string :=
  match s with
  | EmptyString => [EmptyString]
  | String c s' =>
      if Ascii.eqb c sep then EmptyString :: split sep s'
      else match split sep s' with
           | [] => [String c EmptyString]
           | h :: t => String c h :: t
           end
  end.

(** [parts.join(sep)]. *)
Fixpoint join (sep : string) (parts : list string) : string :=
  match parts with
  | [] => EmptyString
  | [p] => p
  | p :: rest => p ++ sep ++ join sep rest
  end.

(** White space of [String.prototype.trim] and [parseInt] (WhiteSpace and
    LineTerminator of the language), by the length of the UTF-8 form:
    TAB, LF, VT, FF, CR and SPACE; U+00A0; U+1680, U+2000 to U+200A,
    U+2028, U+2029, U+202F, U+205F, U+3000 and U+FEFF. *)
Definition white_space1 (a : ascii) : bool :=
  let n := N_of_ascii a in
  ((9 <=? n) && (n <=? 13) || (n =? 32))%N.

Definition white_space2 (a b : ascii) : bool :=
  ((N_of_ascii a =? 194) && (N_of_ascii b =? 160))%N.

Definition white_space3 (a b c : ascii) : bool :=
  let x := N_of_ascii a in
  let y := N_of_ascii b in
  let z := N_of_ascii c in
  ((x =? 225) && (y =? 154) && (z =? 128)
   || (x =? 226) && (y =? 128)
      && ((128 <=? z) && (z <=? 138) || (z =? 168) || (z =? 169) || (z =? 175))
   || (x =? 226) && (y =? 129) && (z =? 159)
   || (x =? 227) && (y =? 128) && (z =? 128)
   || (x =? 239) && (y =? 187) && (z =? 191))%N.

Fixpoint trimStart (s : string) : string :=
  match s with
  | EmptyString => EmptyString
  | String a s1 =>
      if white_space1 a then trimStart s1
      else
        match s1 with
        | String b s2 =>
            if white_space2 a b then trimStart s2
            else
              match s2 with
              | String c s3 => if white_space3 a b c then trimStart s3 else s
              | EmptyString => s
              end
        | EmptyString => s
        end
  end.

(** The string is made of white space only. *)
Fixpoint all_white_space (s : string) : bool :=
  match s with
  | EmptyString => true
  | String a s1 =>
      if white_space1 a then all_white_space s1
      else
        match s1 with
        | String b s2 =>
            if white_space2 a b then all_white_space s2
            else
              match s2 with
              | String c s3 => white_space3 a b c && all_white_space s3
              | EmptyString => false
              end
        | EmptyString => false
        end
  end.

Fixpoint trimEnd (s : string) : string :=
  match s with
  | EmptyString => EmptyString
  | String a s1 => if all_white_space s then EmptyString else String a (trimEnd s1)
  end.

Definition trim (s : string) : string := trimEnd (trimStart s).

(** Truthiness of a string: the empty string is the only falsy one. *)
Definition truthy_string (s : string) : bool :=
  match s with EmptyString => false | _ => true end.

(** [hay.includes(needle)]. *)
Fixpoint includes (hay needle : string) : bool :=
  prefix needle hay ||
  match hay with
  | EmptyString => false
  | String _ hay' => includes hay' needle
  end.

(** [haystack.startsWith(p)]. *)
Definition startsWith (s p : string) : bool := prefix p s.

(** Does the character occur in the string? *)
Fixpoint has_char (c : ascii) (s : string) : bool :=
  match s with
  | EmptyString => false
  | String d s' => Ascii.eqb d c || has_char c s'
  end.

(** A text between double quotes. *)
Definition quoted (s : string) : string :=
  String (ascii_of_nat 34) s ++ String (ascii_of_nat 34) EmptyString.

(** The text before and after the first occurrence of a character. *)
Fixpoint split_first (c : ascii) (s : string) : option (string * string) :=
  match s with
  | EmptyString => None
  | String d s' =>
      if Ascii.eqb d c then Some (EmptyString, s')
      else match split_first c s' with
           | Some (a, b) => Some (String d a, b)
           | None => None
           end
  end.

(* ================================================================== *)
(** ** Numbers *)
(* ================================================================== *)

(** A Number whose value is an integer, an infinity or [NaN].  [Int z] is
    used for the integers [z] that are the value of a double. *)
Inductive JsInt :=
| NaN
| Infinity (negative : bool)
| Int (z : Z).

(** The double nearest to a positive integer, ties to the even
    significand; [None] when the result is beyond the largest double. *)
Definition round_double (n : Z) : option Z :=
  let bits := (Z.log2 n + 1)%Z in
  if (bits <=? 53)%Z then Some n
  else
    let sh := (bits - 53)%Z in
    let q := Z.shiftr n sh in
    let r := (n - Z.shiftl q sh)%Z in
    let half := Z.shiftl 1 (sh - 1) in
    let q' := if (half <? r)%Z || ((r =? half)%Z && Z.odd q) then (q + 1)%Z else q in
    let v := Z.shiftl q' sh in
    if (Z.log2 v <? 1024)%Z then Some v else None.

(** The Number value for an integer. *)
Definition Number_value (z : Z) : JsInt :=
  match z with
  | Z0 => Int 0
  | Zpos _ =>
      match round_double z with Some v => Int v | None => Infinity false end
  | Zneg p =>
      match round_double (Zpos p) with Some v => Int (- v) | None => Infinity true end
  end.

(** Plain decimal digits, with a leading minus sign. *)
Definition decimal (z : Z) : string := NilZero.string_of_int (Z.to_int z).

(** The integers whose Number value is the double [v], from 2^53 on:
    those [x] with [lo <= 2 x <= hi], the bounds being halfway to the
    neighbouring doubles and included when the significand of [v] is
    even. *)
Definition rounding_interval (v : Z) : Z * Z * bool :=
  let e := (Z.log2 v - 52)%Z in
  let m := Z.shiftr v e in
  let up := Z.shiftl 1 e in
  let down := if (m =? 4503599627370496)%Z then Z.shiftl 1 (e - 1) else up in
  ((2 * v - down)%Z, (2 * v + up)%Z, Z.even m).

Definition rounds_to (interval : Z * Z * bool) (x : Z) : bool :=
  let '(lo, hi, closed) := interval in
  (0 <? x)%Z
  && (if closed then (lo <=? 2 * x)%Z && (2 * x <=? hi)%Z
      else (lo <? 2 * x)%Z && (2 * x <? hi)%Z).

(** The integer with the fewest significant digits among those whose
    Number value is [v], the nearest to [v] when there are several: the
    multiples of [10^j] are tried from the largest [j] down. *)
Fixpoint shortest (fuel : nat) (v : Z) (interval : Z * Z * bool) (j : Z) : Z :=
  match fuel with
  | O => v
  | S fuel' =>
      let p := (10 ^ j)%Z in
      let x1 := (v / p * p)%Z in
      let x2 := (x1 + p)%Z in
      if rounds_to interval x1 then
        if rounds_to interval x2 then
          if (v - x1 <? x2 - v)%Z || ((v - x1 =? x2 - v)%Z && Z.even (x1 / p))
          then x1 else x2
        else x1
      else if rounds_to interval x2 then x2
      else shortest fuel' v interval (j - 1)
  end.

Fixpoint strip_zeros (s : string) : string :=
  match s with
  | EmptyString => EmptyString
  | String c s' =>
      match strip_zeros s' with
      | EmptyString => if Ascii.eqb c "0" then EmptyString else String c EmptyString
      | t => String c t
      end
  end.

(** [d.ddde+n]: the form used from 10^21 on. *)
Definition exponent_form (x : Z) : string :=
  match decimal x with
  | EmptyString => EmptyString
  | String d rest =>
      String d (match strip_zeros rest with
                | EmptyString => EmptyString
                | fraction => "." ++ fraction
                end)
      ++ "e+" ++ decimal (Z.of_nat (String.length rest))
  end.

(** [Number.prototype.toString] on a positive integer-valued double:
    below 2^53 the digits are exact, above the shortest digits that read
    back as the same double are followed by zeros. *)
Definition positive_toString (v : Z) : string :=
  if (v <? 9007199254740992)%Z then decimal v
  else
    let digits := String.length (decimal v) in
    let x := shortest (S digits) v (rounding_interval v) (Z.of_nat digits) in
    if (x <? 1000000000000000000000)%Z then decimal x else exponent_form x.

(** [n.toString()]. *)
Definition JsInt_toString (n : JsInt) : string :=
  match n with
  | NaN => "NaN"
  | Infinity false => "Infinity"
  | Infinity true => "-Infinity"
  | Int Z0 => "0"
  | Int (Zpos p) => positive_toString (Zpos p)
  | Int (Zneg p) => "-" ++ positive_toString (Zpos p)
  end.

(** [String(z)] for the Number value for the integer [z]. *)
Definition Z_toString (z : Z) : string := JsInt_toString (Number_value z).
Definition N_toString (n : N) : string := Z_toString (Z.of_N n).

(** A canonical array index: the decimal form, without sign or leading
    zero, of an integer below 2^32 - 1. *)
Fixpoint decimal_value (s : string) (acc : N) : option N :=
  match s with
  | EmptyString => Some acc
  | String c s' =>
      let n := N_of_ascii c in
      if ((48 <=? n) && (n <=? 57))%N then decimal_value s' (acc * 10 + (n - 48))%N
      else None
  end.

Definition array_index (k : string) : option N :=
  match k with
  | EmptyString => None
  | String "0" EmptyString => Some 0%N
  | String "0" _ => None
  | _ =>
      match decimal_value k 0 with
      | Some n => if (n <=? 4294967294)%N then Some n else None
      | None => None
      end
  end.

(* ================================================================== *)
(** ** Maps and objects *)
(* ================================================================== *)

Section AssocMap.
Context {V : Type}.

(** [Map.prototype.set] / property assignment: an existing key keeps its
    position and takes the new value, a new key goes last. *)
Fixpoint Map_set (m : list (string * V)) (k : string) (v : V) : list (string * V) :=
  match m with
  | [] => [(k, v)]
  | (k', v') :: rest =>
      if String.eqb k' k then (k, v) :: rest else (k', v') :: Map_set rest k v
  end.

Fixpoint Map_get (m : list (string * V)) (k : string) : option V :=
  match m with
  | [] => None
  | (k', v') :: rest => if String.eqb k' k then Some v' else Map_get rest k
  end.

Definition Map_has (m : list (string * V)) (k : string) : bool :=
  match Map_get m k with Some _ => true | None => false end.

(** A key [k] that is created now is enumerated before the existing key
    [k']: array indices come first, in ascending order. *)
Definition goes_before (k k' : string) : bool :=
  match array_index k, array_index k' with
  | Some i, Some i' => (i <? i')%N
  | Some _, None => true
  | None, _ => false
  end.

Fixpoint Object_insert (m : list (string * V)) (k : string) (v : V) : list (string * V) :=
  match m with
  | [] => [(k, v)]
  | (k', v') :: rest =>
      if goes_before k k' then (k, v) :: m else (k', v') :: Object_insert rest k v
  end.

(** Definition of the property [k] of an object: an existing key keeps
    its place and takes the new value, a new key takes the place the
    enumeration order gives it. *)
Definition Object_set (m : list (string * V)) (k : string) (v : V) : list (string * V) :=
  if Map_has m k then Map_set m k v else Object_insert m k v.

(** Object spread [{...a, ...b}]. *)
Definition Object_assign (a b : list (string * V)) : list (string * V) :=
  fold_left (fun acc kv => Object_set acc (fst kv) (snd kv)) b a.
End AssocMap.

(* ================================================================== *)
(** ** Cookie jar *)
(* ================================================================== *)

(** [const cookieJar = new Map()]. *)
Definition CookieJar := list (string * string).

(** The part of a [node-fetch] response the program reads: the status, the
    raw [set-cookie] entries ([headers.raw()['set-cookie'] || []]), the
    [location] header ([headers.get("location")], [None] for [null]) and
    the body text. *)
Record Response := mkResponse {
  status : N;
  set_cookie : list string;
  location : option string;
  body : string
}.

(** One turn of the loop body of [parseCookies]. *)
Definition parseCookieEntry (jar : CookieJar) (cookieString : string) : CookieJar :=
  let mainPart := hd EmptyString (split ";" cookieString) in
  let parts := split "=" mainPart in
  match nth_error parts 0, nth_error parts 1 with
  | Some name, Some value =>
      if truthy_string name && truthy_string value
      then Map_set jar (trim name) (trim value)
      else jar
  | _, _ => jar
  end.

(** [parseCookies(response)], as a function of the jar it mutates. *)
Definition parseCookies (response : Response) (jar : CookieJar) : CookieJar :=
  fold_left parseCookieEntry (set_cookie response) jar.

(** [getCookieString()], as a function of the jar it reads. *)
Definition getCookieString (jar : CookieJar) : string :=
  join "; " (map (fun nv => fst nv ++ "=" ++ snd nv) jar).

(* ================================================================== *)
(** ** Values received as tool arguments and their coercions *)
(* ================================================================== *)

(** A field of [params: any].  [ANumber z] is the Number value for the
    integer [z] (the double nearest to it, an infinity beyond the largest
    double); numbers with a fractional part, arrays and objects are not
    modelled. *)
Inductive Arg :=
| AUndefined
| ANull
| ABool (b : bool)
| ANumber (z : Z)
| AString (s : string).

(** Destructuring default [name = d]: used for [undefined] only. *)
Definition withDefault (a d : Arg) : Arg :=
  match a with AUndefined => d | _ => a end.

(** [if (x)]. *)
Definition truthy (a : Arg) : bool :=
  match a with
  | AUndefined | ANull => false
  | ABool b => b
  | ANumber z => negb (z =? 0)%Z
  | AString s => truthy_string s
  end.

(** [String(x)], the conversion applied by template literals,
    [encodeURIComponent] and [URLSearchParams.append]. *)
Definition ToString (a : Arg) : string :=
  match a with
  | AUndefined => "undefined"
  | ANull => "null"
  | ABool true => "true"
  | ABool false => "false"
  | ANumber z => Z_toString z
  | AString s => s
  end.

(** The method call [x.toString()]: [None] when it throws a [TypeError]
    (property access on [undefined] or [null]). *)
Definition toString (a : Arg) : option string :=
  match a with
  | AUndefined | ANull => None
  | _ => Some (ToString a)
  end.

Definition digit_value (radix : N) (c : ascii) : option N :=
  let n := N_of_ascii c in
  let d := if (48 <=? n)%N && (n <=? 57)%N then Some (n - 48)%N
           else if (97 <=? n)%N && (n <=? 122)%N then Some (n - 87)%N
           else if (65 <=? n)%N && (n <=? 90)%N then Some (n - 55)%N
           else None in
  match d with
  | Some v => if (v <? radix)%N then Some v else None
  | None => None
  end.

(** The longest prefix of radix digits, read left to right; [None] when
    there is no digit at all. *)
Fixpoint parse_digits (radix : N) (s : string) (acc : option N) : option N :=
  match s with
  | EmptyString => acc
  | String c s' =>
      match digit_value radix c with
      | Some d =>
          parse_digits radix s'
            (Some (match acc with Some a => a * radix + d | None => d end)%N)
      | None => acc
      end
  end.

(** The magnitude read by [parseInt] once the sign is gone: an optional
    [0x]/[0X] prefix selects radix 16, then come the digits. *)
Definition parseInt_magnitude (s : string) : option N :=
  let '(radix, digits) :=
    match s with
    | String "0" (String "x" r) => (16%N, r)
    | String "0" (String "X" r) => (16%N, r)
    | _ => (10%N, s)
    end in
  parse_digits radix digits None.

(** [parseInt(s)] without a radix argument: leading white space, an
    optional sign, then the magnitude, rounded to a double. *)
Definition parseInt (s : string) : JsInt :=
  let s1 := trimStart s in
  let '(negative, s2) :=
    match s1 with
    | String "-" r => (true, r)
    | String "+" r => (false, r)
    | _ => (false, s1)
    end in
  match parseInt_magnitude s2 with
  | None => NaN
  | Some n => Number_value (if negative then (- Z.of_N n)%Z else Z.of_N n)
  end.

(** [a + b]: the exact sum of two doubles, rounded to a double. *)
Definition JsInt_add (a b : JsInt) : JsInt :=
  match a, b with
  | NaN, _ | _, NaN => NaN
  | Infinity x, Infinity y => if Bool.eqb x y then Infinity x else NaN
  | Infinity x, Int _ => Infinity x
  | Int _, Infinity y => Infinity y
  | Int x, Int y => Number_value (x + y)
  end.

(** [n > 0]; false for [NaN]. *)
Definition JsInt_gt0 (n : JsInt) : bool :=
  match n with
  | Int z => (0 <? z)%Z
  | Infinity negative => negb negative
  | NaN => false
  end.

(* ================================================================== *)
(** ** Percent-encoding *)
(* ================================================================== *)

Definition hex_digit (n : N) : ascii :=
  if (n <? 10)%N then ascii_of_N (48 + n) else ascii_of_N (55 + n).

(** [%XX] with upper-case hexadecimal digits. *)
Definition percent_byte (b : N) : string :=
  String "%" (String (hex_digit (b / 16)) (String (hex_digit (b mod 16)) EmptyString)).

(** A byte of the UTF-8 form, percent-encoded. *)
Definition percent_utf8 (c : ascii) : string := percent_byte (N_of_ascii c).

(** The first byte of a surrogate that is not part of a pair: [ED]
    followed by a byte from [A0] to [BF]. *)
Definition lone_surrogate (c : ascii) (rest : string) : bool :=
  (N_of_ascii c =? 237)%N
  && match rest with
     | String b _ => ((160 <=? N_of_ascii b) && (N_of_ascii b <=? 191))%N
     | EmptyString => false
     end.

Definition is_alnum (c : ascii) : bool :=
  let n := N_of_ascii c in
  ((48 <=? n) && (n <=? 57) || (65 <=? n) && (n <=? 90) || (97 <=? n) && (n <=? 122))%N.

(** Characters [encodeURIComponent] leaves alone. *)
Definition uri_unreserved (c : ascii) : bool :=
  is_alnum c || has_char c "-_.!~*'()".

(** [encodeURIComponent] on a string: [None] when it throws a [URIError],
    which it does on a surrogate that is not part of a pair. *)
Fixpoint encodeURIComponent_string (s : string) : option string :=
  match s with
  | EmptyString => Some EmptyString
  | String c s' =>
      if lone_surrogate c s' then None
      else
        match encodeURIComponent_string s' with
        | Some t =>
            Some ((if uri_unreserved c then String c EmptyString else percent_utf8 c) ++ t)
        | None => None
        end
  end.

(** [encodeURIComponent(x)]. *)
Definition encodeURIComponent (a : Arg) : option string :=
  encodeURIComponent_string (ToString a).

(** The application/x-www-form-urlencoded serializer of [URLSearchParams]:
    alphanumerics and [*-._] are kept, a space becomes [+]; a surrogate
    that is not part of a pair has become U+FFFD when the value was
    appended. *)
Fixpoint urlencode (s : string) : string :=
  match s with
  | EmptyString => EmptyString
  | String c s' =>
      if lone_surrogate c s' then
        "%EF%BF%BD" ++ match s' with
                       | String _ (String _ r) => urlencode r
                       | String _ EmptyString | EmptyString => EmptyString
                       end
      else
        (if is_alnum c || has_char c "*-._" then String c EmptyString
         else if Ascii.eqb c " " then "+"
         else percent_utf8 c) ++ urlencode s'
  end.

Definition serialize_params (ps : list (string * string)) : string :=
  join "&" (map (fun nv => urlencode (fst nv) ++ "=" ++ urlencode (snd nv)) ps).

(* ================================================================== *)
(** ** The URL objects the handlers build *)
(* ================================================================== *)

Definition BASE_URL : string := "https://www.airbnb.ca".

(** A [URL] whose origin is [BASE_URL].  [search0] is the query text as
    parsed from the constructor argument (with its leading [?]);
    [searchParams] is the list behind [url.searchParams], each pair as it
    was handed to [append] (the serializer makes the conversion to scalar
    values that [append] applies); once an [append] has happened
    ([appended]) the query is the serialization of that list. *)
Record URL := mkURL {
  pathname : string;
  search0 : string;
  searchParams : list (string * string);
  appended : bool;
  hash : string
}.

(** [url.searchParams.append(name, value)]. *)
Definition append (u : URL) (name value : string) : URL :=
  {| pathname := pathname u;
     search0 := search0 u;
     searchParams := searchParams u ++ [(name, value)];
     appended := true;
     hash := hash u |}.

(** [url.search]. *)
Definition search (u : URL) : string :=
  if appended u then
    match searchParams u with
    | [] => EmptyString
    | ps => "?" ++ serialize_params ps
    end
  else search0 u.

(** [url.toString()]. *)
Definition href (u : URL) : string :=
  BASE_URL ++ pathname u ++ search u ++ hash u.

(** Characters that reach the path of a parsed URL untouched and do not
    end it: the output alphabet of [encodeURIComponent]. *)
Definition plain_char (c : ascii) : bool :=
  uri_unreserved c || Ascii.eqb c "%".

Fixpoint all_chars (p : ascii -> bool) (s : string) : bool :=
  match s with
  | EmptyString => true
  | String c s' => p c && all_chars p s'
  end.

(** Paths made of plain characters and [/] only. *)
Definition plain_path (s : string) : bool :=
  all_chars (fun c => plain_char c || Ascii.eqb c "/") s.

Definition lower (c : ascii) : ascii :=
  let n := N_of_ascii c in
  if ((65 <=? n) && (n <=? 90))%N then ascii_of_N (n + 32) else c.

Fixpoint lowercase (s : string) : string :=
  match s with
  | EmptyString => EmptyString
  | String c s' => String (lower c) (lowercase s')
  end.

(** Single-dot and double-dot path segments of the URL standard. *)
Definition is_single_dot (seg : string) : bool :=
  let l := lowercase seg in
  String.eqb l "." || String.eqb l "%2e".

Definition is_double_dot (seg : string) : bool :=
  let l := lowercase seg in
  String.eqb l ".." || String.eqb l ".%2e" || String.eqb l "%2e." || String.eqb l "%2e%2e".

(** The path state of the URL parser on the segments of a plain path;
    [path] is the list built so far, last segment first. *)
Fixpoint path_state (segs : list string) (path : list string) : list string :=
  match segs with
  | [] => path
  | [seg] =>
      if is_double_dot seg then EmptyString :: tl path
      else if is_single_dot seg then EmptyString :: path
      else seg :: path
  | seg :: rest =>
      if is_double_dot seg then path_state rest (tl path)
      else if is_single_dot seg then path_state rest path
      else path_state rest (seg :: path)
  end.

Definition normalize_path (rest : string) : string :=
  let segs := match rest with
              | String "/" r => split "/" r
              | _ => split "/" rest
              end in
  String.concat EmptyString (map (fun seg => "/" ++ seg) (rev (path_state segs []))).

(** Characters of a query that the URL parser keeps and that the parser
    of [URLSearchParams] leaves as they are, [=] and [&] apart. *)
Definition query_char (c : ascii) : bool :=
  is_alnum c || has_char c "-_.~*=&".

(** The list behind [searchParams] for a plain query: the non-empty
    parts between [&], each cut at its first [=]. *)
Definition parse_query (query : string) : list (string * string) :=
  map (fun part => match split_first "=" part with
                   | Some (name, value) => (name, value)
                   | None => (part, EmptyString)
                   end)
      (filter truthy_string (split "&" query)).

Section URLConstructor.
(** The URL parser on the other inputs: given the text after [BASE_URL],
    the resulting URL object. *)
Variable URL_parse_other : string -> URL.

(** [new URL(`${BASE_URL}${rest}`)], for [rest] starting with [/]: a
    plain path, or a plain path followed by [?] and a plain query. *)
Definition new_URL (rest : string) : URL :=
  if plain_path rest then
    {| pathname := normalize_path rest;
       search0 := EmptyString;
       searchParams := [];
       appended := false;
       hash := EmptyString |}
  else
    match split_first "?" rest with
    | Some (path, query) =>
        if plain_path path && truthy_string query && all_chars query_char query then
          {| pathname := normalize_path path;
             search0 := "?" ++ query;
             searchParams := parse_query query;
             appended := false;
             hash := EmptyString |}
        else URL_parse_other rest
    | None => URL_parse_other rest
    end.
End URLConstructor.

(** The tool arguments of [airbnb_search]. *)
Record SearchParams := mkSearchParams {
  sp_location : Arg;
  sp_placeId : Arg;
  sp_checkin : Arg;
  sp_checkout : Arg;
  sp_adults : Arg;
  sp_children : Arg;
  sp_infants : Arg;
  sp_pets : Arg;
  sp_minPrice : Arg;
  sp_maxPrice : Arg;
  sp_cursor : Arg;
  sp_ignoreRobotsText : Arg
}.

(** The tool arguments of [airbnb_listing_details]. *)
Record ListingParams := mkListingParams {
  lp_id : Arg;
  lp_checkin : Arg;
  lp_checkout : Arg;
  lp_adults : Arg;
  lp_children : Arg;
  lp_infants : Arg;
  lp_pets : Arg;
  lp_ignoreRobotsText : Arg
}.

(** [if (x) url.searchParams.append(name, x)]. *)
Definition append_if (u : URL) (name : string) (x : Arg) : URL :=
  if truthy x then append u name (ToString x) else u.

(** [parseInt(x.toString())]; [None] when [toString] throws. *)
Definition coerce (x : Arg) : option JsInt :=
  match toString x with
  | Some s => Some (parseInt s)
  | None => None
  end.

(** The coerced guest counts of a call, when no coercion throws. *)
Record Guests := mkGuests {
  adults_int : JsInt;
  children_int : JsInt;
  infants_int : JsInt;
  pets_int : JsInt
}.

Definition coerce_guests (adults children infants pets : Arg) : option Guests :=
  match coerce (withDefault adults (ANumber 1)),
        coerce (withDefault children (ANumber 0)),
        coerce (withDefault infants (ANumber 0)),
        coerce (withDefault pets (ANumber 0)) with
  | Some a, Some c, Some i, Some p => Some (mkGuests a c i p)
  | _, _, _, _ => None
  end.

Definition totalGuests (g : Guests) : JsInt :=
  JsInt_add (adults_int g) (children_int g).

Section UrlBuilding.
Variable URL_parse_other : string -> URL.

(** Lines 300-330 of [handleAirbnbSearch]: the search URL, or [None]
    when [encodeURIComponent] or a coercion throws. *)
Definition buildSearchUrl (p : SearchParams) : option URL :=
  match encodeURIComponent (sp_location p) with
  | None => None
  | Some location =>
      let searchUrl := new_URL URL_parse_other ("/s/" ++ location ++ "/homes") in
      let searchUrl := append_if searchUrl "place_id" (sp_placeId p) in
      let searchUrl := append_if searchUrl "checkin" (sp_checkin p) in
      let searchUrl := append_if searchUrl "checkout" (sp_checkout p) in
      match coerce_guests (sp_adults p) (sp_children p) (sp_infants p) (sp_pets p) with
      | None => None
      | Some g =>
          let searchUrl :=
            if JsInt_gt0 (totalGuests g) then
              let u := append searchUrl "adults" (JsInt_toString (adults_int g)) in
              let u := append u "children" (JsInt_toString (children_int g)) in
              let u := append u "infants" (JsInt_toString (infants_int g)) in
              append u "pets" (JsInt_toString (pets_int g))
            else searchUrl in
          let searchUrl := append_if searchUrl "price_min" (sp_minPrice p) in
          let searchUrl := append_if searchUrl "price_max" (sp_maxPrice p) in
          let searchUrl := append_if searchUrl "cursor" (sp_cursor p) in
          Some searchUrl
      end
  end.

(** Lines 455-476 of [handleAirbnbListingDetails]: the listing URL, or
    [None] when a coercion throws. *)
Definition buildListingUrl (p : ListingParams) : option URL :=
  let listingUrl := new_URL URL_parse_other ("/rooms/" ++ ToString (lp_id p)) in
  let listingUrl := append_if listingUrl "check_in" (lp_checkin p) in
  let listingUrl := append_if listingUrl "check_out" (lp_checkout p) in
  match coerce_guests (lp_adults p) (lp_children p) (lp_infants p) (lp_pets p) with
  | None => None
  | Some g =>
      let listingUrl :=
        if JsInt_gt0 (totalGuests g) then
          let u := append listingUrl "adults" (JsInt_toString (adults_int g)) in
          let u := append u "children" (JsInt_toString (children_int g)) in
          let u := append u "infants" (JsInt_toString (infants_int g)) in
          let u := append u "adults" (JsInt_toString (adults_int g)) in
          let u := append u "children" (JsInt_toString (children_int g)) in
          let u := append u "infants" (JsInt_toString (infants_int g)) in
          append u "pets" (JsInt_toString (pets_int g))
        else listingUrl in
      Some listingUrl
  end.
End UrlBuilding.

(** Number of entries of a query list with a given name, and its presence. *)
Definition count_param (name : string) (ps : list (string * string)) : nat :=
  length (filter (fun nv => String.eqb (fst nv) name) ps).

Definition has_param (name : string) (ps : list (string * string)) : bool :=
  existsb (fun nv => String.eqb (fst nv) name) ps.

(* ================================================================== *)
(** ** Exceptions, session state and the monad of the asynchronous code *)
(* ================================================================== *)

(** The constructor of a thrown error object. *)
Inductive ErrorClass :=
| PlainError   (* [new Error(...)] *)
| TypeError
| SyntaxError
| URIError
| FetchError.  (* rejection of [fetch] by node-fetch *)

Record Exception := mkException {
  error_class : ErrorClass;
  message : string
}.

Inductive Result (A : Type) :=
| Ok (a : A)
| Throw (e : Exception).
Arguments Ok {A} a.
Arguments Throw {A} e.

(** What the network does with one request: the oracle tape of a run. *)
Inductive NetOutcome :=
| Responds (r : Response)
| Rejects (reason : string).

(** Observable steps, in program order. *)
Inductive Event :=
| EvFetch (url : string) (headers : list (string * string))
| EvParseCookies (r : Response)
| EvConsole (msg : string).

(** The module-level variables [cookieJar] and [robotsTxtContent], the
    outcomes the network still holds for the coming requests, and the
    steps taken so far. *)
Record Session := mkSession {
  cookieJar : CookieJar;
  robotsTxtContent : string;
  network : list NetOutcome;
  trace : list Event
}.

Definition M (A : Type) : Type := Session -> Result A * Session.

Definition ret {A} (a : A) : M A := fun s => (Ok a, s).

Definition throw {A} (e : Exception) : M A := fun s => (Throw e, s).

Definition bind {A B} (m : M A) (k : A -> M B) : M B :=
  fun s =>
    match m s with
    | (Ok a, s') => k a s'
    | (Throw e, s') => (Throw e, s')
    end.

(** [try { m } catch (e) { h e }]: the effects of [m] up to the throw
    stay. *)
Definition try_catch {A} (m : M A) (h : Exception -> M A) : M A :=
  fun s =>
    match m s with
    | (Ok a, s') => (Ok a, s')
    | (Throw e, s') => h e s'
    end.

Notation "x <- m ;; k" := (bind m (fun x => k))
  (at level 61, m at next level, right associativity).

Definition emit (ev : Event) : M unit :=
  fun s => (Ok tt, mkSession (cookieJar s) (robotsTxtContent s) (network s) (trace s ++ [ev])).

(** [console.error(msg)]. *)
Definition console_error (msg : string) : M unit := emit (EvConsole msg).

Definition lift_result {A} (r : Result A) : M A :=
  match r with Ok a => ret a | Throw e => throw e end.

(** [parseCookies(response)] on the shared jar. *)
Definition do_parseCookies (response : Response) : M unit :=
  fun s =>
    (Ok tt, mkSession (parseCookies response (cookieJar s)) (robotsTxtContent s)
                      (network s) (trace s ++ [EvParseCookies response])).

(** [getCookieString()] on the shared jar. *)
Definition do_getCookieString : M string :=
  fun s => (Ok (getCookieString (cookieJar s)), s).

(** [await fetch(url, { redirect: "manual", headers })]: the next outcome
    of the tape; a tape that has run out is a network that does not
    answer. *)
Definition fetch (url : string) (headers : list (string * string)) : M Response :=
  fun s =>
    let s1 := mkSession (cookieJar s) (robotsTxtContent s) (tl (network s))
                        (trace s ++ [EvFetch url headers]) in
    match network s with
    | Responds r :: _ => (Ok r, s1)
    | Rejects reason :: _ => (Throw (mkException FetchError reason), s1)
    | [] => (Throw (mkException FetchError "request failed"), s1)
    end.

Definition MAX_REDIRECTS : nat := 5.

Definition is_redirect_status (st : N) : bool :=
  ((st =? 307) || (st =? 302) || (st =? 301))%N.

Definition too_many_redirects (url : string) : Exception :=
  mkException PlainError ("Too many redirects while fetching " ++ url).

Definition missing_location (st : N) : Exception :=
  mkException PlainError ("Redirect status " ++ N_toString st ++ " but no Location header").

Definition invalid_url : Exception := mkException TypeError "Invalid URL".

(** Marks the end of the recursion budget of the model; no run of
    [fetchWithBrowserHeaders] reaches it (lemma [fetch_loop_fuel]). *)
Definition out_of_fuel : Exception := mkException PlainError "out of fuel".

Section Client.
(** [SESSION_USER_AGENT]: drawn once per process. *)
Variable SESSION_USER_AGENT : string.
(** [new URL(url)]: the [hostname] and [origin] of a valid URL, [None]
    when the constructor throws. *)
Variable URL_parts : string -> option (string * string).
(** [new URL(location, url).toString()], [None] when it throws. *)
Variable URL_resolve : string -> string -> option string.

Definition COMMON_HEADERS : list (string * string) :=
  [ ("User-Agent", SESSION_USER_AGENT);
    ("Accept", "text/html,application/xhtml+xml,application/xml;q=0.9,image/avif,image/webp,image/apng,*/*;q=0.8,application/signed-exchange;v=b3;q=0.7");
    ("Accept-Language", "en-US,en;q=0.9");
    ("Accept-Encoding", "gzip, deflate, br");
    ("Connection", "keep-alive");
    ("Sec-Ch-Ua", quoted "Chromium" ++ ";v=" ++ quoted "123" ++ ", " ++
                  quoted "Google Chrome" ++ ";v=" ++ quoted "123" ++ ", " ++
                  quoted "Not:A-Brand" ++ ";v=" ++ quoted "99");
    ("Sec-Ch-Ua-Mobile", "?0");
    ("Sec-Ch-Ua-Platform", quoted "Windows");
    ("Sec-Fetch-Dest", "document");
    ("Sec-Fetch-Mode", "navigate");
    ("Sec-Fetch-Site", "none");
    ("Sec-Fetch-User", "?1");
    ("Upgrade-Insecure-Requests", "1");
    ("Cache-Control", "max-age=0") ].

(** The headers of a request: the common ones, the per-request ones, the
    cookies when there are any, then the caller's. *)
Definition request_headers (hostname origin cookieString : string)
           (options : list (string * string)) : list (string * string) :=
  let headers :=
    Object_assign COMMON_HEADERS
      [("Host", hostname); ("Referer", origin); ("Origin", origin); ("TE", "trailers")] in
  let headers :=
    if truthy_string cookieString then Map_set headers "Cookie" cookieString
    else headers in
  Object_assign headers options.

(** The body of [fetchWithBrowserHeaders]; [options] is
    [options.headers || {}], the only part of [RequestInit] the callers
    set.  The pacing delay has no counterpart here.  [fuel] bounds the
    recursion; [S (MAX_REDIRECTS - redirectCount)] is always enough. *)
Fixpoint fetch_loop (fuel : nat) (url : string) (options : list (string * string))
         (redirectCount : nat) : M Response :=
  match fuel with
  | O => throw out_of_fuel
  | S fuel' =>
      match URL_parts url with
      | None => throw invalid_url
      | Some (hostname, origin) =>
          cookieString <- do_getCookieString ;;
          response <- fetch url (request_headers hostname origin cookieString options) ;;
          _ <- do_parseCookies response ;;
          if is_redirect_status (status response) then
            if (MAX_REDIRECTS <=? redirectCount)%nat then
              throw (too_many_redirects url)
            else
              match location response with
              | None | Some EmptyString => throw (missing_location (status response))
              | Some loc =>
                  match URL_resolve loc url with
                  | None => throw invalid_url
                  | Some redirectedUrl =>
                      _ <- console_error ("Redirect " ++ N_toString (status response)
                                          ++ " to " ++ redirectedUrl) ;;
                      fetch_loop fuel' redirectedUrl options (S redirectCount)
                  end
              end
          else ret response
      end
  end.

Definition fetchWithBrowserHeaders (url : string) (options : list (string * string))
           (redirectCount : nat) : M Response :=
  fetch_loop (S (MAX_REDIRECTS - redirectCount)) url options redirectCount.
End Client.

(* ================================================================== *)
(** ** JSON values and property access *)
(* ================================================================== *)

(** A value produced by [JSON.parse].  A number carries the text
    [Number.prototype.toString] prints for it.  An object is the list of
    its properties in the order of enumeration. *)
Inductive Json :=
| JNull
| JBool (b : bool)
| JNum (repr : string)
| JStr (s : string)
| JArr (items : list Json)
| JObj (fields : list (string * Json)).

(** A JavaScript value that may be [undefined]. *)
Definition JsValue := option Json.

Definition type_error (msg : string) : Exception := mkException TypeError msg.

(** [v.key] for the property names this program reads (none of which is a
    built-in property of strings, numbers, booleans or arrays). *)
Definition get (v : JsValue) (key : string) : Result JsValue :=
  match v with
  | None => Throw (type_error ("Cannot read properties of undefined (reading '" ++ key ++ "')"))
  | Some JNull => Throw (type_error ("Cannot read properties of null (reading '" ++ key ++ "')"))
  | Some (JObj fields) => Ok (Map_get fields key)
  | Some _ => Ok None
  end.

(** The UTF-8 form of a code unit that is a surrogate. *)
Definition surrogate (u : N) : string :=
  String (ascii_of_N 237)
    (String (ascii_of_N (128 + (u / 64) mod 64))
       (String (ascii_of_N (128 + u mod 64)) EmptyString)).

(** The code units of a string, each as a string of its own: a character
    beyond U+FFFF (four bytes) gives its two surrogates. *)
Fixpoint code_units (s : string) : list string :=
  match s with
  | EmptyString => []
  | String a s1 =>
      let x := N_of_ascii a in
      if (x <? 192)%N then String a EmptyString :: code_units s1
      else
        match s1 with
        | EmptyString => [s]
        | String b s2 =>
            if (x <? 224)%N then String a (String b EmptyString) :: code_units s2
            else
              match s2 with
              | EmptyString => [s]
              | String c s3 =>
                  if (x <? 240)%N
                  then String a (String b (String c EmptyString)) :: code_units s3
                  else
                    match s3 with
                    | EmptyString => [s]
                    | String d s4 =>
                        let cp := ((x - 240) * 262144 + (N_of_ascii b - 128) * 4096
                                   + (N_of_ascii c - 128) * 64 + (N_of_ascii d - 128))%N in
                        let w := (cp - 65536)%N in
                        surrogate (55296 + w / 1024) :: surrogate (56320 + w mod 1024)
                          :: code_units s4
                    end
              end
        end
  end.

Definition string_chars (s : string) : list Json := map JStr (code_units s).

(** [v[i]] for an index [i]. *)
Definition get_index (v : JsValue) (i : nat) : Result JsValue :=
  match v with
  | None =>
      Throw (type_error ("Cannot read properties of undefined (reading '"
                         ++ N_toString (N.of_nat i) ++ "')"))
  | Some JNull =>
      Throw (type_error ("Cannot read properties of null (reading '"
                         ++ N_toString (N.of_nat i) ++ "')"))
  | Some (JArr items) => Ok (nth_error items i)
  | Some (JStr s) => Ok (nth_error (string_chars s) i)
  | Some (JObj fields) => Ok (Map_get fields (N_toString (N.of_nat i)))
  | Some _ => Ok None
  end.

(** [String(v)], as used for property keys and template literals. *)
Fixpoint Json_ToString (v : Json) : string :=
  match v with
  | JNull => "null"
  | JBool true => "true"
  | JBool false => "false"
  | JNum repr => repr
  | JStr s => s
  | JArr items =>
      join ","
        (map (fun item => match item with JNull => EmptyString | _ => Json_ToString item end)
             items)
  | JObj _ => "[object Object]"
  end.

Definition JsValue_ToString (v : JsValue) : string :=
  match v with
  | None => "undefined"
  | Some j => Json_ToString j
  end.

Fixpoint indexed (i : nat) (items : list Json) : list (string * Json) :=
  match items with
  | [] => []
  | x :: rest => (N_toString (N.of_nat i), x) :: indexed (S i) rest
  end.

(** The own enumerable properties copied by a spread [...v]. *)
Definition spread (v : JsValue) : list (string * Json) :=
  match v with
  | Some (JObj fields) => fields
  | Some (JArr items) => indexed 0 items
  | Some (JStr s) => indexed 0 (string_chars s)
  | _ => []
  end.

(** A property whose value may be [undefined]: [JSON.stringify] leaves
    such a property out. *)
Definition field (key : string) (v : JsValue) : list (string * Json) :=
  match v with
  | Some j => [(key, j)]
  | None => []
  end.

(** An allow-list schema: [true] or a nested object of schemas. *)
Inductive Schema :=
| STrue
| SNode (entries : list (string * Schema)).

Definition allowSearchResultSchema : Schema :=
  SNode
    [ ("listing", SNode
        [ ("id", STrue);
          ("name", STrue);
          ("title", STrue);
          ("coordinate", STrue);
          ("structuredContent", SNode
            [ ("mapCategoryInfo", SNode [("body", STrue)]);
              ("mapSecondaryLine", SNode [("body", STrue)]);
              ("primaryLine", SNode [("body", STrue)]);
              ("secondaryLine", SNode [("body", STrue)]) ]) ]);
      ("avgRatingA11yLabel", STrue);
      ("listingParamOverrides", STrue);
      ("structuredDisplayPrice", SNode
        [ ("primaryLine", SNode [("accessibilityLabel", STrue)]);
          ("secondaryLine", SNode [("accessibilityLabel", STrue)]);
          ("explanationData", SNode
            [ ("title", STrue);
              ("priceDetails", SNode
                [ ("items", SNode
                    [ ("description", STrue);
                      ("priceString", STrue) ]) ]) ]) ]) ].

(** The entries of the object literal [allowSectionSchema]. *)
Definition allowSectionSchema : list (string * Schema) :=
  [ ("LOCATION_DEFAULT", SNode
      [ ("lat", STrue); ("lng", STrue); ("subtitle", STrue); ("title", STrue) ]);
    ("POLICIES_DEFAULT", SNode
      [ ("title", STrue);
        ("houseRulesSections", SNode
          [ ("title", STrue);
            ("items", SNode [("title", STrue)]) ]) ]);
    ("HIGHLIGHTS_DEFAULT", SNode
      [ ("highlights", SNode [("title", STrue)]) ]);
    ("DESCRIPTION_DEFAULT", SNode
      [ ("htmlDescription", SNode [("htmlText", STrue)]) ]);
    ("AMENITIES_DEFAULT", SNode
      [ ("title", STrue);
        ("seeAllAmenitiesGroups", SNode
          [ ("title", STrue);
            ("amenities", SNode [("title", STrue)]) ]) ]) ].

(** [allowSectionSchema.hasOwnProperty(v)]: the argument is converted to a
    property key. *)
Definition hasOwnProperty {V} (obj : list (string * V)) (v : JsValue) : bool :=
  Map_has obj (JsValue_ToString v).

(** The five identifiers of the allow-list, as the spec names them. *)
Definition allowed_section_ids : list string :=
  [ "LOCATION_DEFAULT"; "POLICIES_DEFAULT"; "HIGHLIGHTS_DEFAULT";
    "DESCRIPTION_DEFAULT"; "AMENITIES_DEFAULT" ].

(** What a handler returns: [payload] is the value handed to
    [JSON.stringify(..., null, 2)] for the single text content item. *)
Record ToolResult := mkToolResult {
  payload : Json;
  isError : bool
}.

Definition robotsErrorMessage : string :=
  "This path is disallowed by Airbnb's robots.txt to this User-agent. You may or may not want to run the server with '--ignore-robots-txt' args".

(** Monadic map in array order: the first throw ends it. *)
Fixpoint map_result {A B} (f : A -> Result B) (l : list A) : Result (list B) :=
  match l with
  | [] => Ok []
  | x :: rest =>
      match f x with
      | Throw e => Throw e
      | Ok y =>
          match map_result f rest with
          | Throw e => Throw e
          | Ok ys => Ok (y :: ys)
          end
      end
  end.

Definition bind_result {A B} (r : Result A) (k : A -> Result B) : Result B :=
  match r with
  | Ok a => k a
  | Throw e => Throw e
  end.

Notation "x <-- r ;; k" := (bind_result r (fun x => k))
  (at level 61, r at next level, right associativity).

(** [arr.map], [arr.filter], [arr.forEach] exist on arrays only;
    [callee] is the text of the expression [arr.method]. *)
Definition as_array (v : JsValue) (callee method : string) : Result (list Json) :=
  match v with
  | Some (JArr items) => Ok items
  | None => Throw (type_error ("Cannot read properties of undefined (reading '" ++ method ++ "')"))
  | Some JNull => Throw (type_error ("Cannot read properties of null (reading '" ++ method ++ "')"))
  | Some _ => Throw (type_error (callee ++ " is not a function"))
  end.

Fixpoint filter_result {A} (f : A -> Result bool) (l : list A) : Result (list A) :=
  match l with
  | [] => Ok []
  | x :: rest =>
      match f x with
      | Throw e => Throw e
      | Ok b =>
          match filter_result f rest with
          | Throw e => Throw e
          | Ok ys => Ok (if b then x :: ys else ys)
          end
      end
  end.

(* ================================================================== *)
(** ** The two pipelines *)
(* ================================================================== *)

Section Pipelines.
Variable SESSION_USER_AGENT : string.
Variable URL_parts : string -> option (string * string).
Variable URL_resolve : string -> string -> option string.
Variable URL_parse_other : string -> URL.
(** [--ignore-robots-txt] on the command line. *)
Variable IGNORE_ROBOTS_TXT : bool.
(** [robotsParser(path, content).isAllowed(path, agent)]: [None] is
    [undefined]. *)
Variable robots_isAllowed : string -> string -> string -> option bool.
(** [$("#data-deferred-state-0").first()] then [.text()] on the loaded
    page: the empty string when the page has no such element. *)
Variable script_text : string -> string.
(** [JSON.parse]: [None] when it throws a [SyntaxError]. *)
Variable JSON_parse : string -> option Json.
(** The helpers imported from [./util.js], total as the spec requires of
    them.  [cleanObject] works in place: the function gives the object
    as it is after the call. *)
Variable cleanObject : Json -> Json.
Variable pickBySchema : JsValue -> option Schema -> JsValue.
Variable flattenArraysInObject : JsValue -> JsValue.

Local Abbreviation client := (fetchWithBrowserHeaders SESSION_USER_AGENT URL_parts URL_resolve).

Definition set_robotsTxtContent (content : string) : M unit :=
  fun s => (Ok tt, mkSession (cookieJar s) content (network s) (trace s)).

Definition fetchRobotsTxt : M unit :=
  if IGNORE_ROBOTS_TXT then ret tt
  else
    try_catch
      (response <- client (BASE_URL ++ "/robots.txt") [] 0 ;;
       set_robotsTxtContent (body response))
      (fun error =>
         _ <- console_error ("Error fetching robots.txt: " ++ message error) ;;
         set_robotsTxtContent EmptyString).

Definition isPathAllowed (path : string) : M bool :=
  fun s =>
    if negb (truthy_string (robotsTxtContent s)) then (Ok true, s)
    else
      match robots_isAllowed (robotsTxtContent s) path SESSION_USER_AGENT with
      | Some true => (Ok true, s)
      | _ => (_ <- console_error robotsErrorMessage ;; ret false) s
      end.

(** [!ignoreRobotsText && !isPathAllowed(path)]. *)
Definition robots_denied (ignoreRobotsText : Arg) (path : string) : M bool :=
  if truthy (withDefault ignoreRobotsText (ABool false)) then ret false
  else allowed <- isPathAllowed path ;; ret (negb allowed).

(** An in-place clean changes objects and arrays only. *)
Definition clean_in_place (v : Json) : Json :=
  match v with
  | JObj _ | JArr _ => cleanObject v
  | _ => v
  end.

(** [JSON.parse($(scriptElement).text()).niobeMinimalClientData[0][1]]
    followed by [.data.presentation]. *)
Definition presentation (html : string) : Result JsValue :=
  match JSON_parse (script_text html) with
  | None => Throw (mkException SyntaxError "Unexpected end of JSON input")
  | Some parsed =>
      a <-- get (Some parsed) "niobeMinimalClientData" ;;
      b <-- get_index a 0 ;;
      clientData <-- get_index b 1 ;;
      d <-- get clientData "data" ;;
      get d "presentation"
  end.

(** The inner [try] block of [handleAirbnbSearch]: the value assigned to
    [staysSearchResults], as the properties that [JSON.stringify]
    prints. *)
Definition extractSearchResults (html : string) : Result (list (string * Json)) :=
  pr <-- presentation html ;;
  staysSearch <-- get pr "staysSearch" ;;
  results <-- get staysSearch "results" ;;
  let results := option_map clean_in_place results in
  searchResults <-- get results "searchResults" ;;
  items <-- as_array searchResults "results.searchResults.map" "map" ;;
  let picked :=
    map (fun result =>
           flattenArraysInObject (pickBySchema (Some result) (Some allowSearchResultSchema)))
        items in
  linked <-- map_result
    (fun result =>
       listing <-- get result "listing" ;;
       id <-- get listing "id" ;;
       Ok (JObj (Object_assign
                   [("url", JStr (BASE_URL ++ "/rooms/" ++ JsValue_ToString id))]
                   (spread result))))
    picked ;;
  paginationInfo <-- get results "paginationInfo" ;;
  Ok (("searchResults", JArr linked) :: field "paginationInfo" paginationInfo).

(** One entry of [details]: [{ id: section.sectionId, ...projected }]. *)
Definition detail_entry (section : Json) : Result Json :=
  sectionId <-- get (Some section) "sectionId" ;;
  inner <-- get (Some section) "section" ;;
  Ok (JObj (Object_assign
              (field "id" sectionId)
              (spread (flattenArraysInObject
                         (pickBySchema inner
                            (Map_get allowSectionSchema (JsValue_ToString sectionId))))))).

(** The filter callback of the listing pipeline. *)
Definition section_allowed (section : Json) : Result bool :=
  sectionId <-- get (Some section) "sectionId" ;;
  Ok (hasOwnProperty allowSectionSchema sectionId).

(** [forEach(cleanObject)], [filter], [map] on the parsed sections. *)
Definition project_sections (sections : list Json) : Result (list Json) :=
  let cleaned := map clean_in_place sections in
  kept <-- filter_result section_allowed cleaned ;;
  map_result detail_entry kept.

(** The inner [try] block of [handleAirbnbListingDetails]: the value
    assigned to [details]. *)
(** [clientData.data.presentation.stayProductDetailPage.sections.sections]. *)
Definition parsed_sections (html : string) : Result JsValue :=
  pr <-- presentation html ;;
  page <-- get pr "stayProductDetailPage" ;;
  outer <-- get page "sections" ;;
  get outer "sections".

Definition extractDetails (html : string) : Result Json :=
  sections <-- parsed_sections html ;;
  items <-- as_array sections "sections.forEach" "forEach" ;;
  details <-- project_sections items ;;
  Ok (JArr details).

(** What [x.toString()] throws on [null]. *)
Definition coercion_error : Exception :=
  type_error "Cannot read properties of null (reading 'toString')".

(** What [encodeURIComponent] throws. *)
Definition uri_error : Exception := mkException URIError "URI malformed".

(** [encodeURIComponent(x)] as a step of a handler. *)
Definition do_encodeURIComponent (x : Arg) : M string :=
  match encodeURIComponent x with
  | Some text => ret text
  | None => throw uri_error
  end.

(** What lines 300-313 of [handleAirbnbSearch] throw when they throw:
    the encoding of the location comes first. *)
Definition search_url_error (params : SearchParams) : Exception :=
  match encodeURIComponent (sp_location params) with
  | None => uri_error
  | Some _ => coercion_error
  end.

Definition robots_result (u : URL) : ToolResult :=
  {| payload := JObj [("error", JStr robotsErrorMessage); ("url", JStr (href u))];
     isError := true |}.

Definition handleAirbnbSearch (params : SearchParams) : M ToolResult :=
  match buildSearchUrl URL_parse_other params with
  | None => throw (search_url_error params)
  | Some searchUrl =>
      let path := pathname searchUrl ++ search searchUrl in
      denied <- robots_denied (sp_ignoreRobotsText params) path ;;
      if denied then ret (robots_result searchUrl)
      else
        try_catch
          (_ <- client BASE_URL [] 0 ;;
           response <- client (href searchUrl) [] 0 ;;
           let html := body response in
           staysSearchResults <-
             try_catch (lift_result (extractSearchResults html))
                       (fun e => _ <- console_error (message e) ;; ret []) ;;
           ret {| payload :=
                    JObj (Object_assign [("searchUrl", JStr (href searchUrl))]
                                        staysSearchResults);
                  isError := false |})
          (fun error =>
             ret {| payload :=
                      JObj [("error", JStr (message error));
                            ("searchUrl", JStr (href searchUrl))];
                    isError := true |})
  end.

Definition handleAirbnbListingDetails (params : ListingParams) : M ToolResult :=
  match buildListingUrl URL_parse_other params with
  | None => throw coercion_error
  | Some listingUrl =>
      let path := pathname listingUrl ++ search listingUrl in
      denied <- robots_denied (lp_ignoreRobotsText params) path ;;
      if denied then ret (robots_result listingUrl)
      else
        try_catch
          (_ <- client BASE_URL [] 0 ;;
           homes <- do_encodeURIComponent (AString "homes") ;;
           response <- client (href listingUrl)
                         [("Referer", BASE_URL ++ "/s/" ++ homes)] 0 ;;
           let html := body response in
           details <-
             try_catch (lift_result (extractDetails html))
                       (fun e => _ <- console_error (message e) ;; ret (JObj [])) ;;
           ret {| payload :=
                    JObj [("listingUrl", JStr (href listingUrl)); ("details", details)];
                  isError := false |})
          (fun error =>
             ret {| payload :=
                      JObj [("error", JStr (message error));
                            ("listingUrl", JStr (href listingUrl))];
                    isError := true |})
  end.
End Pipelines.

(* ================================================================== *)
(** ** Vocabulary of the statements *)
(* ================================================================== *)

(** The [name=value] pair preceding the first [;] of a [Set-Cookie] entry,
    read as the specification words it: the name ends at the first [=],
    the value is all that follows. *)
Definition pair_before_semicolon (entry : string) : option (string * string) :=
  split_first "=" (hd EmptyString (split ";" entry)).

(** The responses among the outcomes of a tape. *)
Fixpoint responses_of (tape : list NetOutcome) : list Response :=
  match tape with
  | [] => []
  | Responds r :: rest => r :: responses_of rest
  | Rejects _ :: rest => responses_of rest
  end.

(** A stretch of trace is well recorded against the outcomes it consumed
    when every request that got a response is followed at once by the
    recording of that very response, and every outcome is accounted for. *)
Fixpoint well_recorded (tr : list Event) (tape : list NetOutcome) : Prop :=
  match tr with
  | [] => tape = []
  | EvFetch _ _ :: tr' =>
      match tape with
      | Responds r :: tape' =>
          match tr' with
          | EvParseCookies r' :: tr'' => r' = r /\ well_recorded tr'' tape'
          | _ => False
          end
      | Rejects _ :: tape' => well_recorded tr' tape'
      | [] => tr' = []
      end
  | EvParseCookies _ :: _ => False
  | EvConsole _ :: tr' => well_recorded tr' tape
  end.

(** The session once a request has been answered by [r] and the cookies
    of [r] have been recorded. *)
Definition after_response (url : string) (headers : list (string * string))
           (r : Response) (s : Session) : Session :=
  mkSession (parseCookies r (cookieJar s)) (robotsTxtContent s) (tl (network s))
            ((trace s ++ [EvFetch url headers]) ++ [EvParseCookies r]).

(** The same once the redirect to [next] has been logged. *)
Definition after_redirect (url : string) (headers : list (string * string))
           (r : Response) (next : string) (s : Session) : Session :=
  let s1 := after_response url headers r s in
  mkSession (cookieJar s1) (robotsTxtContent s1) (network s1)
            (trace s1 ++ [EvConsole ("Redirect " ++ N_toString (status r) ++ " to " ++ next)]).

(** What a run consumes and records, whatever its outcome. *)
Definition run_recorded (s : Session) (run : Result Response * Session) : Prop :=
  exists consumed tr,
    network s = (consumed ++ network (snd run))%list
    /\ trace (snd run) = (trace s ++ tr)%list
    /\ well_recorded tr consumed
    /\ cookieJar (snd run) =
       fold_left (fun jar r => parseCookies r jar) (responses_of consumed) (cookieJar s)
    /\ robotsTxtContent (snd run) = robotsTxtContent s.

(** The redirect statuses as the specification lists them: 301, 302 and
    307. *)
Definition redirect_status (st : N) : bool :=
  ((st =? 301) || (st =? 302) || (st =? 307))%N.

Section RedirectChains.
Variable URL_parts : string -> option (string * string).
Variable URL_resolve : string -> string -> option string.

(** A chain of redirect responses received from [url] on: every response
    has one of the statuses 301, 302 and 307 and a non-empty [Location]
    that resolves against the URL it was received from, and every URL of
    the chain is one the URL constructor accepts.  The result is the URL
    the chain leads to. *)
Fixpoint chain_target (url : string) (chain : list Response) : option string :=
  match chain with
  | [] => Some url
  | r :: rest =>
      match URL_parts url, location r with
      | Some _, Some loc =>
          if redirect_status (status r) && truthy_string loc then
            match URL_resolve loc url with
            | Some next => chain_target next rest
            | None => None
            end
          else None
      | _, _ => None
      end
  end.
End RedirectChains.

(** The guest parameter names. *)
Definition guest_names : list string := ["adults"; "children"; "infants"; "pets"].

(** The adults count plus the children count is strictly positive, in the
    words of the specification: for two finite counts this is about the
    sum of the two integers; an infinite count decides by its sign unless
    the other is infinite of the other sign; [NaN] is never positive. *)
Definition positive_total (adults children : JsInt) : bool :=
  match adults, children with
  | Int a, Int c => (0 <? a + c)%Z
  | Infinity false, Infinity false => true
  | Infinity false, Int _ => true
  | Int _, Infinity false => true
  | _, _ => false
  end.

(** The filter of the listing pipeline in the spec's words: the section
    identifier, taken as a property key, is one of the five allow-listed
    identifiers. *)
Definition allow_listed (section : Json) : bool :=
  match section with
  | JObj fields =>
      existsb (String.eqb (JsValue_ToString (Map_get fields "sectionId"))) allowed_section_ids
  | _ => false
  end.

(** The date parameters of the listing URL, in the order they are
    appended. *)
Definition listing_date_params (p : ListingParams) : list (string * string) :=
  (if truthy (lp_checkin p) then [("check_in", ToString (lp_checkin p))] else []) ++
  (if truthy (lp_checkout p) then [("check_out", ToString (lp_checkout p))] else []).

(** The seven guest entries the listing pipeline appends. *)
Definition listing_guest_params (g : Guests) : list (string * string) :=
  [ ("adults", JsInt_toString (adults_int g));
    ("children", JsInt_toString (children_int g));
    ("infants", JsInt_toString (infants_int g));
    ("adults", JsInt_toString (adults_int g));
    ("children", JsInt_toString (children_int g));
    ("infants", JsInt_toString (infants_int g));
    ("pets", JsInt_toString (pets_int g)) ].

Section PipelineVocabulary.
Variable SESSION_USER_AGENT : string.
Variable URL_parts : string -> option (string * string).
Variable URL_resolve : string -> string -> option string.
Variable robots_isAllowed : string -> string -> string -> option bool.
Variable cleanObject : Json -> Json.
Variable pickBySchema : JsValue -> option Schema -> JsValue.
Variable flattenArraysInObject : JsValue -> JsValue.

(** The robots check stops the call: the caller did not opt out, a
    [robots.txt] was fetched, and the parser does not allow the path of the
    URL for the session's agent. *)
Definition denied_by_robots (s : Session) (u : URL) (ignoreRobotsText : Arg) : bool :=
  negb (truthy (withDefault ignoreRobotsText (ABool false)))
  && truthy_string (robotsTxtContent s)
  && match robots_isAllowed (robotsTxtContent s) (pathname u ++ search u) SESSION_USER_AGENT with
     | Some true => false
     | _ => true
     end.

(** The session after one more line on the console. *)
Definition logged (msg : string) (s : Session) : Session :=
  mkSession (cookieJar s) (robotsTxtContent s) (network s) (trace s ++ [EvConsole msg]).

(** The two requests of the search pipeline: the warm-up, then the page. *)
Definition fetch_search_page (u : URL) : M Response :=
  _ <- fetchWithBrowserHeaders SESSION_USER_AGENT URL_parts URL_resolve BASE_URL [] 0 ;;
  fetchWithBrowserHeaders SESSION_USER_AGENT URL_parts URL_resolve (href u) [] 0.

(** The two requests of the listing pipeline. *)
Definition fetch_listing_page (u : URL) : M Response :=
  _ <- fetchWithBrowserHeaders SESSION_USER_AGENT URL_parts URL_resolve BASE_URL [] 0 ;;
  fetchWithBrowserHeaders SESSION_USER_AGENT URL_parts URL_resolve (href u)
    [("Referer", BASE_URL ++ "/s/homes")] 0.

(** The entry of [details] made from a section object:
    [{ id: sectionId, ...projected section fields }]. *)
Definition section_entry (section : Json) : Json :=
  match section with
  | JObj fields =>
      let sectionId := Map_get fields "sectionId" in
      JObj (Object_assign
              (field "id" sectionId)
              (spread (flattenArraysInObject
                         (pickBySchema (Map_get fields "section")
                            (Map_get allowSectionSchema (JsValue_ToString sectionId))))))
  | _ => JObj []
  end.
End PipelineVocabulary.

(* ================================================================== *)
(** ** A sample environment for the worked examples *)
(* ================================================================== *)

Module Sample.

Definition agent : string :=
  "Mozilla/5.0 (Windows NT 10.0; Win64; x64; rv:125.0) Gecko/20100101 Firefox/125.0".

(** The URL constructor on the URLs of the site. *)
Definition URL_parts (url : string) : option (string * string) :=
  if String.eqb url BASE_URL || prefix (BASE_URL ++ "/") url
  then Some ("www.airbnb.ca", BASE_URL)
  else None.

(** Resolution of an absolute URL of the site or of an absolute path. *)
Definition URL_resolve (loc base : string) : option string :=
  if prefix (BASE_URL ++ "/") loc then Some loc
  else if prefix "/" loc && negb (prefix "//" loc) then Some (BASE_URL ++ loc)
  else None.

(** Not consulted by the examples, whose paths are all plain. *)
Definition URL_parse_other (rest : string) : URL :=
  mkURL rest EmptyString [] false EmptyString.

Definition newline : string := String (ascii_of_nat 10) EmptyString.

Definition robots_txt : string :=
  "User-agent: *" ++ newline ++ "Disallow: /s/" ++ newline ++ "Disallow: /rooms/".

(** [robots-parser] on [robots_txt]: everything under [/s/] and [/rooms/]
    is denied to every agent. *)
Definition robots_isAllowed (content path agent : string) : option bool :=
  if String.eqb content robots_txt
  then Some (negb (prefix "/s/" path || prefix "/rooms/" path))
  else Some true.

Definition script_open : string := "<script id=data-deferred-state-0>".
Definition script_close : string := "</script>".

(** Text of the first [data-deferred-state-0] script of a page written
    with unquoted attributes; empty when there is none. *)
Definition script_text (html : string) : string :=
  match index 0 script_open html with
  | None => EmptyString
  | Some i =>
      let rest := substring (i + String.length script_open) (String.length html) html in
      match index 0 script_close rest with
      | None => rest
      | Some j => substring 0 j rest
      end
  end.

(** [JSON.parse] on the few texts the examples use. *)
Definition JSON_parse (text : string) : option Json :=
  if String.eqb text "{}" then Some (JObj [])
  else if String.eqb text "[]" then Some (JArr [])
  else if String.eqb text "null" then Some JNull
  else None.

(** Stand-ins for the helpers of [./util.js]. *)
Definition cleanObject (v : Json) : Json := v.
Definition pickBySchema (v : JsValue) (schema : option Schema) : JsValue := v.
Definition flattenArraysInObject (v : JsValue) : JsValue := v.

Definition session (robots : string) (tape : list NetOutcome) : Session :=
  mkSession [] robots tape [].

Definition home : Response :=
  mkResponse 200 ["bev=1700000000_abc; Path=/; Secure"] None "<html></html>".

Definition page_without_script : Response :=
  mkResponse 200 [] None "<html><body>Please verify you are human</body></html>".

Definition page_with_empty_state : Response :=
  mkResponse 200 [] None "<html><script id=data-deferred-state-0>{}</script></html>".

Definition redirect (loc : string) : Response :=
  mkResponse 302 ["a=1"] (Some loc) EmptyString.

Definition redirect_without_location : Response :=
  mkResponse 302 [] None EmptyString.

Definition paris : SearchParams :=
  mkSearchParams (AString "Paris") AUndefined AUndefined AUndefined AUndefined AUndefined
                 AUndefined AUndefined AUndefined AUndefined AUndefined AUndefined.

Definition listing (id : string) : ListingParams :=
  mkListingParams (AString id) AUndefined AUndefined AUndefined AUndefined AUndefined
                  AUndefined AUndefined.

Definition handleAirbnbSearch :=
  handleAirbnbSearch agent URL_parts URL_resolve URL_parse_other robots_isAllowed
                     script_text JSON_parse cleanObject pickBySchema flattenArraysInObject.

Definition handleAirbnbListingDetails :=
  handleAirbnbListingDetails agent URL_parts URL_resolve URL_parse_other robots_isAllowed
                             script_text JSON_parse cleanObject pickBySchema
                             flattenArraysInObject.

Definition paris_url : URL :=
  mkURL "/s/Paris/homes" EmptyString
        [("adults", "1"); ("children", "0"); ("infants", "0"); ("pets", "0")]
        true EmptyString.

Definition listing_url : URL :=
  mkURL "/rooms/123" EmptyString
        [("adults", "1"); ("children", "0"); ("infants", "0");
         ("adults", "1"); ("children", "0"); ("infants", "0"); ("pets", "0")]
        true EmptyString.

Definition fetch_search_page := fetch_search_page agent URL_parts URL_resolve.
Definition fetch_listing_page := fetch_listing_page agent URL_parts URL_resolve.

Definition extractSearchResults :=
  extractSearchResults script_text JSON_parse cleanObject pickBySchema flattenArraysInObject.

Definition extractDetails :=
  extractDetails script_text JSON_parse cleanObject pickBySchema flattenArraysInObject.

Definition sections : list Json :=
  [ JObj [("sectionId", JStr "LOCATION_DEFAULT");
          ("section", JObj [("lat", JNum "48.85"); ("lng", JNum "2.35")])];
    JObj [("sectionId", JStr "REVIEWS_DEFAULT");
          ("section", JObj [("title", JStr "Reviews")])];
    JObj [("sectionId", JStr "AMENITIES_DEFAULT");
          ("section", JObj [("title", JStr "What this place offers")])] ].

End Sample.

(* ================================================================== *)
(** ** Start-up and dispatch *)
(* ================================================================== *)

(** What the request handler of [CallToolRequestSchema] returns: the
    result of a tool handler as it is, or the single text item
    [Error: <message>] with [isError] true. *)
Inductive CallToolResult :=
| HandlerResult (r : ToolResult)
| ErrorText (text : string).

Definition call_isError (r : CallToolResult) : bool :=
  match r with
  | HandlerResult r => isError r
  | ErrorText _ => true
  end.

(** [args.key] on the arguments object: [undefined] for a missing key. *)
Definition prop (args : list (string * Arg)) (key : string) : Arg :=
  match Map_get args key with
  | Some a => a
  | None => AUndefined
  end.

(** The destructuring at the head of [handleAirbnbSearch]. *)
Definition search_params_of (args : list (string * Arg)) : SearchParams :=
  mkSearchParams (prop args "location") (prop args "placeId") (prop args "checkin")
                 (prop args "checkout") (prop args "adults") (prop args "children")
                 (prop args "infants") (prop args "pets") (prop args "minPrice")
                 (prop args "maxPrice") (prop args "cursor") (prop args "ignoreRobotsText").

(** The destructuring at the head of [handleAirbnbListingDetails]. *)
Definition listing_params_of (args : list (string * Arg)) : ListingParams :=
  mkListingParams (prop args "id") (prop args "checkin") (prop args "checkout")
                  (prop args "adults") (prop args "children") (prop args "infants")
                  (prop args "pets") (prop args "ignoreRobotsText").

(** What the destructuring at the head of a handler throws when the
    request has no arguments; [first] is the first name of the pattern. *)
Definition destructure_error (first : string) : Exception :=
  type_error ("Cannot destructure property '" ++ first
              ++ "' of 'params' as it is undefined.").

Section Server.
Variable SESSION_USER_AGENT : string.
Variable URL_parts : string -> option (string * string).
Variable URL_resolve : string -> string -> option string.
Variable URL_parse_other : string -> URL.
Variable IGNORE_ROBOTS_TXT : bool.
Variable robots_isAllowed : string -> string -> string -> option bool.
Variable script_text : string -> string.
Variable JSON_parse : string -> option Json.
Variable cleanObject : Json -> Json.
Variable pickBySchema : JsValue -> option Schema -> JsValue.
Variable flattenArraysInObject : JsValue -> JsValue.
(** [new McpError(ErrorCode.MethodNotFound, message)] of the SDK. *)
Variable McpError_MethodNotFound : string -> Exception.

(** [initializeBrowserSession()]. *)
Definition initializeBrowserSession : M unit :=
  try_catch
    (_ <- console_error "Initializing browser session..." ;;
     _ <- fetchWithBrowserHeaders SESSION_USER_AGENT URL_parts URL_resolve BASE_URL [] 0 ;;
     _ <- fetchRobotsTxt SESSION_USER_AGENT URL_parts URL_resolve IGNORE_ROBOTS_TXT ;;
     console_error "Browser session initialized successfully")
    (fun error =>
       console_error ("Error initializing browser session: " ++ message error)).

(** The handler registered for [CallToolRequestSchema]; [arguments] is
    [request.params.arguments], [None] when the request has none. *)
Definition callTool (name : string) (arguments : option (list (string * Arg)))
  : M CallToolResult :=
  try_catch
    (if String.eqb name "airbnb_search" then
       match arguments with
       | None => throw (destructure_error "location")
       | Some args =>
           r <- handleAirbnbSearch SESSION_USER_AGENT URL_parts URL_resolve URL_parse_other
                  robots_isAllowed script_text JSON_parse cleanObject pickBySchema
                  flattenArraysInObject (search_params_of args) ;;
           ret (HandlerResult r)
       end
     else if String.eqb name "airbnb_listing_details" then
       match arguments with
       | None => throw (destructure_error "id")
       | Some args =>
           r <- handleAirbnbListingDetails SESSION_USER_AGENT URL_parts URL_resolve
                  URL_parse_other robots_isAllowed script_text JSON_parse cleanObject
                  pickBySchema flattenArraysInObject (listing_params_of args) ;;
           ret (HandlerResult r)
       end
     else throw (McpError_MethodNotFound ("Unknown tool: " ++ name)))
    (fun error => ret (ErrorText ("Error: " ++ message error))).
End Server.

(* ================================================================== *)
(** ** More vocabulary *)
(* ================================================================== *)

(** The cookie a [Set-Cookie] entry stores, if it stores one. *)
Definition cookie_of_entry (cookieString : string) : option (string * string) :=
  match split "=" (hd EmptyString (split ";" cookieString)) with
  | name :: value :: _ =>
      if truthy_string name && truthy_string value then Some (trim name, trim value)
      else None
  | _ => None
  end.

(** The value the last entry naming [name] stores, if any entry does. *)
Fixpoint last_cookie (entries : list string) (name : string) : option string :=
  match entries with
  | [] => None
  | entry :: rest =>
      match last_cookie rest name with
      | Some v => Some v
      | None =>
          match cookie_of_entry entry with
          | Some (k, v) => if String.eqb k name then Some v else None
          | None => None
          end
      end
  end.

(** The names of a map, in order. *)
Definition keys {V} (m : list (string * V)) : list string := map fst m.

(** The requests among the events of a trace. *)
Fixpoint count_fetches (tr : list Event) : nat :=
  match tr with
  | [] => 0
  | EvFetch _ _ :: rest => S (count_fetches rest)
  | _ :: rest => count_fetches rest
  end.

(** The value given by the last entry of [b] that names [k]. *)
Fixpoint last_binding {V} (b : list (string * V)) (k : string) : option V :=
  match b with
  | [] => None
  | (k', v) :: rest =>
      match last_binding rest k with
      | Some w => Some w
      | None => if String.eqb k' k then Some v else None
      end
  end.

(** The string holds a surrogate that is not part of a pair. *)
Fixpoint has_lone_surrogate (s : string) : bool :=
  match s with
  | EmptyString => false
  | String c s' => lone_surrogate c s' || has_lone_surrogate s'
  end.

(** The query of a URL is in step with its list of parameters. *)
Definition query_synced (u : URL) : Prop :=
  search u = match searchParams u with
             | [] => EmptyString
             | ps => "?" ++ serialize_params ps
             end.

(** The entry an optional argument adds to a query: none when the
    argument is falsy. *)
Definition optional_param (name : string) (x : Arg) : list (string * string) :=
  if truthy x then [(name, ToString x)] else [].

(** The four guest entries the search pipeline appends. *)
Definition search_guest_params (g : Guests) : list (string * string) :=
  [ ("adults", JsInt_toString (adults_int g));
    ("children", JsInt_toString (children_int g));
    ("infants", JsInt_toString (infants_int g));
    ("pets", JsInt_toString (pets_int g)) ].

(** The query list of a search, in order. *)
Definition search_query (p : SearchParams) (g : Guests) : list (string * string) :=
  optional_param "place_id" (sp_placeId p) ++
  optional_param "checkin" (sp_checkin p) ++
  optional_param "checkout" (sp_checkout p) ++
  (if positive_total (adults_int g) (children_int g) then search_guest_params g else []) ++
  optional_param "price_min" (sp_minPrice p) ++
  optional_param "price_max" (sp_maxPrice p) ++
  optional_param "cursor" (sp_cursor p).

(** [v.key] on a value that is neither [null] nor [undefined]. *)
Definition property (v : Json) (key : string) : JsValue :=
  match v with
  | JObj fields => Map_get fields key
  | _ => None
  end.

(** A projected search result can be linked when it is an object whose
    [listing] is neither missing nor [null]. *)
Definition has_listing (result : JsValue) : bool :=
  match result with
  | Some (JObj fields) =>
      match Map_get fields "listing" with
      | Some JNull | None => false
      | Some _ => true
      end
  | _ => false
  end.

(** The entry of [searchResults] made from a projected result that can be
    linked. *)
Definition linked_entry (result : JsValue) : Json :=
  match result with
  | Some (JObj fields) =>
      let id := match Map_get fields "listing" with
                | Some listing => property listing "id"
                | None => None
                end in
      JObj (Object_assign [("url", JStr (BASE_URL ++ "/rooms/" ++ JsValue_ToString id))]
                          fields)
  | _ => JObj []
  end.

Section ExtractionVocabulary.
Variable script_text : string -> string.
Variable JSON_parse : string -> option Json.
Variable cleanObject : Json -> Json.
Variable pickBySchema : JsValue -> option Schema -> JsValue.
Variable flattenArraysInObject : JsValue -> JsValue.

(** [results], cleaned, as the search pipeline reaches it. *)
Definition search_results (html : string) : Result JsValue :=
  pr <-- presentation script_text JSON_parse html ;;
  staysSearch <-- get pr "staysSearch" ;;
  results <-- get staysSearch "results" ;;
  Ok (option_map (clean_in_place cleanObject) results).

(** A search result after projection and flattening. *)
Definition projected_result (result : Json) : JsValue :=
  flattenArraysInObject (pickBySchema (Some result) (Some allowSearchResultSchema)).

(** The second [map] callback of the search pipeline:
    [{ url: `${BASE_URL}/rooms/${result.listing.id}`, ...result }]. *)
Definition link_result (result : JsValue) : Result Json :=
  listing <-- get result "listing" ;;
  id <-- get listing "id" ;;
  Ok (JObj (Object_assign
              [("url", JStr (BASE_URL ++ "/rooms/" ++ JsValue_ToString id))]
              (spread result))).
End ExtractionVocabulary.

(** Pages with a deferred state, for the examples of the extraction. *)
Module SamplePages.

(** [JSON.stringify] on values whose strings need no escape. *)
Fixpoint stringify (v : Json) : string :=
  match v with
  | JNull => "null"
  | JBool true => "true"
  | JBool false => "false"
  | JNum repr => repr
  | JStr s => quoted s
  | JArr items => "[" ++ join "," (map stringify items) ++ "]"
  | JObj fields =>
      "{" ++ join "," (map (fun kv => match kv with
                                      | (k, x) => quoted k ++ ":" ++ stringify x
                                      end) fields) ++ "}"
  end.

(** The deferred state around a [presentation] object. *)
Definition state (presentation : Json) : Json :=
  JObj [("niobeMinimalClientData",
         JArr [JArr [JStr "StaysPdpSections";
                     JObj [("data", JObj [("presentation", presentation)])]]])].

Definition result (id : string) : Json :=
  JObj [("listing", JObj [("id", JStr id)]); ("avgRatingA11yLabel", JStr "4.9 out of 5")].

Definition result_without_listing : Json :=
  JObj [("avgRatingA11yLabel", JStr "New place to stay")].

Definition results (items : list Json) : list (string * Json) :=
  [("searchResults", JArr items);
   ("paginationInfo", JObj [("nextPageCursor", JStr "abc")])].

Definition search_state (items : list Json) : Json :=
  state (JObj [("staysSearch", JObj [("results", JObj (results items))])]).

Definition listing_state (sections : list Json) : Json :=
  state (JObj [("stayProductDetailPage",
                JObj [("sections", JObj [("sections", JArr sections)])])]).

(** The surrogate U+D800 on its own. *)
Definition lone_high_surrogate : string :=
  String (ascii_of_N 237) (String (ascii_of_N 160) (String (ascii_of_N 128) EmptyString)).

Definition linked_items : list Json := [result "42"; result "43"].
Definition unlinked_items : list Json := [result "42"; result_without_listing; result "43"].
Definition sections_with_null : list Json := Sample.sections ++ [JNull].

Definition documents : list Json :=
  [search_state linked_items; search_state unlinked_items; listing_state sections_with_null].

(** [JSON.parse] on the texts of [documents]. *)
Definition JSON_parse (text : string) : option Json :=
  find (fun document => String.eqb text (stringify document)) documents.

Definition page (document : Json) : string :=
  "<html>" ++ Sample.script_open ++ stringify document ++ Sample.script_close ++ "</html>".

Definition extractSearchResults :=
  extractSearchResults Sample.script_text JSON_parse Sample.cleanObject Sample.pickBySchema
                       Sample.flattenArraysInObject.

Definition extractDetails :=
  extractDetails Sample.script_text JSON_parse Sample.cleanObject Sample.pickBySchema
                 Sample.flattenArraysInObject.

End SamplePages.

(* ================================================================== *)
(** ** Properties of the string primitives and of the maps *)
(* ================================================================== *)

Lemma split_without_separator (c : ascii) (s : string) :
  has_char c s = false -> split c s = [s].
Proof.
  induction s as [|d s IH]; simpl; intro H; [reflexivity|].
  apply orb_false_iff in H as [Hd Hs].
  rewrite Hd, (IH Hs). reflexivity.
Qed.

Lemma split_at_separator (c : ascii) (a b : string) :
  has_char c a = false -> split c (a ++ String c b) = a :: split c b.
Proof.
  induction a as [|d a IH]; simpl; intro H.
  - rewrite Ascii.eqb_refl. reflexivity.
  - apply orb_false_iff in H as [Hd Ha].
    rewrite Hd, (IH Ha). reflexivity.
Qed.

Lemma has_char_app (c : ascii) (a b : string) :
  has_char c (a ++ b) = has_char c a || has_char c b.
Proof.
  induction a as [|d a IH]; simpl; [reflexivity|].
  rewrite IH, orb_assoc. reflexivity.
Qed.

Lemma append_assoc (a b c : string) : (a ++ b) ++ c = a ++ (b ++ c).
Proof. induction a as [|d a IH]; simpl; [reflexivity | now rewrite IH]. Qed.

Lemma append_empty_r (a : string) : a ++ EmptyString = a.
Proof. induction a as [|d a IH]; simpl; [reflexivity | now rewrite IH]. Qed.

Lemma truthy_string_nonempty (s : string) :
  s <> EmptyString -> truthy_string s = true.
Proof. destruct s; [congruence | reflexivity]. Qed.

(** The text before the first [;] of [main ++ attrs] is [main] when the
    attributes are absent or start with [;]. *)
Lemma main_part (main attrs : string) :
  has_char ";" main = false ->
  attrs = EmptyString \/ (exists a, attrs = String ";" a) ->
  hd EmptyString (split ";" (main ++ attrs)) = main.
Proof.
  intros Hmain [-> | [a ->]].
  - rewrite append_empty_r, split_without_separator by assumption. reflexivity.
  - rewrite split_at_separator by assumption. reflexivity.
Qed.

Section MapFacts.
Context {V : Type}.

Lemma Map_get_set_same (m : list (string * V)) (k : string) (v : V) :
  Map_get (Map_set m k v) k = Some v.
Proof.
  induction m as [|[k' v'] m IH]; simpl.
  - rewrite String.eqb_refl. reflexivity.
  - destruct (String.eqb k' k) eqn:E; simpl.
    + rewrite String.eqb_refl. reflexivity.
    + rewrite E. exact IH.
Qed.

Lemma Map_get_set_other (m : list (string * V)) (k k0 : string) (v : V) :
  k0 <> k -> Map_get (Map_set m k v) k0 = Map_get m k0.
Proof.
  intro Hne.
  assert (Hk : String.eqb k k0 = false) by (apply String.eqb_neq; congruence).
  induction m as [|[k' v'] m IH]; simpl.
  - rewrite Hk. reflexivity.
  - destruct (String.eqb k' k) eqn:E; simpl.
    + apply String.eqb_eq in E. subst k'. rewrite Hk. reflexivity.
    + destruct (String.eqb k' k0); [reflexivity | exact IH].
Qed.
End MapFacts.

(** The loop body on an entry [name=value] followed by attributes. *)
Lemma parseCookieEntry_pair (jar : CookieJar) (name value attrs : string) :
  has_char ";" name = false -> has_char "=" name = false ->
  has_char ";" value = false -> has_char "=" value = false ->
  attrs = EmptyString \/ (exists a, attrs = String ";" a) ->
  parseCookieEntry jar (name ++ "=" ++ value ++ attrs) =
  if truthy_string name && truthy_string value
  then Map_set jar (trim name) (trim value) else jar.
Proof.
  intros Hn1 Hn2 Hv1 Hv2 Hattrs. unfold parseCookieEntry.
  replace (name ++ "=" ++ value ++ attrs) with ((name ++ "=" ++ value) ++ attrs)
    by (rewrite append_assoc; reflexivity).
  rewrite main_part; [| | assumption].
  - change (name ++ "=" ++ value) with (name ++ String "=" value).
    rewrite split_at_separator by assumption.
    rewrite split_without_separator by assumption. reflexivity.
  - rewrite has_char_app, Hn1. simpl. exact Hv1.
Qed.

(* ================================================================== *)
(** ** Cookie jar *)
(* ================================================================== *)

(** C4, as amended.  For a [Set-Cookie] entry whose text before the first
    [;] is [name=value] with a non-empty name and a non-empty value that
    holds no further [=], [parseCookies] stores the trimmed name with the
    trimmed value, overwriting any cookie of that name and leaving the
    other cookies alone, whatever attributes follow the [;]; an entry with
    an empty name or an empty value stores nothing.  From an empty jar,
    recording
    [a=1] and [b=2; Path=/] serializes to [a=1; b=2], and recording [a=3]
    afterwards serializes to [a=3; b=2], which no longer holds [a=1]. *)
Theorem parseCookies_stores_trimmed_pair :
  forall (jar : CookieJar) (name value attrs : string),
    has_char ";" name = false -> has_char "=" name = false ->
    has_char ";" value = false -> has_char "=" value = false ->
    name <> EmptyString -> value <> EmptyString ->
    attrs = EmptyString \/ (exists a, attrs = String ";" a) ->
    let jar' := parseCookieEntry jar (name ++ "=" ++ value ++ attrs) in
    jar' = Map_set jar (trim name) (trim value)
    /\ Map_get jar' (trim name) = Some (trim value)
    /\ (forall other, other <> trim name -> Map_get jar' other = Map_get jar other)
    /\ parseCookieEntry jar (name ++ "=" ++ attrs) = jar
    /\ parseCookieEntry jar ("=" ++ value ++ attrs) = jar
    /\ (let jar1 := parseCookies (mkResponse 200 ["a=1"; "b=2; Path=/"] None EmptyString) [] in
        let jar2 := parseCookies (mkResponse 200 ["a=3"] None EmptyString) jar1 in
        getCookieString jar1 = "a=1; b=2"
        /\ includes (getCookieString jar1) "a=1" = true
        /\ includes (getCookieString jar1) "b=2" = true
        /\ getCookieString jar2 = "a=3; b=2"
        /\ includes (getCookieString jar2) "a=3" = true
        /\ includes (getCookieString jar2) "a=1" = false).
Proof.
  intros jar name value attrs Hn1 Hn2 Hv1 Hv2 Hn Hv Hattrs jar'.
  assert (Hjar : jar' = Map_set jar (trim name) (trim value)).
  { unfold jar'. rewrite parseCookieEntry_pair by assumption.
    rewrite (truthy_string_nonempty _ Hn), (truthy_string_nonempty _ Hv). reflexivity. }
  split; [exact Hjar|]. rewrite Hjar.
  split; [apply Map_get_set_same|].
  split; [intros other Hne; apply Map_get_set_other; exact Hne|].
  split; [|split].
  - pose proof (parseCookieEntry_pair jar name EmptyString attrs Hn1 Hn2 eq_refl eq_refl Hattrs) as E.
    simpl in E. rewrite andb_false_r in E. exact E.
  - exact (parseCookieEntry_pair jar EmptyString value attrs eq_refl eq_refl Hv1 Hv2 Hattrs).
  - vm_compute. repeat split.
Qed.

Lemma parseCookies_stores_trimmed_pair_witness :
  parseCookieEntry [("sid", "old")] ("sid" ++ "=" ++ " xyz" ++ "; Path=/; HttpOnly")
  = [("sid", "xyz")].
Proof.
  exact (proj1 (parseCookies_stores_trimmed_pair
                  [("sid", "old")] "sid" " xyz" "; Path=/; HttpOnly"
                  eq_refl eq_refl eq_refl eq_refl
                  ltac:(discriminate) ltac:(discriminate)
                  (or_intror (ex_intro _ " Path=/; HttpOnly" eq_refl)))).
Defined.

(** A value that holds [=] itself, evaluated: only the text up to the
    second [=] is stored. *)
Example parseCookies_value_with_equals :
  parseCookieEntry [] "token=abc==; Path=/" = [("token", "abc")]
  /\ pair_before_semicolon "token=abc==; Path=/" = Some ("token", "abc==").
Proof. split; reflexivity. Qed.

(** C4, counterexample.  The entry [a=; Max-Age=0] has the pair [a=]
    (name [a], empty value) before its first [;], yet recording it leaves
    the stored cookie [a=1] as it was: the pair is not stored and the old
    cookie is not overwritten.  The entry [=v] (empty name) is skipped in
    the same way. *)
Lemma parseCookies_empty_value_cex :
  pair_before_semicolon "a=; Max-Age=0" = Some ("a", EmptyString)
  /\ parseCookieEntry [("a", "1")] "a=; Max-Age=0" = [("a", "1")]
  /\ parseCookieEntry [("a", "1")] "a=; Max-Age=0" <> Map_set [("a", "1")] "a" EmptyString
  /\ getCookieString
       (parseCookies (mkResponse 200 ["a=; Max-Age=0"] None EmptyString) [("a", "1")])
     = "a=1"
  /\ pair_before_semicolon "=v; Path=/" = Some (EmptyString, "v")
  /\ parseCookieEntry [("a", "1")] "=v; Path=/" = [("a", "1")].
Proof.
  repeat split; try reflexivity. vm_compute. discriminate.
Qed.

(* ================================================================== *)
(** ** Coercion of the guest counts *)
(* ================================================================== *)

Ltac eval_digit :=
  match goal with
  | |- context [digit_value 10 ?c] =>
      let v := eval vm_compute in (digit_value 10 c) in
      change (digit_value 10 c) with v; cbv beta iota
  end.

Lemma parse_digits_acc (d : Decimal.uint) :
  forall a : positive,
    parse_digits 10 (NilEmpty.string_of_uint d) (Some (N.pos a)) =
    Some (N.pos (Pos.of_uint_acc d a)).
Proof.
  induction d; intro a; cbn [NilEmpty.string_of_uint parse_digits Pos.of_uint_acc];
    try reflexivity;
    eval_digit; rewrite <- IHd; f_equal; f_equal; lia.
Qed.

Lemma parse_digits_zero (d : Decimal.uint) :
  parse_digits 10 (NilEmpty.string_of_uint d) (Some 0%N) = Some (Pos.of_uint d).
Proof.
  induction d; cbn [NilEmpty.string_of_uint parse_digits Pos.of_uint];
    try reflexivity;
    eval_digit; [exact IHd | apply parse_digits_acc ..].
Qed.

(** The digits printed for a number are read back as that number: no
    digit string starts with a radix prefix. *)
Lemma parseInt_magnitude_digits (d : Decimal.uint) :
  d <> Decimal.Nil ->
  parseInt_magnitude (NilEmpty.string_of_uint d) = Some (Pos.of_uint d).
Proof.
  intro Hd.
  assert (H : parse_digits 10 (NilEmpty.string_of_uint d) None = Some (Pos.of_uint d)).
  { destruct d; try congruence;
      cbn [NilEmpty.string_of_uint parse_digits Pos.of_uint];
      eval_digit; [apply parse_digits_zero | apply parse_digits_acc ..]. }
  destruct d as [|d|d|d|d|d|d|d|d|d|d]; try congruence; try exact H.
  destruct d; exact H.
Qed.

(** A character below U+0080 that is not white space starts no white
    space. *)
Lemma trimStart_ascii (a : ascii) (s : string) :
  (N_of_ascii a <? 128)%N = true -> white_space1 a = false ->
  trimStart (String a s) = String a s.
Proof.
  intros Ha Hw. apply N.ltb_lt in Ha. cbn [trimStart]. rewrite Hw.
  assert (H2 : forall b, white_space2 a b = false).
  { intro b. unfold white_space2.
    destruct (N.eqb_spec (N_of_ascii a) 194) as [E|_]; [lia | reflexivity]. }
  assert (H3 : forall b c, white_space3 a b c = false).
  { intros b c. unfold white_space3.
    destruct (N.eqb_spec (N_of_ascii a) 225) as [E|_]; [lia|].
    destruct (N.eqb_spec (N_of_ascii a) 226) as [E|_]; [lia|].
    destruct (N.eqb_spec (N_of_ascii a) 227) as [E|_]; [lia|].
    destruct (N.eqb_spec (N_of_ascii a) 239) as [E|_]; [lia|].
    reflexivity. }
  destruct s as [|b [|c s3]]; rewrite ?H2, ?H3; reflexivity.
Qed.

Lemma trimStart_digits (d : Decimal.uint) :
  trimStart (NilEmpty.string_of_uint d) = NilEmpty.string_of_uint d.
Proof.
  destruct d; cbn [NilEmpty.string_of_uint]; try reflexivity;
    apply trimStart_ascii; reflexivity.
Qed.

(** The digits printed for an integer are read back as its Number
    value. *)
Lemma parseInt_decimal (z : Z) : parseInt (decimal z) = Number_value z.
Proof.
  destruct z as [|p|p]; [reflexivity| |].
  - unfold decimal, parseInt. cbn [Z.to_int NilZero.string_of_int].
    pose proof (Unsigned.to_uint_nonnil p) as Hnn.
    pose proof (parseInt_magnitude_digits _ Hnn) as Hm.
    rewrite Unsigned.of_to in Hm.
    destruct (Pos.to_uint p) eqn:E; try congruence;
      unfold NilZero.string_of_uint; rewrite trimStart_digits;
      cbn [NilEmpty.string_of_uint] in *; rewrite Hm; reflexivity.
  - unfold decimal, parseInt. cbn [Z.to_int NilZero.string_of_int].
    pose proof (Unsigned.to_uint_nonnil p) as Hnn.
    pose proof (parseInt_magnitude_digits _ Hnn) as Hm.
    rewrite Unsigned.of_to in Hm.
    destruct (Pos.to_uint p) eqn:E; try congruence;
      unfold NilZero.string_of_uint; rewrite trimStart_ascii by reflexivity;
      cbn [NilEmpty.string_of_uint] in *; rewrite Hm; reflexivity.
Qed.

(** Below 2^53 every integer is a double. *)
Lemma Number_value_exact (z : Z) :
  (Z.abs z < 9007199254740992)%Z -> Number_value z = Int z.
Proof.
  assert (H : forall p, (Zpos p < 9007199254740992)%Z -> round_double (Zpos p) = Some (Zpos p)).
  { intros p Hp. unfold round_double.
    assert (Hlog : (Z.log2 (Zpos p) < 53)%Z)
      by (apply Z.log2_lt_pow2; [lia | exact Hp]).
    destruct (Z.leb_spec (Z.log2 (Zpos p) + 1) 53); [reflexivity | lia]. }
  destruct z as [|p|p]; intro Hz; [reflexivity| |];
    unfold Number_value; rewrite H by exact Hz; reflexivity.
Qed.

Lemma Z_toString_exact (z : Z) :
  (Z.abs z < 9007199254740992)%Z -> Z_toString z = decimal z.
Proof.
  intro Hz. unfold Z_toString. rewrite (Number_value_exact z Hz).
  destruct z as [|p|p]; [reflexivity| |]; cbn [JsInt_toString]; unfold positive_toString;
    (destruct (Z.ltb_spec (Zpos p) 9007199254740992); [reflexivity | simpl in Hz; lia]).
Qed.

(** [parseInt(n.toString())] is [n] for an integer [n] below 2^53 in
    magnitude. *)
Lemma parseInt_toString (z : Z) :
  (Z.abs z < 9007199254740992)%Z -> parseInt (Z_toString z) = Int z.
Proof.
  intro Hz. rewrite (Z_toString_exact z Hz), parseInt_decimal.
  exact (Number_value_exact z Hz).
Qed.

(** The coercion of such a numeric argument is the number itself. *)
Lemma coerce_number (z : Z) :
  (Z.abs z < 9007199254740992)%Z -> coerce (ANumber z) = Some (Int z).
Proof.
  intro Hz. unfold coerce. cbn [toString ToString].
  rewrite (parseInt_toString z Hz). reflexivity.
Qed.

(* ================================================================== *)
(** ** URL construction *)
(* ================================================================== *)

Lemma all_chars_app (p : ascii -> bool) (a b : string) :
  all_chars p (a ++ b) = all_chars p a && all_chars p b.
Proof.
  induction a as [|c a IH]; simpl; [reflexivity|].
  rewrite IH, andb_assoc. reflexivity.
Qed.

Lemma percent_utf8_plain (c : ascii) :
  all_chars plain_char (percent_utf8 c) = true.
Proof.
  destruct c as [[] [] [] [] [] [] [] []]; vm_compute; reflexivity.
Qed.

Lemma all_chars_weaken (p q : ascii -> bool) (s : string) :
  (forall c, p c = true -> q c = true) ->
  all_chars p s = true -> all_chars q s = true.
Proof.
  intro Hpq. induction s as [|c s IH]; simpl; [reflexivity|].
  intro H. apply andb_true_iff in H as [Hc Hs].
  rewrite (Hpq _ Hc), (IH Hs). reflexivity.
Qed.

Lemma encode_cons (c : ascii) (s : string) :
  encodeURIComponent_string (String c s) =
  if lone_surrogate c s then None
  else match encodeURIComponent_string s with
       | Some t =>
           Some ((if uri_unreserved c then String c EmptyString else percent_utf8 c) ++ t)
       | None => None
       end.
Proof. reflexivity. Qed.

(** The output of [encodeURIComponent] is made of plain characters. *)
Lemma encodeURIComponent_plain (s : string) :
  forall t, encodeURIComponent_string s = Some t -> all_chars plain_char t = true.
Proof.
  induction s as [|c s IH]; intros t; rewrite ?encode_cons.
  - intro H. injection H as <-. reflexivity.
  - destruct (lone_surrogate c s); [discriminate|].
    destruct (encodeURIComponent_string s) as [t'|]; [|discriminate].
    intro H. injection H as <-.
    rewrite all_chars_app, (IH t' eq_refl), andb_true_r.
    destruct (uri_unreserved c) eqn:E.
    + simpl. unfold plain_char. rewrite E. reflexivity.
    + apply percent_utf8_plain.
Qed.

(** The search URL never leaves the part of the URL parser that is
    modelled: its path is plain whatever the location. *)
Lemma new_URL_search (other : string -> URL) (location : Arg) (encoded : string) :
  encodeURIComponent location = Some encoded ->
  new_URL other ("/s/" ++ encoded ++ "/homes") =
  mkURL (normalize_path ("/s/" ++ encoded ++ "/homes")) EmptyString [] false EmptyString.
Proof.
  intro Henc. unfold new_URL.
  assert (H : plain_path ("/s/" ++ encoded ++ "/homes") = true).
  { unfold plain_path.
    change ("/s/" ++ encoded ++ "/homes") with ("/s/" ++ (encoded ++ "/homes")).
    rewrite !all_chars_app. apply andb_true_iff. split; [reflexivity|].
    apply andb_true_iff. split; [|reflexivity].
    apply all_chars_weaken with (p := plain_char).
    - intros c Hc. rewrite Hc. reflexivity.
    - exact (encodeURIComponent_plain _ _ Henc). }
  rewrite H. reflexivity.
Qed.

(** An identifier made of plain characters brings no query of its own. *)
Lemma new_URL_plain (other : string -> URL) (rest : string) :
  plain_path rest = true ->
  searchParams (new_URL other rest) = [] /\ pathname (new_URL other rest) = normalize_path rest.
Proof. intro H. unfold new_URL. rewrite H. split; reflexivity. Qed.

Lemma has_param_app (n : string) (a b : list (string * string)) :
  has_param n (a ++ b)%list = has_param n a || has_param n b.
Proof. unfold has_param. apply existsb_app. Qed.

Lemma count_param_app (n : string) (a b : list (string * string)) :
  count_param n (a ++ b)%list = count_param n a + count_param n b.
Proof. unfold count_param. rewrite filter_app, length_app. reflexivity. Qed.

Lemma searchParams_append_if (u : URL) (k : string) (x : Arg) :
  searchParams (append_if u k x) =
  (searchParams u ++ (if truthy x then [(k, ToString x)] else []))%list.
Proof.
  unfold append_if. destruct (truthy x); simpl; [reflexivity|].
  rewrite app_nil_r. reflexivity.
Qed.

Lemma searchParams_append (u : URL) (k v : string) :
  searchParams (append u k v) = (searchParams u ++ [(k, v)])%list.
Proof. reflexivity. Qed.

Lemma search_append (u : URL) (k v : string) :
  search (append u k v) = "?" ++ serialize_params (searchParams (append u k v)).
Proof.
  unfold search. simpl.
  destruct (searchParams u ++ [(k, v)])%list eqn:E; [|reflexivity].
  symmetry in E. apply app_cons_not_nil in E. contradiction.
Qed.

Lemma has_param_append_if_other (n : string) (u : URL) (k : string) (x : Arg) :
  String.eqb k n = false ->
  has_param n (searchParams (append_if u k x)) = has_param n (searchParams u).
Proof.
  intro Hk. rewrite searchParams_append_if, has_param_app.
  destruct (truthy x); simpl; [rewrite Hk|]; rewrite ?orb_false_r; reflexivity.
Qed.

Lemma count_param_append_if_other (n : string) (u : URL) (k : string) (x : Arg) :
  String.eqb k n = false ->
  count_param n (searchParams (append_if u k x)) = count_param n (searchParams u).
Proof.
  intro Hk. rewrite searchParams_append_if, count_param_app.
  destruct (truthy x); unfold count_param; simpl; [rewrite Hk|]; simpl; lia.
Qed.

Lemma pathname_append_if (u : URL) (k : string) (x : Arg) :
  pathname (append_if u k x) = pathname u.
Proof. unfold append_if. destruct (truthy x); reflexivity. Qed.

Lemma guest_name_cases (n : string) :
  In n guest_names -> n = "adults" \/ n = "children" \/ n = "infants" \/ n = "pets".
Proof. simpl. intuition. Qed.

(** The guest parameters of the search URL, for any arguments. *)
Lemma buildSearchUrl_guests (other : string -> URL) (p : SearchParams) (g : Guests)
      (encoded : string) :
  encodeURIComponent (sp_location p) = Some encoded ->
  coerce_guests (sp_adults p) (sp_children p) (sp_infants p) (sp_pets p) = Some g ->
  exists u, buildSearchUrl other p = Some u
    /\ pathname u = normalize_path ("/s/" ++ encoded ++ "/homes")
    /\ forall n, In n guest_names ->
         has_param n (searchParams u) = JsInt_gt0 (totalGuests g).
Proof.
  intros Henc Hg. unfold buildSearchUrl. rewrite Henc, Hg, (new_URL_search _ _ _ Henc).
  eexists. split; [reflexivity|]. split.
  - rewrite !pathname_append_if.
    destruct (JsInt_gt0 (totalGuests g)); simpl; rewrite !pathname_append_if; reflexivity.
  - intros n Hn.
    apply guest_name_cases in Hn as [-> | [-> | [-> | ->]]];
      rewrite !has_param_append_if_other by reflexivity;
      destruct (JsInt_gt0 (totalGuests g)); simpl;
      rewrite ?has_param_app, ?has_param_append_if_other by reflexivity;
      simpl; rewrite ?orb_true_r; reflexivity.
Qed.

(** The query list of the listing URL: what the identifier brings, the
    dates, the guests. *)
Lemma buildListingUrl_params (other : string -> URL) (p : ListingParams) (g : Guests) :
  coerce_guests (lp_adults p) (lp_children p) (lp_infants p) (lp_pets p) = Some g ->
  exists u, buildListingUrl other p = Some u
    /\ searchParams u =
       (searchParams (new_URL other ("/rooms/" ++ ToString (lp_id p))) ++
        listing_date_params p ++
        (if JsInt_gt0 (totalGuests g) then listing_guest_params g else []))%list
    /\ (JsInt_gt0 (totalGuests g) = true ->
        search u = "?" ++ serialize_params (searchParams u)).
Proof.
  intro Hg. unfold buildListingUrl. rewrite Hg.
  eexists. split; [reflexivity|]. split.
  - destruct (JsInt_gt0 (totalGuests g));
      rewrite ?searchParams_append, !searchParams_append_if;
      unfold listing_date_params, listing_guest_params;
      rewrite <- ?app_assoc, ?app_nil_r; reflexivity.
  - intro Hpos. rewrite Hpos. apply search_append.
Qed.

(** The Number value for a positive integer is positive. *)
Lemma round_double_positive (p : positive) :
  match round_double (Zpos p) with
  | Some v => (0 < v)%Z
  | None => True
  end.
Proof.
  unfold round_double.
  destruct (Z.leb_spec (Z.log2 (Zpos p) + 1) 53) as [_|Hbits]; [lia|].
  set (sh := (Z.log2 (Zpos p) + 1 - 53)%Z).
  assert (Hsh : (0 < sh <= Z.log2 (Zpos p))%Z) by (unfold sh; lia).
  set (q := Z.shiftr (Zpos p) sh).
  match goal with
  | |- context [Z.shiftl (if ?c then _ else _) sh] => set (up := c)
  end.
  set (q' := if up then (q + 1)%Z else q).
  destruct (Z.log2 (Z.shiftl q' sh) <? 1024)%Z; [|exact I].
  assert (Hq : (0 <= q)%Z) by (apply Z.shiftr_nonneg; lia).
  assert (Hq' : (q <= q')%Z) by (unfold q'; destruct up; lia).
  assert (Hbit : Z.testbit q (Z.log2 (Zpos p) - sh) = true).
  { unfold q. rewrite Z.shiftr_spec by lia.
    replace (Z.log2 (Zpos p) - sh + sh)%Z with (Z.log2 (Zpos p)) by lia.
    apply Z.bit_log2. lia. }
  assert (Hq0 : q <> 0%Z).
  { intro E. rewrite E, Z.bits_0 in Hbit. discriminate. }
  rewrite Z.shiftl_mul_pow2 by lia.
  apply Z.mul_pos_pos; [lia | apply Z.pow_pos_nonneg; lia].
Qed.

Lemma Number_value_positive (z : Z) :
  JsInt_gt0 (Number_value z) = (0 <? z)%Z.
Proof.
  destruct z as [|p|p]; [reflexivity| |]; unfold Number_value.
  - pose proof (round_double_positive p) as H.
    destruct (round_double (Zpos p)) as [v|]; [|reflexivity].
    cbn [JsInt_gt0]. destruct (Z.ltb_spec 0 v); [reflexivity | lia].
  - pose proof (round_double_positive p) as H.
    destruct (round_double (Zpos p)) as [v|]; [|reflexivity].
    cbn [JsInt_gt0]. destruct (Z.ltb_spec 0 (- v)); [lia | reflexivity].
Qed.

(** The test [totalGuests > 0] of the handlers is the test the
    specification words. *)
Lemma totalGuests_positive (g : Guests) :
  JsInt_gt0 (totalGuests g) = positive_total (adults_int g) (children_int g).
Proof.
  unfold totalGuests, JsInt_add, positive_total.
  destruct (adults_int g) as [|[|]|a], (children_int g) as [|[|]|c];
    try reflexivity.
  apply Number_value_positive.
Qed.

Lemma listing_date_params_no_guest (p : ListingParams) (n : string) :
  In n guest_names ->
  has_param n (listing_date_params p) = false /\ count_param n (listing_date_params p) = 0.
Proof.
  intro Hn. unfold listing_date_params.
  apply guest_name_cases in Hn as [-> | [-> | [-> | ->]]];
    destruct (truthy (lp_checkin p)), (truthy (lp_checkout p)); split; reflexivity.
Qed.

(** C6.  For [search({location: "Paris"})], whatever the other optional
    arguments, the path of the constructed URL is [/s/Paris/homes]; with
    the four guest counts supplied as zero none of [adults], [children],
    [infants], [pets] is a query parameter of the URL; with [adults: 2]
    all four are. *)
Theorem search_paris_url :
  forall (other : string -> URL)
         (placeId checkin checkout minPrice maxPrice cursor ignoreRobotsText : Arg),
    let url_of adults children infants pets :=
      buildSearchUrl other
        (mkSearchParams (AString "Paris") placeId checkin checkout
                        adults children infants pets
                        minPrice maxPrice cursor ignoreRobotsText) in
    (exists u, url_of AUndefined AUndefined AUndefined AUndefined = Some u
       /\ pathname u = "/s/Paris/homes"
       /\ startsWith (pathname u) "/s/Paris/homes" = true)
    /\ (exists u, url_of (ANumber 0) (ANumber 0) (ANumber 0) (ANumber 0) = Some u
       /\ startsWith (pathname u) "/s/Paris/homes" = true
       /\ has_param "adults" (searchParams u) = false
       /\ has_param "children" (searchParams u) = false
       /\ has_param "infants" (searchParams u) = false
       /\ has_param "pets" (searchParams u) = false)
    /\ (exists u, url_of (ANumber 2) AUndefined AUndefined AUndefined = Some u
       /\ startsWith (pathname u) "/s/Paris/homes" = true
       /\ has_param "adults" (searchParams u) = true
       /\ has_param "children" (searchParams u) = true
       /\ has_param "infants" (searchParams u) = true
       /\ has_param "pets" (searchParams u) = true).
Proof.
  intros other placeId checkin checkout minPrice maxPrice cursor ignoreRobotsText url_of.
  unfold url_of. repeat split.
  - destruct (buildSearchUrl_guests other
                (mkSearchParams (AString "Paris") placeId checkin checkout
                   AUndefined AUndefined AUndefined AUndefined
                   minPrice maxPrice cursor ignoreRobotsText)
                (mkGuests (Int 1) (Int 0) (Int 0) (Int 0)) "Paris" eq_refl eq_refl)
      as (u & Hu & Hp & _).
    assert (Hpath : pathname u = "/s/Paris/homes") by (rewrite Hp; vm_compute; reflexivity).
    exists u. rewrite Hu, Hpath. repeat split.
  - destruct (buildSearchUrl_guests other
                (mkSearchParams (AString "Paris") placeId checkin checkout
                   (ANumber 0) (ANumber 0) (ANumber 0) (ANumber 0)
                   minPrice maxPrice cursor ignoreRobotsText)
                (mkGuests (Int 0) (Int 0) (Int 0) (Int 0)) "Paris" eq_refl eq_refl)
      as (u & Hu & Hp & Hg).
    assert (Hpath : pathname u = "/s/Paris/homes") by (rewrite Hp; vm_compute; reflexivity).
    exists u. rewrite Hu, Hpath.
    repeat split; apply Hg; simpl; tauto.
  - destruct (buildSearchUrl_guests other
                (mkSearchParams (AString "Paris") placeId checkin checkout
                   (ANumber 2) AUndefined AUndefined AUndefined
                   minPrice maxPrice cursor ignoreRobotsText)
                (mkGuests (Int 2) (Int 0) (Int 0) (Int 0)) "Paris" eq_refl eq_refl)
      as (u & Hu & Hp & Hg).
    assert (Hpath : pathname u = "/s/Paris/homes") by (rewrite Hp; vm_compute; reflexivity).
    exists u. rewrite Hu, Hpath.
    repeat split; apply Hg; simpl; tauto.
Qed.

(** C9, as amended.  When the coerced adults count plus the coerced
    children count is positive and the URL made from the listing
    identifier has no query parameter of its own, the listing URL is
    built, its query list is the date parameters followed by [adults],
    [children], [infants], [adults], [children], [infants], [pets], so that
    [adults], [children] and [infants] occur twice each and [pets] once,
    and its query string is the serialization of that list. *)
Theorem listing_url_duplicates_guest_params :
  forall (other : string -> URL) (p : ListingParams) (g : Guests),
    coerce_guests (lp_adults p) (lp_children p) (lp_infants p) (lp_pets p) = Some g ->
    positive_total (adults_int g) (children_int g) = true ->
    searchParams (new_URL other ("/rooms/" ++ ToString (lp_id p))) = [] ->
    exists u, buildListingUrl other p = Some u
      /\ searchParams u = (listing_date_params p ++ listing_guest_params g)%list
      /\ count_param "adults" (searchParams u) = 2
      /\ count_param "children" (searchParams u) = 2
      /\ count_param "infants" (searchParams u) = 2
      /\ count_param "pets" (searchParams u) = 1
      /\ search u = "?" ++ serialize_params (searchParams u).
Proof.
  intros other p g Hg Hpos Hid.
  rewrite <- totalGuests_positive in Hpos.
  destruct (buildListingUrl_params other p g Hg) as (u & Hu & Hps & Hsearch).
  rewrite Hpos, Hid in Hps. cbn [app] in Hps.
  exists u. split; [exact Hu|]. split; [exact Hps|].
  assert (Hcount : forall n, In n guest_names ->
            count_param n (searchParams u) = count_param n (listing_guest_params g)).
  { intros n Hn. rewrite Hps, count_param_app.
    destruct (listing_date_params_no_guest p n Hn) as [_ ->]. reflexivity. }
  repeat split; try (rewrite Hcount by (simpl; tauto); reflexivity).
  exact (Hsearch Hpos).
Qed.

Lemma listing_url_duplicates_guest_params_witness :
  (exists u,
     buildListingUrl Sample.URL_parse_other
       (mkListingParams (AString "123") (AString "2025-07-01") (AString "2025-07-08")
                        (ANumber 2) (ANumber 1) AUndefined AUndefined AUndefined) = Some u
     /\ href u =
        "https://www.airbnb.ca/rooms/123?check_in=2025-07-01&check_out=2025-07-08&adults=2&children=1&infants=0&adults=2&children=1&infants=0&pets=0")
  /\ (exists u,
     buildListingUrl Sample.URL_parse_other
       (mkListingParams (AString "123") AUndefined AUndefined
                        (ANumber 0) (AString "3") AUndefined (ANumber 1) AUndefined) = Some u
     /\ href u =
        "https://www.airbnb.ca/rooms/123?adults=0&children=3&infants=0&adults=0&children=3&infants=0&pets=1").
Proof.
  split.
  - destruct (listing_url_duplicates_guest_params Sample.URL_parse_other
                (mkListingParams (AString "123") (AString "2025-07-01") (AString "2025-07-08")
                                 (ANumber 2) (ANumber 1) AUndefined AUndefined AUndefined)
                (mkGuests (Int 2) (Int 1) (Int 0) (Int 0))
                eq_refl eq_refl eq_refl) as (u & Hu & _).
    exists u. split; [exact Hu|].
    vm_compute in Hu. injection Hu as <-. vm_compute. reflexivity.
  - destruct (listing_url_duplicates_guest_params Sample.URL_parse_other
                (mkListingParams (AString "123") AUndefined AUndefined
                                 (ANumber 0) (AString "3") AUndefined (ANumber 1) AUndefined)
                (mkGuests (Int 0) (Int 3) (Int 0) (Int 1))
                eq_refl eq_refl eq_refl) as (u & Hu & _).
    exists u. split; [exact Hu|].
    vm_compute in Hu. injection Hu as <-. vm_compute. reflexivity.
Defined.

(** C9, counterexample.  The identifier is put into the URL as it is: an
    identifier that carries a query of its own keeps it, and with
    [123?pets=9] and a positive adults count the query of the listing URL
    holds [pets] twice, not once. *)
Lemma listing_id_with_query_cex :
  let p := mkListingParams (AString "123?pets=9") AUndefined AUndefined
                           (ANumber 2) AUndefined AUndefined AUndefined AUndefined in
  coerce_guests (lp_adults p) (lp_children p) (lp_infants p) (lp_pets p) =
    Some (mkGuests (Int 2) (Int 0) (Int 0) (Int 0))
  /\ positive_total (Int 2) (Int 0) = true
  /\ exists u,
       buildListingUrl Sample.URL_parse_other p = Some u
       /\ count_param "pets" (searchParams u) = 2
       /\ href u =
          "https://www.airbnb.ca/rooms/123?pets=9&adults=2&children=0&infants=0&adults=2&children=0&infants=0&pets=0".
Proof.
  intro p. split; [reflexivity|]. split; [reflexivity|].
  eexists. split; [vm_compute; reflexivity|]. split; vm_compute; reflexivity.
Qed.

Lemma coerce_zero : coerce (ANumber 0) = Some (Int 0).
Proof. reflexivity. Qed.

Lemma coerce_two : coerce (ANumber 2) = Some (Int 2).
Proof. reflexivity. Qed.

(** The coerced adults and children counts of two numeric arguments. *)
Lemma coerce_guests_counts (adults children infants pets : Arg) (a c : Z) (g : Guests) :
  coerce adults = Some (Int a) -> coerce children = Some (Int c) ->
  adults <> AUndefined -> children <> AUndefined ->
  coerce_guests adults children infants pets = Some g ->
  adults_int g = Int a /\ children_int g = Int c.
Proof.
  intros Ha Hc Hna Hnc. unfold coerce_guests.
  replace (withDefault adults (ANumber 1)) with adults
    by (destruct adults; [exfalso; apply Hna; reflexivity | reflexivity ..]).
  replace (withDefault children (ANumber 0)) with children
    by (destruct children; [exfalso; apply Hnc; reflexivity | reflexivity ..]).
  rewrite Ha, Hc.
  destruct (coerce (withDefault infants (ANumber 0))); [|discriminate].
  destruct (coerce (withDefault pets (ANumber 0))); [|discriminate].
  intro H. injection H as <-. split; reflexivity.
Qed.

(** The guest parameters of a built search URL. *)
Lemma buildSearchUrl_has_guests (other : string -> URL) (p : SearchParams) (g : Guests)
      (u : URL) :
  coerce_guests (sp_adults p) (sp_children p) (sp_infants p) (sp_pets p) = Some g ->
  buildSearchUrl other p = Some u ->
  forall n, In n guest_names ->
    has_param n (searchParams u) = positive_total (adults_int g) (children_int g).
Proof.
  intros Hg Hu n Hn.
  destruct (encodeURIComponent (sp_location p)) as [encoded|] eqn:Henc.
  - destruct (buildSearchUrl_guests other p g encoded Henc Hg) as (u' & Hu' & _ & Hhas).
    rewrite Hu in Hu'. injection Hu' as <-.
    rewrite <- totalGuests_positive. exact (Hhas n Hn).
  - unfold buildSearchUrl in Hu. rewrite Henc in Hu. discriminate.
Qed.

(** The guest parameters of the listing URL, when the identifier brings
    none. *)
Lemma buildListingUrl_has_guests (other : string -> URL) (p : ListingParams) (g : Guests) :
  coerce_guests (lp_adults p) (lp_children p) (lp_infants p) (lp_pets p) = Some g ->
  (forall n, In n guest_names ->
     has_param n (searchParams (new_URL other ("/rooms/" ++ ToString (lp_id p)))) = false) ->
  exists u, buildListingUrl other p = Some u
    /\ forall n, In n guest_names ->
         has_param n (searchParams u) = positive_total (adults_int g) (children_int g).
Proof.
  intros Hg Hid.
  destruct (buildListingUrl_params other p g Hg) as (u & Hu & Hps & _).
  exists u. split; [exact Hu|]. intros n Hn.
  rewrite Hps, !has_param_app, (Hid n Hn), <- totalGuests_positive.
  destruct (listing_date_params_no_guest p n Hn) as [-> _].
  destruct (JsInt_gt0 (totalGuests g)); [|reflexivity].
  apply guest_name_cases in Hn as [-> | [-> | [-> | ->]]]; reflexivity.
Qed.




(* ================================================================== *)
(** ** The redirect-following client *)
(* ================================================================== *)

(** The status test of the client accepts the statuses the specification
    lists, and no other. *)
Lemma is_redirect_status_listed (st : N) : is_redirect_status st = redirect_status st.
Proof.
  unfold is_redirect_status, redirect_status.
  destruct (st =? 301)%N, (st =? 302)%N, (st =? 307)%N; reflexivity.
Qed.

Section ClientFacts.
Variable SESSION_USER_AGENT : string.
Variable URL_parts : string -> option (string * string).
Variable URL_resolve : string -> string -> option string.

Local Abbreviation fetch_loop' := (fetch_loop SESSION_USER_AGENT URL_parts URL_resolve).
Local Abbreviation headers_for :=
  (fun hostname origin options (s : Session) =>
     request_headers SESSION_USER_AGENT hostname origin (getCookieString (cookieJar s)) options).

(** One turn of the client on a request that is answered. *)
Lemma fetch_loop_response (fuel : nat) (url : string) (options : list (string * string))
      (rc : nat) (s : Session) (hostname origin : string) (r : Response)
      (tape : list NetOutcome) :
  URL_parts url = Some (hostname, origin) ->
  network s = Responds r :: tape ->
  fetch_loop' (S fuel) url options rc s =
  let headers := headers_for hostname origin options s in
  let s1 := after_response url headers r s in
  if is_redirect_status (status r) then
    if (MAX_REDIRECTS <=? rc)%nat then (Throw (too_many_redirects url), s1)
    else
      match location r with
      | None | Some EmptyString => (Throw (missing_location (status r)), s1)
      | Some loc =>
          match URL_resolve loc url with
          | None => (Throw invalid_url, s1)
          | Some next =>
              fetch_loop' fuel next options (S rc) (after_redirect url headers r next s)
          end
      end
  else (Ok r, s1).
Proof.
  intros Hurl Hnet. cbn [fetch_loop]. rewrite Hurl.
  unfold bind, do_getCookieString, fetch, do_parseCookies, after_redirect, after_response.
  rewrite Hnet. cbv beta iota zeta.
  destruct (is_redirect_status (status r)); [|reflexivity].
  destruct (MAX_REDIRECTS <=? rc)%nat; [reflexivity|].
  destruct (location r) as [[|c loc]|]; try reflexivity.
  destruct (URL_resolve (String c loc) url); reflexivity.
Qed.

(** A turn whose request gets no response. *)
Lemma fetch_loop_no_response (fuel : nat) (url : string) (options : list (string * string))
      (rc : nat) (s : Session) (hostname origin : string) :
  URL_parts url = Some (hostname, origin) ->
  (forall r tape, network s <> Responds r :: tape) ->
  exists reason,
    fetch_loop' (S fuel) url options rc s =
    (Throw (mkException FetchError reason),
     mkSession (cookieJar s) (robotsTxtContent s) (tl (network s))
               (trace s ++ [EvFetch url (headers_for hostname origin options s)])).
Proof.
  intros Hurl Hnet. cbn [fetch_loop]. rewrite Hurl.
  unfold bind, do_getCookieString, fetch.
  destruct (network s) as [|[r|reason] tape] eqn:E.
  - eexists. reflexivity.
  - exfalso. exact (Hnet r tape eq_refl).
  - eexists. reflexivity.
Qed.

Lemma fetch_loop_invalid_url (fuel : nat) (url : string) (options : list (string * string))
      (rc : nat) (s : Session) :
  URL_parts url = None ->
  fetch_loop' (S fuel) url options rc s = (Throw invalid_url, s).
Proof. intro Hurl. cbn [fetch_loop]. rewrite Hurl. reflexivity. Qed.

Lemma run_recorded_idle (s : Session) (res : Result Response) :
  run_recorded s (res, s).
Proof.
  exists [], []. simpl. rewrite app_nil_r. repeat split; reflexivity.
Qed.

Lemma run_recorded_response (s : Session) (res : Result Response) (url : string)
      (headers : list (string * string)) (r : Response) (tape : list NetOutcome) :
  network s = Responds r :: tape ->
  run_recorded s (res, after_response url headers r s).
Proof.
  intro Hnet. exists [Responds r], [EvFetch url headers; EvParseCookies r].
  unfold after_response. simpl. rewrite Hnet, <- app_assoc. simpl. repeat split; reflexivity.
Qed.

Lemma fetch_loop_recorded (fuel : nat) :
  forall (url : string) (options : list (string * string)) (rc : nat) (s : Session),
    run_recorded s (fetch_loop' fuel url options rc s).
Proof.
  induction fuel as [|fuel IH]; intros url options rc s.
  - apply run_recorded_idle.
  - destruct (URL_parts url) as [[hostname origin]|] eqn:Hurl.
    2:{ rewrite fetch_loop_invalid_url by assumption. apply run_recorded_idle. }
    destruct (network s) as [|[r|reason] tape] eqn:Hnet.
    + destruct (fetch_loop_no_response fuel url options rc s hostname origin Hurl) as [reason ->].
      { rewrite Hnet. discriminate. }
      exists [], [EvFetch url (headers_for hostname origin options s)].
      simpl. rewrite Hnet. repeat split; reflexivity.
    + rewrite (fetch_loop_response fuel url options rc s hostname origin r tape Hurl Hnet).
      cbv zeta.
      destruct (is_redirect_status (status r));
        [|eapply run_recorded_response; eassumption].
      destruct (MAX_REDIRECTS <=? rc)%nat;
        [eapply run_recorded_response; eassumption|].
      destruct (location r) as [[|c loc]|];
        try (eapply run_recorded_response; eassumption).
      destruct (URL_resolve (String c loc) url) as [next|];
        [|eapply run_recorded_response; eassumption].
      remember (after_redirect url (headers_for hostname origin options s) r next s)
        as s2 eqn:Hs2.
      assert (Hnet2 : network s2 = tape)
        by (rewrite Hs2; unfold after_redirect, after_response; cbn [network];
            rewrite Hnet; reflexivity).
      assert (Htr2 : trace s2 =
                (trace s ++ [EvFetch url (headers_for hostname origin options s);
                             EvParseCookies r;
                             EvConsole ("Redirect " ++ N_toString (status r) ++ " to " ++ next)])%list)
        by (rewrite Hs2; unfold after_redirect, after_response; cbn [trace];
            rewrite <- !app_assoc; reflexivity).
      assert (Hjar2 : cookieJar s2 = parseCookies r (cookieJar s))
        by (rewrite Hs2; reflexivity).
      assert (Hrob2 : robotsTxtContent s2 = robotsTxtContent s)
        by (rewrite Hs2; reflexivity).
      destruct (IH next options (S rc) s2) as (consumed & tr & Hn & Ht & Hw & Hc & Hr).
      exists (Responds r :: consumed),
             ([EvFetch url (headers_for hostname origin options s); EvParseCookies r;
               EvConsole ("Redirect " ++ N_toString (status r) ++ " to " ++ next)] ++ tr)%list.
      repeat split.
      * rewrite Hnet, <- app_comm_cons, <- Hn, Hnet2. reflexivity.
      * rewrite Ht, Htr2, <- app_assoc. reflexivity.
      * exact Hw.
      * cbn [responses_of fold_left]. rewrite Hc, Hjar2. reflexivity.
      * rewrite Hr. exact Hrob2.
    + destruct (fetch_loop_no_response fuel url options rc s hostname origin Hurl) as [msg ->].
      { rewrite Hnet. discriminate. }
      exists [Rejects reason], [EvFetch url (headers_for hostname origin options s)].
      simpl. rewrite Hnet. repeat split; reflexivity.
Qed.

(** The recursion budget is never what ends a run: any budget above
    [MAX_REDIRECTS - redirectCount] gives the same run. *)
Lemma fetch_loop_fuel (fuel1 : nat) :
  forall (fuel2 : nat) (url : string) (options : list (string * string)) (rc : nat)
         (s : Session),
    MAX_REDIRECTS - rc < fuel1 -> MAX_REDIRECTS - rc < fuel2 ->
    fetch_loop' fuel1 url options rc s = fetch_loop' fuel2 url options rc s.
Proof.
  induction fuel1 as [|fuel1 IH]; intros fuel2 url options rc s H1 H2; [lia|].
  destruct fuel2 as [|fuel2]; [lia|].
  destruct (URL_parts url) as [[hostname origin]|] eqn:Hurl.
  2:{ rewrite !fetch_loop_invalid_url by assumption. reflexivity. }
  destruct (network s) as [|[r|reason] tape] eqn:Hnet.
  - cbn [fetch_loop]. rewrite Hurl. unfold bind, do_getCookieString, fetch.
    rewrite Hnet. reflexivity.
  - rewrite !(fetch_loop_response _ url options rc s hostname origin r tape Hurl Hnet).
    cbv zeta.
    destruct (is_redirect_status (status r)); [|reflexivity].
    destruct (MAX_REDIRECTS <=? rc)%nat eqn:Hrc; [reflexivity|].
    apply Nat.leb_gt in Hrc.
    destruct (location r) as [[|c loc]|]; try reflexivity.
    destruct (URL_resolve (String c loc) url) as [next|]; [|reflexivity].
    apply IH; lia.
  - cbn [fetch_loop]. rewrite Hurl. unfold bind, do_getCookieString, fetch.
    rewrite Hnet. reflexivity.
Qed.

(** Following a chain of redirects that stays within the limit. *)
Lemma fetch_loop_chain (chain : list Response) :
  forall (url : string) (options : list (string * string)) (rc fuel : nat) (s : Session)
         (tape : list NetOutcome) (target : string),
    chain_target URL_parts URL_resolve url chain = Some target ->
    network s = (map Responds chain ++ tape)%list ->
    rc + length chain <= MAX_REDIRECTS ->
    length chain <= fuel ->
    exists s',
      fetch_loop' fuel url options rc s =
      fetch_loop' (fuel - length chain) target options (rc + length chain) s'
      /\ network s' = tape
      /\ cookieJar s' = fold_left (fun jar r => parseCookies r jar) chain (cookieJar s)
      /\ robotsTxtContent s' = robotsTxtContent s.
Proof.
  induction chain as [|r chain IH]; intros url options rc fuel s tape target Ht Hnet Hrc Hfuel.
  - simpl in Ht. injection Ht as <-. exists s.
    rewrite Nat.sub_0_r, Nat.add_0_r. repeat split. exact Hnet.
  - cbn [chain_target] in Ht. simpl in Hnet, Hrc, Hfuel.
    destruct (URL_parts url) as [[hostname origin]|] eqn:Hurl; [|discriminate].
    destruct (location r) as [loc|] eqn:Hloc; [|discriminate].
    rewrite <- is_redirect_status_listed in Ht.
    destruct (is_redirect_status (status r)) eqn:Hst; [|discriminate].
    destruct loc as [|c loc]; [discriminate|]. cbn [truthy_string andb] in Ht.
    destruct (URL_resolve (String c loc) url) as [next|] eqn:Hres; [|discriminate].
    destruct fuel as [|fuel]; [lia|].
    rewrite (fetch_loop_response fuel url options rc s hostname origin r _ Hurl Hnet).
    cbv zeta. rewrite Hst, Hloc, Hres.
    assert (Hlim : (MAX_REDIRECTS <=? rc)%nat = false) by (apply Nat.leb_gt; lia).
    rewrite Hlim.
    destruct (IH next options (S rc) fuel
                 (after_redirect url (headers_for hostname origin options s) r next s)
                 tape target Ht) as (s' & Hrun & Hn & Hj & Hr).
    + unfold after_redirect, after_response. cbn [network]. rewrite Hnet. reflexivity.
    + lia.
    + lia.
    + exists s'. rewrite Hrun.
      replace (S rc + length chain) with (rc + S (length chain)) by lia.
      repeat split; assumption.
Qed.
End ClientFacts.

Lemma well_recorded_events (n : nat) :
  forall (tr : list Event) (tape : list NetOutcome),
    length tr <= n -> well_recorded tr tape ->
    forall r, In r (responses_of tape) -> In (EvParseCookies r) tr.
Proof.
  induction n as [|n IH]; intros tr tape Hlen Hw r Hin.
  - destruct tr; [|simpl in Hlen; lia]. simpl in Hw. subst tape. contradiction.
  - destruct tr as [|[url headers|r0|msg] tr]; simpl in Hw, Hlen.
    + subst tape. contradiction.
    + destruct tape as [|[r1|reason] tape].
      * contradiction.
      * destruct tr as [|[|r2|] tr]; try contradiction.
        destruct Hw as [-> Hw]. simpl in Hin, Hlen. destruct Hin as [-> | Hin].
        -- right. left. reflexivity.
        -- right. right. apply (IH tr tape); [lia | exact Hw | exact Hin].
      * right. apply (IH tr tape); [lia | exact Hw | exact Hin].
    + contradiction.
    + right. apply (IH tr tape); [lia | exact Hw | exact Hin].
Qed.

(** C5.  Whatever the URL, the options, the redirect count and the
    session, a run of [fetchWithBrowserHeaders] consumes a stretch of
    network outcomes, and every response among them is handed to
    [parseCookies] right after the request that received it, before the
    redirect is logged and followed and before any error of the redirect
    branch ends the run: the events added to the trace are well recorded
    against the consumed outcomes, each consumed response has its
    [parseCookies] event, and the jar at the end is the jar at the start
    with [parseCookies] applied to every consumed response in order,
    redirect or not, successful or not. *)
Theorem cookies_recorded_on_every_response :
  forall (agent : string) (URL_parts : string -> option (string * string))
         (URL_resolve : string -> string -> option string)
         (url : string) (options : list (string * string)) (redirectCount : nat)
         (s : Session),
    let run := fetchWithBrowserHeaders agent URL_parts URL_resolve url options redirectCount s in
    exists consumed tr,
      network s = (consumed ++ network (snd run))%list
      /\ trace (snd run) = (trace s ++ tr)%list
      /\ well_recorded tr consumed
      /\ (forall r, In r (responses_of consumed) -> In (EvParseCookies r) tr)
      /\ cookieJar (snd run) =
         fold_left (fun jar r => parseCookies r jar) (responses_of consumed) (cookieJar s).
Proof.
  intros agent URL_parts URL_resolve url options redirectCount s run.
  destruct (fetch_loop_recorded agent URL_parts URL_resolve
              (S (MAX_REDIRECTS - redirectCount)) url options redirectCount s)
    as (consumed & tr & Hn & Ht & Hw & Hc & _).
  exists consumed, tr. repeat split; try assumption.
  intros r Hr. exact (well_recorded_events (length tr) tr consumed (Nat.le_refl _) Hw r Hr).
Qed.

(** The run of [fetchWithBrowserHeaders] up to the response that follows a
    chain of redirects. *)
Lemma fetch_after_chain (agent : string) (URL_parts : string -> option (string * string))
      (URL_resolve : string -> string -> option string)
      (url : string) (options : list (string * string)) (rc : nat) (s : Session)
      (chain : list Response) (r : Response) (tape : list NetOutcome)
      (target hostname origin : string) :
  chain_target URL_parts URL_resolve url chain = Some target ->
  URL_parts target = Some (hostname, origin) ->
  network s = (map Responds chain ++ Responds r :: tape)%list ->
  rc + length chain <= MAX_REDIRECTS ->
  exists s',
    fetchWithBrowserHeaders agent URL_parts URL_resolve url options rc s =
    fetch_loop agent URL_parts URL_resolve (S (MAX_REDIRECTS - (rc + length chain)))
               target options (rc + length chain) s'
    /\ network s' = Responds r :: tape
    /\ cookieJar s' = fold_left (fun jar r => parseCookies r jar) chain (cookieJar s).
Proof.
  intros Ht Hurl Hnet Hrc. unfold fetchWithBrowserHeaders.
  destruct (fetch_loop_chain agent URL_parts URL_resolve chain url options rc
              (S (MAX_REDIRECTS - rc)) s (Responds r :: tape) target Ht Hnet Hrc)
    as (s' & Hrun & Hn & Hj & _); [lia|].
  exists s'. rewrite Hrun.
  replace (S (MAX_REDIRECTS - rc) - length chain)
    with (S (MAX_REDIRECTS - (rc + length chain))) by lia.
  repeat split; assumption.
Qed.

(** Every response of a chain has one of the three redirect statuses. *)
Lemma chain_target_statuses (URL_parts : string -> option (string * string))
      (URL_resolve : string -> string -> option string) (chain : list Response) :
  forall (url target : string),
    chain_target URL_parts URL_resolve url chain = Some target ->
    Forall (fun r => status r = 301%N \/ status r = 302%N \/ status r = 307%N) chain.
Proof.
  induction chain as [|r rest IH]; intros url target Ht; [constructor|].
  cbn [chain_target] in Ht.
  destruct (URL_parts url); [|discriminate].
  destruct (location r) as [loc|]; [|discriminate].
  destruct (redirect_status (status r)) eqn:Hst; [|discriminate].
  destruct (truthy_string loc); [|discriminate]. cbn [andb] in Ht.
  destruct (URL_resolve loc url) as [next|]; [|discriminate].
  constructor; [|exact (IH next target Ht)].
  unfold redirect_status in Hst.
  destruct (N.eqb_spec (status r) 301); [left; assumption|].
  destruct (N.eqb_spec (status r) 302); [right; left; assumption|].
  destruct (N.eqb_spec (status r) 307); [right; right; assumption | discriminate].
Qed.

(** The three errors of the client are told apart: the two redirect
    errors are plain [Error]s with different messages, a rejection of
    [fetch] has a class of its own. *)
Lemma redirect_errors_distinct (url : string) (st : N) :
  too_many_redirects url = mkException PlainError ("Too many redirects while fetching " ++ url)
  /\ missing_location st =
     mkException PlainError ("Redirect status " ++ N_toString st ++ " but no Location header")
  /\ too_many_redirects url <> missing_location st
  /\ (forall reason, too_many_redirects url <> mkException FetchError reason)
  /\ (forall reason, missing_location st <> mkException FetchError reason).
Proof.
  unfold too_many_redirects, missing_location.
  repeat split; intros; discriminate.
Qed.

(** C3.  Started with redirect count 0 on a chain of redirect responses
    (each with a [Location] that resolves; their statuses are 301, 302 or
    307, which the last part of the statement spells out) followed by one
    more response, [fetchWithBrowserHeaders] returns that response
    when its status is none of the three and the chain has at most 5
    redirects, having consumed exactly the chain and the response and
    recorded the cookies of all of them; and when the chain has 5
    redirects and the response that follows is a sixth redirect, received
    with the redirect count at 5, it fails with the plain [Error] whose
    message is [Too many redirects while fetching <url>] for the URL it was
    fetching, which is neither a rejection of [fetch] nor the
    missing-location error. *)
Theorem fetch_follows_at_most_five_redirects :
  forall (agent : string) (URL_parts : string -> option (string * string))
         (URL_resolve : string -> string -> option string)
         (url : string) (options : list (string * string)) (s : Session)
         (chain : list Response) (final : Response) (tape : list NetOutcome)
         (target : string),
    chain_target URL_parts URL_resolve url chain = Some target ->
    URL_parts target <> None ->
    network s = (map Responds chain ++ Responds final :: tape)%list ->
    let run := fetchWithBrowserHeaders agent URL_parts URL_resolve url options 0 s in
    (length chain <= 5 ->
     status final <> 301%N -> status final <> 302%N -> status final <> 307%N ->
       fst run = Ok final
       /\ network (snd run) = tape
       /\ cookieJar (snd run) =
          fold_left (fun jar r => parseCookies r jar) (chain ++ [final]) (cookieJar s))
    /\ (length chain = 5 ->
        status final = 301%N \/ status final = 302%N \/ status final = 307%N ->
       fst run =
         Throw (mkException PlainError ("Too many redirects while fetching " ++ target))
       /\ network (snd run) = tape
       /\ (forall reason, fst run <> Throw (mkException FetchError reason))
       /\ (forall st,
             fst run <>
             Throw (mkException PlainError
                      ("Redirect status " ++ N_toString st ++ " but no Location header"))))
    /\ Forall (fun r => status r = 301%N \/ status r = 302%N \/ status r = 307%N) chain.
Proof.
  intros agent URL_parts URL_resolve url options s chain final tape target Ht Hurl Hnet run.
  destruct (URL_parts target) as [[hostname origin]|] eqn:Hparts; [clear Hurl | congruence].
  split; [|split; [|exact (chain_target_statuses _ _ _ _ _ Ht)]].
  - intros Hlen H301 H302 H307.
    assert (Hst : is_redirect_status (status final) = false).
    { unfold is_redirect_status.
      destruct (N.eqb_spec (status final) 307); [contradiction|].
      destruct (N.eqb_spec (status final) 302); [contradiction|].
      destruct (N.eqb_spec (status final) 301); [contradiction | reflexivity]. }
    destruct (fetch_after_chain agent URL_parts URL_resolve url options 0 s chain final tape
                target hostname origin Ht Hparts Hnet) as (s' & Hrun & Hn & Hj);
      [simpl; exact Hlen|].
    unfold run. rewrite Hrun.
    rewrite (fetch_loop_response agent URL_parts URL_resolve _ target options _ s'
               hostname origin final tape Hparts Hn).
    cbv zeta. rewrite Hst. unfold after_response. cbn [fst snd network cookieJar].
    rewrite Hn, Hj, fold_left_app. repeat split.
  - intros Hlen Hstatus.
    assert (Hst : is_redirect_status (status final) = true)
      by (unfold is_redirect_status; destruct Hstatus as [-> | [-> | ->]]; reflexivity).
    destruct (fetch_after_chain agent URL_parts URL_resolve url options 0 s chain final tape
                target hostname origin Ht Hparts Hnet) as (s' & Hrun & Hn & Hj);
      [simpl; unfold MAX_REDIRECTS; lia|].
    assert (Hfst : fst run = Throw (too_many_redirects target) /\ network (snd run) = tape).
    { unfold run. rewrite Hrun.
      rewrite (fetch_loop_response agent URL_parts URL_resolve _ target options _ s'
                 hostname origin final tape Hparts Hn).
      cbv zeta. rewrite Hst, Hlen. unfold after_response. cbn [fst snd network].
      rewrite Hn. split; reflexivity. }
    destruct Hfst as [Hfst Hnetwork]. rewrite Hfst.
    split; [reflexivity|]. split; [exact Hnetwork|].
    split; intros x H; injection H as H; discriminate H.
Qed.

Lemma fetch_follows_at_most_five_redirects_witness :
  (let chain := [Sample.redirect "/login"; Sample.redirect "https://www.airbnb.ca/home"] in
   let s := Sample.session EmptyString (map Responds chain ++ [Responds Sample.home])%list in
   let run := fetchWithBrowserHeaders Sample.agent Sample.URL_parts Sample.URL_resolve
                BASE_URL [] 0 s in
   fst run = Ok Sample.home
   /\ network (snd run) = []
   /\ cookieJar (snd run) = [("a", "1"); ("bev", "1700000000_abc")])
  /\ (let chain := [mkResponse 301 ["moved=1"] (Some "/login") EmptyString;
                    mkResponse 307 [] (Some "https://www.airbnb.ca/home") EmptyString] in
      let s := Sample.session EmptyString
                 (map Responds chain ++ [Responds Sample.home])%list in
      let run := fetchWithBrowserHeaders Sample.agent Sample.URL_parts Sample.URL_resolve
                   BASE_URL [] 0 s in
      fst run = Ok Sample.home
      /\ network (snd run) = []
      /\ cookieJar (snd run) = [("moved", "1"); ("bev", "1700000000_abc")])
  /\ (let chain := repeat (Sample.redirect "/next") 5 in
      let s := Sample.session EmptyString
                 (map Responds chain
                  ++ [Responds (mkResponse 307 [] (Some "/next") EmptyString)])%list in
      let run := fetchWithBrowserHeaders Sample.agent Sample.URL_parts Sample.URL_resolve
                   BASE_URL [] 0 s in
      fst run =
        Throw (mkException PlainError
                 "Too many redirects while fetching https://www.airbnb.ca/next")
      /\ network (snd run) = []).
Proof.
  split; [|split].
  - exact (proj1 (fetch_follows_at_most_five_redirects
                    Sample.agent Sample.URL_parts Sample.URL_resolve BASE_URL []
                    (Sample.session EmptyString
                       (map Responds [Sample.redirect "/login";
                                      Sample.redirect "https://www.airbnb.ca/home"]
                        ++ [Responds Sample.home])%list)
                    [Sample.redirect "/login"; Sample.redirect "https://www.airbnb.ca/home"]
                    Sample.home [] "https://www.airbnb.ca/home"
                    eq_refl ltac:(discriminate) eq_refl)
                 ltac:(simpl; lia) ltac:(discriminate) ltac:(discriminate)
                 ltac:(discriminate)).
  - exact (proj1 (fetch_follows_at_most_five_redirects
                    Sample.agent Sample.URL_parts Sample.URL_resolve BASE_URL []
                    (Sample.session EmptyString
                       (map Responds
                          [mkResponse 301 ["moved=1"] (Some "/login") EmptyString;
                           mkResponse 307 [] (Some "https://www.airbnb.ca/home") EmptyString]
                        ++ [Responds Sample.home])%list)
                    [mkResponse 301 ["moved=1"] (Some "/login") EmptyString;
                     mkResponse 307 [] (Some "https://www.airbnb.ca/home") EmptyString]
                    Sample.home [] "https://www.airbnb.ca/home"
                    eq_refl ltac:(discriminate) eq_refl)
                 ltac:(simpl; lia) ltac:(discriminate) ltac:(discriminate)
                 ltac:(discriminate)).
  - destruct (proj1 (proj2 (fetch_follows_at_most_five_redirects
                    Sample.agent Sample.URL_parts Sample.URL_resolve BASE_URL []
                    (Sample.session EmptyString
                       (map Responds (repeat (Sample.redirect "/next") 5)
                        ++ [Responds (mkResponse 307 [] (Some "/next") EmptyString)])%list)
                    (repeat (Sample.redirect "/next") 5)
                    (mkResponse 307 [] (Some "/next") EmptyString) []
                    "https://www.airbnb.ca/next"
                    eq_refl ltac:(discriminate) eq_refl))
                 eq_refl (or_intror (or_intror eq_refl))) as (Hrun & Hnet & _).
    split; [exact Hrun | exact Hnet].
Defined.

(** A chain of six redirects, evaluated: the sixth one ends the run. *)
Example fetch_six_redirects :
  let tape := map Responds (repeat (Sample.redirect "/next") 6 ++ [Sample.home]) in
  let run := fetchWithBrowserHeaders Sample.agent Sample.URL_parts Sample.URL_resolve
               BASE_URL [] 0 (Sample.session EmptyString tape) in
  fst run = Throw (too_many_redirects "https://www.airbnb.ca/next")
  /\ network (snd run) = [Responds Sample.home].
Proof. vm_compute. split; reflexivity. Qed.

(** C7, as amended.  A response with status 301, 302 or 307 and no
    [Location] header (or an empty one), received after a chain of
    redirects, makes [fetchWithBrowserHeaders] fail after the cookies of
    that response have been recorded.  While fewer than 5 redirects have
    been followed it fails with a plain [Error] whose message is
    [Redirect status <status> but no Location header]; this error differs
    from every too-many-redirects error (also a plain [Error], told apart
    by its message) and from every rejection of [fetch] itself.  When 5
    redirects have been followed it fails with the plain [Error]
    [Too many redirects while fetching <url>] instead. *)
Theorem missing_location_reported_below_limit :
  forall (agent : string) (URL_parts : string -> option (string * string))
         (URL_resolve : string -> string -> option string)
         (url : string) (options : list (string * string)) (redirectCount : nat)
         (s : Session) (chain : list Response) (r : Response) (tape : list NetOutcome)
         (target : string),
    chain_target URL_parts URL_resolve url chain = Some target ->
    URL_parts target <> None ->
    network s = (map Responds chain ++ Responds r :: tape)%list ->
    status r = 301%N \/ status r = 302%N \/ status r = 307%N ->
    location r = None \/ location r = Some EmptyString ->
    let run := fetchWithBrowserHeaders agent URL_parts URL_resolve url options redirectCount s in
    (redirectCount + length chain < 5 ->
       fst run =
         Throw (mkException PlainError
                  (if (status r =? 301)%N then "Redirect status 301 but no Location header"
                   else if (status r =? 302)%N
                        then "Redirect status 302 but no Location header"
                        else "Redirect status 307 but no Location header"))
       /\ (forall u,
             fst run <>
             Throw (mkException PlainError ("Too many redirects while fetching " ++ u)))
       /\ (forall reason, fst run <> Throw (mkException FetchError reason))
       /\ cookieJar (snd run) =
          fold_left (fun jar r => parseCookies r jar) (chain ++ [r]) (cookieJar s))
    /\ (redirectCount + length chain = 5 ->
       fst run =
         Throw (mkException PlainError ("Too many redirects while fetching " ++ target))
       /\ (forall reason, fst run <> Throw (mkException FetchError reason))
       /\ cookieJar (snd run) =
          fold_left (fun jar r => parseCookies r jar) (chain ++ [r]) (cookieJar s)).
Proof.
  intros agent URL_parts URL_resolve url options rc s chain r tape target
         Ht Hurl Hnet Hstatus Hloc run.
  destruct (URL_parts target) as [[hostname origin]|] eqn:Hparts; [clear Hurl | congruence].
  assert (Hst : is_redirect_status (status r) = true)
    by (unfold is_redirect_status; destruct Hstatus as [-> | [-> | ->]]; reflexivity).
  split; intro Hrc.
  - destruct (fetch_after_chain agent URL_parts URL_resolve url options rc s chain r tape
                target hostname origin Ht Hparts Hnet) as (s' & Hrun & Hn & Hj);
      [unfold MAX_REDIRECTS; lia|].
    assert (Hlim : (MAX_REDIRECTS <=? rc + length chain)%nat = false)
      by (apply Nat.leb_gt; exact Hrc).
    assert (Hfst : fst run = Throw (missing_location (status r))
                   /\ cookieJar (snd run) =
                      fold_left (fun jar r => parseCookies r jar) (chain ++ [r]) (cookieJar s)).
    { unfold run. rewrite Hrun.
      rewrite (fetch_loop_response agent URL_parts URL_resolve _ target options _ s'
                 hostname origin r tape Hparts Hn).
      cbv zeta. rewrite Hst, Hlim. unfold after_response.
      rewrite fold_left_app, <- Hj.
      destruct Hloc as [-> | ->]; split; reflexivity. }
    destruct Hfst as [Hfst Hjar]. rewrite Hfst.
    assert (Hmsg : missing_location (status r) =
              mkException PlainError
                (if (status r =? 301)%N then "Redirect status 301 but no Location header"
                 else if (status r =? 302)%N
                      then "Redirect status 302 but no Location header"
                      else "Redirect status 307 but no Location header"))
      by (destruct Hstatus as [-> | [-> | ->]]; reflexivity).
    rewrite Hmsg. split; [reflexivity|].
    split; [|split; [|exact Hjar]].
    + intros u H. injection H as H.
      destruct (status r =? 301)%N; [discriminate H|].
      destruct (status r =? 302)%N; discriminate H.
    + intros reason H. discriminate H.
  - destruct (fetch_after_chain agent URL_parts URL_resolve url options rc s chain r tape
                target hostname origin Ht Hparts Hnet) as (s' & Hrun & Hn & Hj);
      [unfold MAX_REDIRECTS; lia|].
    assert (Hlim : (MAX_REDIRECTS <=? rc + length chain)%nat = true)
      by (apply Nat.leb_le; unfold MAX_REDIRECTS; lia).
    assert (Hfst : fst run = Throw (too_many_redirects target)
                   /\ cookieJar (snd run) =
                      fold_left (fun jar r => parseCookies r jar) (chain ++ [r]) (cookieJar s)).
    { unfold run. rewrite Hrun.
      rewrite (fetch_loop_response agent URL_parts URL_resolve _ target options _ s'
                 hostname origin r tape Hparts Hn).
      cbv zeta. rewrite Hst, Hlim. unfold after_response.
      rewrite fold_left_app, <- Hj. split; reflexivity. }
    destruct Hfst as [Hfst Hjar]. rewrite Hfst.
    split; [reflexivity|]. split; [|exact Hjar].
    intros reason H. discriminate H.
Qed.

Lemma missing_location_reported_below_limit_witness :
  (let s := Sample.session EmptyString
              [Responds (Sample.redirect "/login");
               Responds Sample.redirect_without_location] in
   fst (fetchWithBrowserHeaders Sample.agent Sample.URL_parts Sample.URL_resolve
          BASE_URL [] 0 s)
   = Throw (mkException PlainError "Redirect status 302 but no Location header"))
  /\ (let s := Sample.session EmptyString
                 [Responds (mkResponse 301 [] (Some "/login") EmptyString);
                  Responds (mkResponse 307 [] (Some EmptyString) EmptyString)] in
      fst (fetchWithBrowserHeaders Sample.agent Sample.URL_parts Sample.URL_resolve
             BASE_URL [] 0 s)
      = Throw (mkException PlainError "Redirect status 307 but no Location header"))
  /\ (let s := Sample.session EmptyString
                 (map Responds (repeat (Sample.redirect "/next") 5
                                ++ [mkResponse 301 [] None EmptyString])) in
      fst (fetchWithBrowserHeaders Sample.agent Sample.URL_parts Sample.URL_resolve
             BASE_URL [] 0 s)
      = Throw (mkException PlainError
                 "Too many redirects while fetching https://www.airbnb.ca/next")).
Proof.
  split; [|split].
  - exact (proj1 (proj1 (missing_location_reported_below_limit
                  Sample.agent Sample.URL_parts Sample.URL_resolve BASE_URL [] 0
                  (Sample.session EmptyString
                     [Responds (Sample.redirect "/login");
                      Responds Sample.redirect_without_location])
                  [Sample.redirect "/login"] Sample.redirect_without_location []
                  "https://www.airbnb.ca/login"
                  eq_refl ltac:(discriminate) eq_refl (or_intror (or_introl eq_refl))
                  (or_introl eq_refl))
                  ltac:(simpl; lia))).
  - exact (proj1 (proj1 (missing_location_reported_below_limit
                  Sample.agent Sample.URL_parts Sample.URL_resolve BASE_URL [] 0
                  (Sample.session EmptyString
                     [Responds (mkResponse 301 [] (Some "/login") EmptyString);
                      Responds (mkResponse 307 [] (Some EmptyString) EmptyString)])
                  [mkResponse 301 [] (Some "/login") EmptyString]
                  (mkResponse 307 [] (Some EmptyString) EmptyString) []
                  "https://www.airbnb.ca/login"
                  eq_refl ltac:(discriminate) eq_refl (or_intror (or_intror eq_refl))
                  (or_intror eq_refl))
                  ltac:(simpl; lia))).
  - exact (proj1 (proj2 (missing_location_reported_below_limit
                  Sample.agent Sample.URL_parts Sample.URL_resolve BASE_URL [] 0
                  (Sample.session EmptyString
                     (map Responds (repeat (Sample.redirect "/next") 5
                                    ++ [mkResponse 301 [] None EmptyString])))
                  (repeat (Sample.redirect "/next") 5)
                  (mkResponse 301 [] None EmptyString) []
                  "https://www.airbnb.ca/next"
                  eq_refl ltac:(discriminate) eq_refl (or_introl eq_refl)
                  (or_introl eq_refl))
                  eq_refl)).
Defined.

(** C7, counterexample.  After five redirects have been followed, a
    response with status 302 and no [Location] does not produce the
    missing-location error: the run fails with the too-many-redirects
    error instead. *)
Lemma missing_location_at_limit_cex :
  let tape := map Responds (repeat (Sample.redirect "/next") 5
                            ++ [Sample.redirect_without_location]) in
  let run := fetchWithBrowserHeaders Sample.agent Sample.URL_parts Sample.URL_resolve
               BASE_URL [] 0 (Sample.session EmptyString tape) in
  status Sample.redirect_without_location = 302%N
  /\ location Sample.redirect_without_location = None
  /\ network (snd run) = []
  /\ fst run =
     Throw (mkException PlainError
              "Too many redirects while fetching https://www.airbnb.ca/next")
  /\ fst run <>
     Throw (mkException PlainError "Redirect status 302 but no Location header").
Proof.
  vm_compute. repeat split; discriminate.
Qed.

(* ================================================================== *)
(** ** The pipelines *)
(* ================================================================== *)

Lemma allowSectionSchema_keys (key : string) :
  Map_has allowSectionSchema key = existsb (String.eqb key) allowed_section_ids.
Proof.
  unfold Map_has, allowSectionSchema, allowed_section_ids. cbn [Map_get existsb].
  rewrite (String.eqb_sym key "LOCATION_DEFAULT"), (String.eqb_sym key "POLICIES_DEFAULT"),
          (String.eqb_sym key "HIGHLIGHTS_DEFAULT"), (String.eqb_sym key "DESCRIPTION_DEFAULT"),
          (String.eqb_sym key "AMENITIES_DEFAULT").
  destruct (String.eqb "LOCATION_DEFAULT" key); [reflexivity|].
  destruct (String.eqb "POLICIES_DEFAULT" key); [reflexivity|].
  destruct (String.eqb "HIGHLIGHTS_DEFAULT" key); [reflexivity|].
  destruct (String.eqb "DESCRIPTION_DEFAULT" key); [reflexivity|].
  destruct (String.eqb "AMENITIES_DEFAULT" key); reflexivity.
Qed.

Section PipelineFacts.
Variable SESSION_USER_AGENT : string.
Variable URL_parts : string -> option (string * string).
Variable URL_resolve : string -> string -> option string.
Variable URL_parse_other : string -> URL.
Variable robots_isAllowed : string -> string -> string -> option bool.
Variable script_text : string -> string.
Variable JSON_parse : string -> option Json.
Variable cleanObject : Json -> Json.
Variable pickBySchema : JsValue -> option Schema -> JsValue.
Variable flattenArraysInObject : JsValue -> JsValue.

Local Abbreviation section_entry' := (section_entry pickBySchema flattenArraysInObject).

Lemma section_allowed_spec (section : Json) :
  section <> JNull -> section_allowed section = Ok (allow_listed section).
Proof.
  intro Hnn. unfold section_allowed, allow_listed, hasOwnProperty.
  destruct section; try contradiction; simpl; try reflexivity.
  rewrite allowSectionSchema_keys. reflexivity.
Qed.

Lemma filter_sections (sections : list Json) :
  Forall (fun section => section <> JNull) sections ->
  filter_result section_allowed sections = Ok (filter allow_listed sections).
Proof.
  induction 1 as [|section sections Hnn _ IH]; simpl; [reflexivity|].
  rewrite (section_allowed_spec _ Hnn), IH. reflexivity.
Qed.

Lemma detail_entry_spec (section : Json) :
  allow_listed section = true ->
  detail_entry pickBySchema flattenArraysInObject section = Ok (section_entry' section).
Proof.
  destruct section; simpl; try discriminate. reflexivity.
Qed.

Lemma map_detail_entries (sections : list Json) :
  Forall (fun section => allow_listed section = true) sections ->
  map_result (detail_entry pickBySchema flattenArraysInObject) sections =
  Ok (map section_entry' sections).
Proof.
  induction 1 as [|section sections Hal _ IH]; simpl; [reflexivity|].
  rewrite (detail_entry_spec _ Hal), IH. reflexivity.
Qed.


Local Abbreviation handleSearch :=
  (handleAirbnbSearch SESSION_USER_AGENT URL_parts URL_resolve URL_parse_other
     robots_isAllowed script_text JSON_parse cleanObject pickBySchema flattenArraysInObject).
Local Abbreviation handleListing :=
  (handleAirbnbListingDetails SESSION_USER_AGENT URL_parts URL_resolve URL_parse_other
     robots_isAllowed script_text JSON_parse cleanObject pickBySchema flattenArraysInObject).
Local Abbreviation denied := (denied_by_robots SESSION_USER_AGENT robots_isAllowed).

Lemma robots_denied_spec (s : Session) (u : URL) (ignoreRobotsText : Arg) :
  robots_denied SESSION_USER_AGENT robots_isAllowed ignoreRobotsText
                (pathname u ++ search u) s =
  (Ok (denied s u ignoreRobotsText),
   if denied s u ignoreRobotsText then logged robotsErrorMessage s else s).
Proof.
  unfold robots_denied, denied_by_robots, isPathAllowed, bind.
  destruct (truthy (withDefault ignoreRobotsText (ABool false))); [reflexivity|].
  destruct (truthy_string (robotsTxtContent s)); [|reflexivity].
  destruct (robots_isAllowed (robotsTxtContent s) (pathname u ++ search u) SESSION_USER_AGENT)
    as [[|]|]; reflexivity.
Qed.

(** The search handler, step by step. *)
Lemma handleAirbnbSearch_run (params : SearchParams) (s : Session) (u : URL) :
  buildSearchUrl URL_parse_other params = Some u ->
  handleSearch params s =
  if denied s u (sp_ignoreRobotsText params)
  then (Ok (robots_result u), logged robotsErrorMessage s)
  else
    match fetch_search_page SESSION_USER_AGENT URL_parts URL_resolve u s with
    | (Ok response, s2) =>
        match extractSearchResults script_text JSON_parse cleanObject pickBySchema
                                   flattenArraysInObject (body response) with
        | Ok found =>
            (Ok {| payload := JObj (Object_assign [("searchUrl", JStr (href u))] found);
                   isError := false |}, s2)
        | Throw e =>
            (Ok {| payload := JObj [("searchUrl", JStr (href u))]; isError := false |},
             logged (message e) s2)
        end
    | (Throw error, s2) =>
        (Ok {| payload := JObj [("error", JStr (message error));
                                ("searchUrl", JStr (href u))];
               isError := true |}, s2)
    end.
Proof.
  intro Hu. unfold handleAirbnbSearch. rewrite Hu.
  unfold bind at 1. rewrite robots_denied_spec.
  destruct (denied s u (sp_ignoreRobotsText params)); [reflexivity|].
  unfold try_catch, fetch_search_page, bind.
  destruct (fetchWithBrowserHeaders SESSION_USER_AGENT URL_parts URL_resolve BASE_URL [] 0 s)
    as [[r0|e0] s1]; [|reflexivity].
  destruct (fetchWithBrowserHeaders SESSION_USER_AGENT URL_parts URL_resolve (href u) [] 0 s1)
    as [[response|e1] s2]; [|reflexivity].
  destruct (extractSearchResults script_text JSON_parse cleanObject pickBySchema
              flattenArraysInObject (body response)); reflexivity.
Qed.

(** The listing handler, step by step. *)
Lemma handleAirbnbListingDetails_run (params : ListingParams) (s : Session) (u : URL) :
  buildListingUrl URL_parse_other params = Some u ->
  handleListing params s =
  if denied s u (lp_ignoreRobotsText params)
  then (Ok (robots_result u), logged robotsErrorMessage s)
  else
    match fetch_listing_page SESSION_USER_AGENT URL_parts URL_resolve u s with
    | (Ok response, s2) =>
        match extractDetails script_text JSON_parse cleanObject pickBySchema
                             flattenArraysInObject (body response) with
        | Ok details =>
            (Ok {| payload := JObj [("listingUrl", JStr (href u)); ("details", details)];
                   isError := false |}, s2)
        | Throw e =>
            (Ok {| payload := JObj [("listingUrl", JStr (href u)); ("details", JObj [])];
                   isError := false |},
             logged (message e) s2)
        end
    | (Throw error, s2) =>
        (Ok {| payload := JObj [("error", JStr (message error));
                                ("listingUrl", JStr (href u))];
               isError := true |}, s2)
    end.
Proof.
  intro Hu. unfold handleAirbnbListingDetails. rewrite Hu.
  unfold bind at 1. rewrite robots_denied_spec.
  destruct (denied s u (lp_ignoreRobotsText params)); [reflexivity|].
  unfold try_catch, fetch_listing_page, bind.
  destruct (fetchWithBrowserHeaders SESSION_USER_AGENT URL_parts URL_resolve BASE_URL [] 0 s)
    as [[r0|e0] s1]; [|reflexivity].
  change (do_encodeURIComponent (AString "homes") s1) with (@Ok string "homes", s1).
  cbv beta iota.
  change (BASE_URL ++ "/s/" ++ "homes") with (BASE_URL ++ "/s/homes").
  destruct (fetchWithBrowserHeaders SESSION_USER_AGENT URL_parts URL_resolve (href u) _ 0 s1)
    as [[response|e1] s2]; [|reflexivity].
  destruct (extractDetails script_text JSON_parse cleanObject pickBySchema
              flattenArraysInObject (body response)); reflexivity.
Qed.

Local Abbreviation extractSearch :=
  (extractSearchResults script_text JSON_parse cleanObject pickBySchema flattenArraysInObject).
Local Abbreviation extractListing :=
  (extractDetails script_text JSON_parse cleanObject pickBySchema flattenArraysInObject).

(** The three ways the extraction fails: the script text is not JSON (in
    particular the empty text of an absent element), or the path to the
    expected subtree breaks off. *)
Lemma extraction_failures (html : string) :
  (JSON_parse (script_text html) = None ->
   (exists e, extractSearch html = Throw e) /\ (exists e, extractListing html = Throw e))
  /\ (forall pr, presentation script_text JSON_parse html = Ok pr ->
       (get pr "staysSearch" = Ok None -> exists e, extractSearch html = Throw e)
       /\ (get pr "stayProductDetailPage" = Ok None -> exists e, extractListing html = Throw e)).
Proof.
  split.
  - intro Hparse.
    unfold extractSearchResults, extractDetails, parsed_sections, presentation.
    rewrite Hparse. split; eexists; reflexivity.
  - intros pr Hpr. split; intro Hsub.
    + unfold extractSearchResults. rewrite Hpr. simpl. rewrite Hsub. eexists. reflexivity.
    + unfold extractDetails, parsed_sections. rewrite Hpr. simpl. rewrite Hsub.
      eexists. reflexivity.
Qed.


(** C2, as amended.  In both pipelines, when the caller has not opted
    out and the robots check denies the path of the constructed URL, the
    handler returns (it does not throw) a result with [isError] true whose
    payload holds the robots message under [error] and the would-be URL
    under the key [url]; no request is sent: the network, the cookie jar
    and the trace are as before but for one console line. *)
Theorem robots_denial_short_circuits :
  forall (sp : SearchParams) (lp : ListingParams) (s1 s2 : Session) (us ul : URL),
    buildSearchUrl URL_parse_other sp = Some us ->
    buildListingUrl URL_parse_other lp = Some ul ->
    denied s1 us (sp_ignoreRobotsText sp) = true ->
    denied s2 ul (lp_ignoreRobotsText lp) = true ->
    handleSearch sp s1 =
      (Ok {| payload := JObj [("error", JStr robotsErrorMessage); ("url", JStr (href us))];
             isError := true |},
       logged robotsErrorMessage s1)
    /\ handleListing lp s2 =
      (Ok {| payload := JObj [("error", JStr robotsErrorMessage); ("url", JStr (href ul))];
             isError := true |},
       logged robotsErrorMessage s2)
    /\ (forall s, network (logged robotsErrorMessage s) = network s
                 /\ cookieJar (logged robotsErrorMessage s) = cookieJar s
                 /\ trace (logged robotsErrorMessage s) =
                    (trace s ++ [EvConsole robotsErrorMessage])%list).
Proof.
  intros sp lp s1 s2 us ul Hus Hul Hds Hdl. repeat split.
  - rewrite (handleAirbnbSearch_run sp s1 us Hus), Hds. reflexivity.
  - rewrite (handleAirbnbListingDetails_run lp s2 ul Hul), Hdl. reflexivity.
Qed.
End PipelineFacts.



(** A section whose [sectionId] is the one-element array
    [["LOCATION_DEFAULT"]] is kept as well: the identifier is compared as
    a property key, and the entry carries the array as its [id]. *)
Example array_section_id_is_kept :
  project_sections Sample.cleanObject Sample.pickBySchema Sample.flattenArraysInObject
    [JObj [("sectionId", JArr [JStr "LOCATION_DEFAULT"]);
           ("section", JObj [("lat", JNum "48.85")])]] =
  Ok [JObj [("id", JArr [JStr "LOCATION_DEFAULT"]); ("lat", JNum "48.85")]].
Proof. vm_compute. reflexivity. Qed.



Lemma robots_denial_short_circuits_witness :
  let s := Sample.session Sample.robots_txt [Responds Sample.home] in
  Sample.handleAirbnbSearch Sample.paris s =
    (Ok (robots_result Sample.paris_url),
     mkSession [] Sample.robots_txt [Responds Sample.home] [EvConsole robotsErrorMessage])
  /\ Sample.handleAirbnbListingDetails (Sample.listing "123") s =
    (Ok (robots_result Sample.listing_url),
     mkSession [] Sample.robots_txt [Responds Sample.home] [EvConsole robotsErrorMessage]).
Proof.
  intro s.
  destruct (robots_denial_short_circuits
              Sample.agent Sample.URL_parts Sample.URL_resolve Sample.URL_parse_other
              Sample.robots_isAllowed Sample.script_text Sample.JSON_parse
              Sample.cleanObject Sample.pickBySchema Sample.flattenArraysInObject
              Sample.paris (Sample.listing "123") s s Sample.paris_url Sample.listing_url
              eq_refl eq_refl eq_refl eq_refl) as (H1 & H2 & _).
  split; [exact H1 | exact H2].
Defined.

(** C2, counterexample.  On a denied path the payload has no [searchUrl]
    (search) and no [listingUrl] (listing details) key: the would-be URL is
    under the key [url]. *)
Lemma robots_denial_payload_key_cex :
  let s := Sample.session Sample.robots_txt [Responds Sample.home] in
  (exists fields,
     fst (Sample.handleAirbnbSearch Sample.paris s) =
       Ok {| payload := JObj fields; isError := true |}
     /\ Map_get fields "searchUrl" = None
     /\ Map_get fields "url" =
        Some (JStr "https://www.airbnb.ca/s/Paris/homes?adults=1&children=0&infants=0&pets=0"))
  /\ (exists fields,
     fst (Sample.handleAirbnbListingDetails (Sample.listing "123") s) =
       Ok {| payload := JObj fields; isError := true |}
     /\ Map_get fields "listingUrl" = None
     /\ Map_get fields "url" =
        Some (JStr "https://www.airbnb.ca/rooms/123?adults=1&children=0&infants=0&adults=1&children=0&infants=0&pets=0")).
Proof.
  split; eexists; (split; [vm_compute; reflexivity | split; reflexivity]).
Qed.

(* ================================================================== *)
(** ** Further properties: the cookie jar *)
(* ================================================================== *)

Lemma parseCookieEntry_stores (jar : CookieJar) (entry : string) :
  parseCookieEntry jar entry =
  match cookie_of_entry entry with
  | Some (k, v) => Map_set jar k v
  | None => jar
  end.
Proof.
  unfold parseCookieEntry, cookie_of_entry.
  destruct (split "=" (hd EmptyString (split ";" entry))) as [|name [|value rest]];
    simpl; try reflexivity.
  destruct (truthy_string name && truthy_string value); reflexivity.
Qed.

Section KeyFacts.
Context {V : Type}.

Lemma Map_get_none_keys (m : list (string * V)) (k : string) :
  Map_get m k = None <-> ~ In k (keys m).
Proof.
  induction m as [|[k' v'] m IH]; simpl; [tauto|].
  destruct (String.eqb k' k) eqn:E.
  - apply String.eqb_eq in E. split; [discriminate | intro H; exfalso; apply H; left; exact E].
  - apply String.eqb_neq in E. rewrite IH. tauto.
Qed.

Lemma Map_get_some_keys (m : list (string * V)) (k : string) (v : V) :
  Map_get m k = Some v -> In k (keys m).
Proof.
  intro H. destruct (in_dec string_dec k (keys m)) as [Hin|Hout]; [exact Hin|].
  apply Map_get_none_keys in Hout. congruence.
Qed.

Lemma keys_Map_set (m : list (string * V)) (k : string) (v : V) :
  (In k (keys m) -> keys (Map_set m k v) = keys m)
  /\ (~ In k (keys m) -> keys (Map_set m k v) = (keys m ++ [k])%list).
Proof.
  induction m as [|[k' v'] m [IH1 IH2]]; simpl.
  - split; [contradiction | reflexivity].
  - destruct (String.eqb k' k) eqn:E; simpl.
    + apply String.eqb_eq in E. subst k'. split; [reflexivity | intro H; exfalso; apply H; now left].
    + apply String.eqb_neq in E. split; intro H.
      * f_equal. apply IH1. destruct H; [contradiction | assumption].
      * f_equal. apply IH2. intro Hin. apply H. now right.
Qed.

Lemma keys_Map_set_grow (m : list (string * V)) (k : string) (v : V) :
  exists added, keys (Map_set m k v) = (keys m ++ added)%list.
Proof.
  destruct (keys_Map_set m k v) as [H1 H2].
  destruct (in_dec string_dec k (keys m)) as [Hin|Hout].
  - exists []. rewrite app_nil_r. exact (H1 Hin).
  - exists [k]. exact (H2 Hout).
Qed.

Lemma NoDup_Map_set (m : list (string * V)) (k : string) (v : V) :
  NoDup (keys m) -> NoDup (keys (Map_set m k v)).
Proof.
  intro Hnd. destruct (keys_Map_set m k v) as [H1 H2].
  destruct (in_dec string_dec k (keys m)) as [Hin|Hout].
  - rewrite (H1 Hin). exact Hnd.
  - rewrite (H2 Hout). apply NoDup_app; [exact Hnd | repeat constructor; simpl; tauto |].
    intros x Hx [<- | []]. exact (Hout Hx).
Qed.

Lemma Map_get_set (m : list (string * V)) (k k0 : string) (v : V) :
  Map_get (Map_set m k v) k0 = if String.eqb k k0 then Some v else Map_get m k0.
Proof.
  destruct (String.eqb k k0) eqn:E.
  - apply String.eqb_eq in E. subst k0. apply Map_get_set_same.
  - apply String.eqb_neq in E. apply Map_get_set_other. congruence.
Qed.

(** Two maps with the same names in the same order, none repeated, and
    the same value under every name are the same map. *)
Lemma map_extensionality (m1 : list (string * V)) :
  forall m2 : list (string * V),
    NoDup (keys m1) -> keys m1 = keys m2 ->
    (forall k, Map_get m1 k = Map_get m2 k) -> m1 = m2.
Proof.
  induction m1 as [|[k v] m1 IH]; intros [|[k2 v2] m2] Hnd Hk Hget; try discriminate.
  - reflexivity.
  - simpl in Hk. injection Hk as <- Hk. inversion Hnd as [|? ? Hout Hnd']; subst.
    pose proof (Hget k) as Hkk. simpl in Hkk. rewrite String.eqb_refl in Hkk.
    injection Hkk as <-. f_equal. apply IH; [exact Hnd' | exact Hk |].
    intro k0. destruct (String.eqb k k0) eqn:E.
    + apply String.eqb_eq in E. subst k0.
      assert (H1 : Map_get m1 k = None) by (apply Map_get_none_keys; exact Hout).
      assert (H2 : Map_get m2 k = None)
        by (apply Map_get_none_keys; rewrite <- Hk; exact Hout).
      congruence.
    + pose proof (Hget k0) as H0. simpl in H0. rewrite E in H0. exact H0.
Qed.

(** Defining a property changes what is read under its name only. *)
Lemma Object_set_get (m : list (string * V)) (k k0 : string) (v : V) :
  Map_get (Object_set m k v) k0 = if String.eqb k k0 then Some v else Map_get m k0.
Proof.
  unfold Object_set. destruct (Map_has m k) eqn:Hhas; [apply Map_get_set|].
  unfold Map_has in Hhas.
  induction m as [|[k' v'] m IH]; cbn [Object_insert Map_get]; [reflexivity|].
  cbn [Map_get] in Hhas.
  destruct (String.eqb k' k) eqn:Ek; [discriminate|].
  destruct (goes_before k k'); cbn [Map_get]; [reflexivity|].
  rewrite (IH Hhas).
  destruct (String.eqb k' k0) eqn:E0; [|reflexivity].
  apply String.eqb_eq in E0. subst k0.
  rewrite String.eqb_sym, Ek. reflexivity.
Qed.

(** A spread [{...a, ...b}] reads, under each name, the last value [b]
    gives it, and the value of [a] when [b] gives none. *)
Lemma Object_assign_get (b : list (string * V)) :
  forall (a : list (string * V)) (k : string),
    Map_get (Object_assign a b) k =
    match last_binding b k with
    | Some v => Some v
    | None => Map_get a k
    end.
Proof.
  unfold Object_assign.
  induction b as [|[k' v] b IH]; intros a k; simpl; [reflexivity|].
  rewrite IH. destruct (last_binding b k); [reflexivity|].
  rewrite Object_set_get. destruct (String.eqb k' k); reflexivity.
Qed.
End KeyFacts.

Lemma parseCookies_keys (entries : list string) :
  forall jar : CookieJar,
    NoDup (keys jar) ->
    NoDup (keys (fold_left parseCookieEntry entries jar))
    /\ exists added, keys (fold_left parseCookieEntry entries jar) = (keys jar ++ added)%list.
Proof.
  induction entries as [|entry entries IH]; intros jar Hnd; simpl.
  - split; [exact Hnd | exists []; now rewrite app_nil_r].
  - rewrite parseCookieEntry_stores.
    destruct (cookie_of_entry entry) as [[k v]|]; [|apply IH; exact Hnd].
    destruct (IH (Map_set jar k v) (NoDup_Map_set jar k v Hnd)) as [H1 [added H2]].
    split; [exact H1|].
    destruct (keys_Map_set_grow jar k v) as [added0 H0].
    exists (added0 ++ added)%list. rewrite H2, H0, app_assoc. reflexivity.
Qed.

(** X1.  [parseCookies] keeps the jar a map: when no name is repeated in
    the jar, none is repeated afterwards, and the names already present
    keep their places, the new ones being added after them; no cookie is
    ever removed. *)
Theorem parseCookies_keeps_names :
  forall (response : Response) (jar : CookieJar),
    NoDup (keys jar) ->
    NoDup (keys (parseCookies response jar))
    /\ (exists added, keys (parseCookies response jar) = (keys jar ++ added)%list)
    /\ (forall name, Map_has jar name = true -> Map_has (parseCookies response jar) name = true).
Proof.
  intros response jar Hnd. unfold parseCookies.
  destruct (parseCookies_keys (set_cookie response) jar Hnd) as [H1 [added H2]].
  split; [exact H1|]. split; [exists added; exact H2|].
  intros name Hhas. unfold Map_has in *.
  destruct (Map_get jar name) as [v|] eqn:E; [|discriminate].
  apply Map_get_some_keys in E.
  destruct (Map_get (fold_left parseCookieEntry (set_cookie response) jar) name) eqn:E2;
    [reflexivity|].
  apply Map_get_none_keys in E2. exfalso. apply E2. rewrite H2. apply in_or_app. now left.
Qed.

Lemma parseCookies_keeps_names_witness :
  let response := mkResponse 200 ["b=9; Path=/"; "c=3"; "a=; Max-Age=0"] None EmptyString in
  let jar := [("a", "1"); ("b", "2")] in
  NoDup (keys (parseCookies response jar))
  /\ (exists added, keys (parseCookies response jar) = (keys jar ++ added)%list)
  /\ (forall name, Map_has jar name = true -> Map_has (parseCookies response jar) name = true).
Proof.
  exact (parseCookies_keeps_names
           (mkResponse 200 ["b=9; Path=/"; "c=3"; "a=; Max-Age=0"] None EmptyString)
           [("a", "1"); ("b", "2")]
           ltac:(repeat constructor; simpl; intuition discriminate)).
Defined.

Lemma parseCookies_lookup (entries : list string) :
  forall (jar : CookieJar) (name : string),
    Map_get (fold_left parseCookieEntry entries jar) name =
    match last_cookie entries name with
    | Some v => Some v
    | None => Map_get jar name
    end.
Proof.
  induction entries as [|entry entries IH]; intros jar name; simpl; [reflexivity|].
  rewrite IH. destruct (last_cookie entries name); [reflexivity|].
  rewrite parseCookieEntry_stores.
  destruct (cookie_of_entry entry) as [[k v]|]; [|reflexivity].
  rewrite Map_get_set. destruct (String.eqb k name); reflexivity.
Qed.

(** X2.  After [parseCookies], the value stored under a name is the one
    given by the last entry of the response that stores a cookie of that
    name; a name no entry stores keeps the value it had, or stays
    absent. *)
Theorem parseCookies_last_entry_wins :
  forall (response : Response) (jar : CookieJar) (name : string),
    Map_get (parseCookies response jar) name =
    match last_cookie (set_cookie response) name with
    | Some v => Some v
    | None => Map_get jar name
    end.
Proof. intros. apply parseCookies_lookup. Qed.

Lemma last_cookie_of_entry (entries : list string) :
  forall entry k v,
    In entry entries -> cookie_of_entry entry = Some (k, v) ->
    exists v', last_cookie entries k = Some v'.
Proof.
  induction entries as [|e entries IH]; intros entry k v Hin Hc; [contradiction|].
  simpl. destruct (last_cookie entries k) as [w|] eqn:E; [eexists; reflexivity|].
  destruct Hin as [-> | Hin].
  - rewrite Hc, String.eqb_refl. eexists. reflexivity.
  - destruct (IH entry k v Hin Hc) as [v' Hv']. congruence.
Qed.

Lemma parseCookies_same_keys (entries : list string) :
  forall jar : CookieJar,
    (forall entry k v, In entry entries -> cookie_of_entry entry = Some (k, v) ->
                       In k (keys jar)) ->
    keys (fold_left parseCookieEntry entries jar) = keys jar.
Proof.
  induction entries as [|e entries IH]; intros jar Hall; simpl; [reflexivity|].
  rewrite parseCookieEntry_stores.
  destruct (cookie_of_entry e) as [[k v]|] eqn:Hc.
  - assert (Hin : In k (keys jar)) by (apply (Hall e k v); [now left | exact Hc]).
    destruct (keys_Map_set jar k v) as [Hsame _].
    rewrite IH; [exact (Hsame Hin)|].
    intros entry k0 v0 Hentry Hc0. rewrite (Hsame Hin).
    apply (Hall entry k0 v0); [now right | exact Hc0].
  - apply IH. intros entry k0 v0 Hentry Hc0. apply (Hall entry k0 v0); [now right | exact Hc0].
Qed.

(** X3.  Recording the same response a second time changes nothing: on a
    jar without repeated names, [parseCookies] applied twice to a response
    gives the jar that one application gives. *)
Theorem parseCookies_idempotent :
  forall (response : Response) (jar : CookieJar),
    NoDup (keys jar) ->
    parseCookies response (parseCookies response jar) = parseCookies response jar.
Proof.
  intros response jar Hnd.
  unfold parseCookies.
  destruct (parseCookies_keys (set_cookie response) jar Hnd) as [Hnd1 _].
  destruct (parseCookies_keys (set_cookie response) _ Hnd1) as [Hnd2 _].
  apply map_extensionality; [exact Hnd2 | |].
  - apply parseCookies_same_keys. intros entry k v Hin Hc.
    destruct (last_cookie_of_entry _ entry k v Hin Hc) as [v' Hv'].
    apply Map_get_some_keys with (v := v').
    rewrite parseCookies_lookup, Hv'. reflexivity.
  - intro k. rewrite !parseCookies_lookup.
    destruct (last_cookie (set_cookie response) k); reflexivity.
Qed.

Lemma parseCookies_idempotent_witness :
  let response := mkResponse 302 ["a=1"; "b=2; Path=/"; "a=3"] None EmptyString in
  let jar := [("b", "0"); ("z", "9")] in
  parseCookies response (parseCookies response jar) = parseCookies response jar.
Proof.
  exact (parseCookies_idempotent
           (mkResponse 302 ["a=1"; "b=2; Path=/"; "a=3"] None EmptyString)
           [("b", "0"); ("z", "9")]
           ltac:(repeat constructor; simpl; intuition discriminate)).
Defined.

Lemma append_nonempty (a : string) (c : ascii) (b : string) :
  truthy_string (a ++ String c b) = true.
Proof. destruct a; reflexivity. Qed.

Lemma getCookieString_truthy (jar : CookieJar) :
  truthy_string (getCookieString jar) = match jar with [] => false | _ => true end.
Proof.
  unfold getCookieString. destruct jar as [|[n v] [|nv rest]]; [reflexivity| |].
  - cbn [map join fst snd]. apply append_nonempty.
  - cbn [map join fst snd]. rewrite append_assoc. apply append_nonempty.
Qed.

Lemma request_headers_options_override_aux
      (agent hostname origin cookieString : string) (options : list (string * string))
      (name : string) :
  Map_get (request_headers agent hostname origin cookieString options) name =
  match last_binding options name with
  | Some v => Some v
  | None => Map_get (request_headers agent hostname origin cookieString []) name
  end.
Proof. unfold request_headers. rewrite Object_assign_get. reflexivity. Qed.

(** X4.  Caller-supplied headers take precedence: under every header name
    a request carries the last value the supplied options give it, and
    otherwise the value computed from the common headers, the URL and the
    jar. *)
Theorem request_headers_options_override :
  forall (agent hostname origin cookieString : string) (options : list (string * string))
         (name : string),
    Map_get (request_headers agent hostname origin cookieString options) name =
    match last_binding options name with
    | Some v => Some v
    | None => Map_get (request_headers agent hostname origin cookieString []) name
    end.
Proof. intros. apply request_headers_options_override_aux. Qed.

(** X5.  The [Cookie] header is sent exactly when the jar holds a cookie,
    and then it is the serialized jar (the caller not setting [Cookie]
    itself); the [Host], [Referer] and [Origin] headers are those of the
    requested URL. *)
Theorem cookie_header_iff_jar_nonempty :
  forall (agent hostname origin : string) (jar : CookieJar)
         (options : list (string * string)),
    last_binding options "Cookie" = None ->
    let headers := request_headers agent hostname origin (getCookieString jar) options in
    Map_get headers "Cookie" = match jar with [] => None | _ => Some (getCookieString jar) end
    /\ (options = [] ->
        Map_get headers "Host" = Some hostname
        /\ Map_get headers "Referer" = Some origin
        /\ Map_get headers "Origin" = Some origin
        /\ Map_get headers "User-Agent" = Some agent).
Proof.
  intros agent hostname origin jar options Hopt headers. split.
  - unfold headers. rewrite request_headers_options_override_aux, Hopt.
    unfold request_headers. rewrite getCookieString_truthy.
    destruct jar as [|nv jar]; [reflexivity|].
    cbn [Object_assign fold_left]. apply Map_get_set_same.
  - intros ->. unfold headers, request_headers.
    destruct (truthy_string (getCookieString jar)); repeat split; reflexivity.
Qed.

Lemma cookie_header_iff_jar_nonempty_witness :
  let jar := [("bev", "abc"); ("sid", "42")] in
  let headers := request_headers Sample.agent "www.airbnb.ca" BASE_URL
                   (getCookieString jar) [("Referer", "https://www.airbnb.ca/s/homes")] in
  Map_get headers "Cookie" = Some "bev=abc; sid=42".
Proof.
  exact (proj1 (cookie_header_iff_jar_nonempty
                  Sample.agent "www.airbnb.ca" BASE_URL [("bev", "abc"); ("sid", "42")]
                  [("Referer", "https://www.airbnb.ca/s/homes")] eq_refl)).
Defined.

(* ================================================================== *)
(** ** Further properties: the client *)
(* ================================================================== *)

Lemma count_fetches_app (a b : list Event) :
  count_fetches (a ++ b) = count_fetches a + count_fetches b.
Proof.
  induction a as [|[url headers|r|msg] a IH]; simpl; rewrite ?IH; reflexivity.
Qed.

Section ClientMore.
Variable SESSION_USER_AGENT : string.
Variable URL_parts : string -> option (string * string).
Variable URL_resolve : string -> string -> option string.

Local Abbreviation fetch_loop' := (fetch_loop SESSION_USER_AGENT URL_parts URL_resolve).
Local Abbreviation client := (fetchWithBrowserHeaders SESSION_USER_AGENT URL_parts URL_resolve).
Local Abbreviation headers_for :=
  (fun hostname origin options (s : Session) =>
     request_headers SESSION_USER_AGENT hostname origin (getCookieString (cookieJar s)) options).

Lemma after_response_trace (url : string) (headers : list (string * string)) (r : Response)
      (s : Session) :
  trace (after_response url headers r s) =
  (trace s ++ [EvFetch url headers; EvParseCookies r])%list.
Proof. unfold after_response. cbn [trace]. rewrite <- app_assoc. reflexivity. Qed.

Lemma after_redirect_trace (url : string) (headers : list (string * string)) (r : Response)
      (next : string) (s : Session) :
  trace (after_redirect url headers r next s) =
  (trace s ++ [EvFetch url headers; EvParseCookies r;
               EvConsole ("Redirect " ++ N_toString (status r) ++ " to " ++ next)])%list.
Proof.
  unfold after_redirect. cbn [trace]. rewrite after_response_trace, <- app_assoc.
  reflexivity.
Qed.

Lemma fetch_loop_bounded (fuel : nat) :
  forall (url : string) (options : list (string * string)) (rc : nat) (s : Session),
    exists tr,
      trace (snd (fetch_loop' fuel url options rc s)) = (trace s ++ tr)%list
      /\ count_fetches tr <= S (MAX_REDIRECTS - rc).
Proof.
  induction fuel as [|fuel IH]; intros url options rc s.
  - exists []. cbn [fetch_loop throw snd count_fetches]. rewrite app_nil_r.
    split; [reflexivity | lia].
  - destruct (URL_parts url) as [[hostname origin]|] eqn:Hurl.
    2:{ rewrite fetch_loop_invalid_url by assumption. exists []. cbn [snd count_fetches].
        rewrite app_nil_r. split; [reflexivity | lia]. }
    destruct (network s) as [|[r|reason] tape] eqn:Hnet.
    + destruct (fetch_loop_no_response SESSION_USER_AGENT URL_parts URL_resolve
                  fuel url options rc s hostname origin Hurl) as [reason ->].
      { rewrite Hnet. discriminate. }
      eexists. split; [reflexivity | cbn [count_fetches]; lia].
    + rewrite (fetch_loop_response SESSION_USER_AGENT URL_parts URL_resolve
                 fuel url options rc s hostname origin r tape Hurl Hnet).
      cbv zeta.
      assert (Hone : exists tr,
                 trace (after_response url (headers_for hostname origin options s) r s) =
                 (trace s ++ tr)%list /\ count_fetches tr <= S (MAX_REDIRECTS - rc)).
      { eexists. split; [apply after_response_trace | cbn [count_fetches]; lia]. }
      destruct (is_redirect_status (status r)); [|exact Hone].
      destruct (MAX_REDIRECTS <=? rc)%nat eqn:Hrc; [exact Hone|].
      apply Nat.leb_gt in Hrc.
      destruct (location r) as [[|c loc]|]; try exact Hone.
      destruct (URL_resolve (String c loc) url) as [next|]; [|exact Hone].
      destruct (IH next options (S rc)
                   (after_redirect url (headers_for hostname origin options s) r next s))
        as (tr & Htr & Hcount).
      rewrite after_redirect_trace in Htr.
      eexists. split; [rewrite Htr, <- app_assoc; reflexivity|].
      rewrite count_fetches_app. cbn [count_fetches]. lia.
    + destruct (fetch_loop_no_response SESSION_USER_AGENT URL_parts URL_resolve
                  fuel url options rc s hostname origin Hurl) as [msg ->].
      { rewrite Hnet. discriminate. }
      eexists. split; [reflexivity | cbn [count_fetches]; lia].
Qed.

(** With a budget above [MAX_REDIRECTS - redirectCount] the recursion
    never ends on the budget. *)
Lemma fetch_loop_never_out_of_fuel (fuel : nat) :
  forall (url : string) (options : list (string * string)) (rc : nat) (s : Session),
    MAX_REDIRECTS - rc < fuel ->
    fst (fetch_loop' fuel url options rc s) <> Throw out_of_fuel.
Proof.
  induction fuel as [|fuel IH]; intros url options rc s Hfuel; [lia|].
  destruct (URL_parts url) as [[hostname origin]|] eqn:Hurl.
  2:{ rewrite fetch_loop_invalid_url by assumption. discriminate. }
  destruct (network s) as [|[r|reason] tape] eqn:Hnet.
  - destruct (fetch_loop_no_response SESSION_USER_AGENT URL_parts URL_resolve
                fuel url options rc s hostname origin Hurl) as [reason ->].
    { rewrite Hnet. discriminate. }
    discriminate.
  - rewrite (fetch_loop_response SESSION_USER_AGENT URL_parts URL_resolve
               fuel url options rc s hostname origin r tape Hurl Hnet).
    cbv zeta.
    destruct (is_redirect_status (status r)); [|discriminate].
    destruct (MAX_REDIRECTS <=? rc)%nat eqn:Hrc; [discriminate|].
    apply Nat.leb_gt in Hrc.
    destruct (location r) as [[|c loc]|]; try discriminate.
    destruct (URL_resolve (String c loc) url) as [next|]; [|discriminate].
    apply IH. lia.
  - destruct (fetch_loop_no_response SESSION_USER_AGENT URL_parts URL_resolve
                fuel url options rc s hostname origin Hurl) as [msg ->].
    { rewrite Hnet. discriminate. }
    discriminate.
Qed.

(** X6.  Whatever the network answers and whatever recursion budget the
    model is given, the body of [fetchWithBrowserHeaders] sends at most
    [MAX_REDIRECTS + 1 - redirectCount] requests (six from the initial
    redirect count 0): it is the redirect limit of the code that ends a
    redirect loop.  The budget the model gives a call is never what ends
    it: a call does not end on the budget, and any larger budget gives the
    same run. *)
Theorem fetch_sends_boundedly_many_requests :
  forall (url : string) (options : list (string * string)) (redirectCount : nat)
         (s : Session),
    (forall fuel,
       exists tr,
         trace (snd (fetch_loop' fuel url options redirectCount s)) = (trace s ++ tr)%list
         /\ count_fetches tr <= S (MAX_REDIRECTS - redirectCount)
         /\ count_fetches tr <= 6)
    /\ (forall fuel,
          MAX_REDIRECTS - redirectCount < fuel ->
          fetch_loop' fuel url options redirectCount s = client url options redirectCount s)
    /\ fst (client url options redirectCount s) <> Throw out_of_fuel
    /\ exists tr,
         trace (snd (client url options redirectCount s)) = (trace s ++ tr)%list
         /\ count_fetches tr <= S (MAX_REDIRECTS - redirectCount)
         /\ count_fetches tr <= 6.
Proof.
  intros url options rc s.
  assert (Hall : forall fuel,
             exists tr,
               trace (snd (fetch_loop' fuel url options rc s)) = (trace s ++ tr)%list
               /\ count_fetches tr <= S (MAX_REDIRECTS - rc)
               /\ count_fetches tr <= 6).
  { intro fuel. destruct (fetch_loop_bounded fuel url options rc s) as (tr & Htr & Hc).
    exists tr. split; [exact Htr|]. split; [exact Hc|]. unfold MAX_REDIRECTS in Hc. lia. }
  split; [exact Hall|]. split; [|split].
  - intros fuel Hfuel. unfold fetchWithBrowserHeaders.
    apply (fetch_loop_fuel SESSION_USER_AGENT URL_parts URL_resolve); [exact Hfuel | lia].
  - unfold fetchWithBrowserHeaders. apply fetch_loop_never_out_of_fuel. lia.
  - exact (Hall (S (MAX_REDIRECTS - rc))).
Qed.

(** X7.  When the network rejects a request after a chain of redirects
    has been followed, the rejection is thrown as it is, the rejected
    request is the last one sent, and the cookies recorded on the way stay
    in the jar. *)
Theorem fetch_rejection_propagates :
  forall (url : string) (options : list (string * string)) (redirectCount : nat)
         (s : Session) (chain : list Response) (reason : string) (tape : list NetOutcome)
         (target : string),
    chain_target URL_parts URL_resolve url chain = Some target ->
    URL_parts target <> None ->
    network s = (map Responds chain ++ Rejects reason :: tape)%list ->
    redirectCount + length chain <= MAX_REDIRECTS ->
    let run := client url options redirectCount s in
    fst run = Throw (mkException FetchError reason)
    /\ network (snd run) = tape
    /\ cookieJar (snd run) =
       fold_left (fun jar r => parseCookies r jar) chain (cookieJar s).
Proof.
  intros url options rc s chain reason tape target Ht Hurl Hnet Hrc run.
  destruct (URL_parts target) as [[hostname origin]|] eqn:Hparts; [clear Hurl | congruence].
  destruct (fetch_loop_chain SESSION_USER_AGENT URL_parts URL_resolve chain url options rc
              (S (MAX_REDIRECTS - rc)) s (Rejects reason :: tape) target Ht Hnet Hrc)
    as (s' & Hrun & Hn & Hj & _); [lia|].
  unfold run, fetchWithBrowserHeaders. rewrite Hrun.
  replace (S (MAX_REDIRECTS - rc) - length chain)
    with (S (MAX_REDIRECTS - (rc + length chain))) by lia.
  cbn [fetch_loop]. rewrite Hparts. unfold bind, do_getCookieString, fetch.
  rewrite Hn. cbn [fst snd network cookieJar tl]. repeat split. exact Hj.
Qed.
End ClientMore.

Lemma fetch_sends_boundedly_many_requests_witness :
  let tape := map Responds (repeat (Sample.redirect "/next") 9) in
  let s := Sample.session EmptyString tape in
  fetch_loop Sample.agent Sample.URL_parts Sample.URL_resolve 100 BASE_URL [] 0 s =
  fetchWithBrowserHeaders Sample.agent Sample.URL_parts Sample.URL_resolve BASE_URL [] 0 s
  /\ fst (fetchWithBrowserHeaders Sample.agent Sample.URL_parts Sample.URL_resolve
            BASE_URL [] 0 s) <> Throw out_of_fuel.
Proof.
  split.
  - apply (proj1 (proj2 (fetch_sends_boundedly_many_requests
                           Sample.agent Sample.URL_parts Sample.URL_resolve BASE_URL [] 0
                           (Sample.session EmptyString
                              (map Responds (repeat (Sample.redirect "/next") 9)))))).
    unfold MAX_REDIRECTS. lia.
  - exact (proj1 (proj2 (proj2 (fetch_sends_boundedly_many_requests
                           Sample.agent Sample.URL_parts Sample.URL_resolve BASE_URL [] 0
                           (Sample.session EmptyString
                              (map Responds (repeat (Sample.redirect "/next") 9))))))).
Defined.

(** Nine redirects on the network: six requests are sent, three answers
    are left unread. *)
Example fetch_redirect_loop_ends :
  let tape := map Responds (repeat (Sample.redirect "/next") 9) in
  let run := fetch_loop Sample.agent Sample.URL_parts Sample.URL_resolve 100 BASE_URL [] 0
               (Sample.session EmptyString tape) in
  fst run = Throw (mkException PlainError
                     "Too many redirects while fetching https://www.airbnb.ca/next")
  /\ count_fetches (trace (snd run)) = 6
  /\ length (network (snd run)) = 3.
Proof. vm_compute. repeat split. Qed.

Lemma fetch_rejection_propagates_witness :
  let s := Sample.session EmptyString
             [Responds (Sample.redirect "/login"); Rejects "socket hang up";
              Responds Sample.home] in
  let run := fetchWithBrowserHeaders Sample.agent Sample.URL_parts Sample.URL_resolve
               BASE_URL [] 0 s in
  fst run = Throw (mkException FetchError "socket hang up")
  /\ network (snd run) = [Responds Sample.home]
  /\ cookieJar (snd run) = [("a", "1")].
Proof.
  exact (fetch_rejection_propagates
           Sample.agent Sample.URL_parts Sample.URL_resolve BASE_URL [] 0
           (Sample.session EmptyString
              [Responds (Sample.redirect "/login"); Rejects "socket hang up";
               Responds Sample.home])
           [Sample.redirect "/login"] "socket hang up" [Responds Sample.home]
           "https://www.airbnb.ca/login"
           eq_refl ltac:(discriminate) eq_refl ltac:(unfold MAX_REDIRECTS; simpl; lia)).
Defined.

Section ClientCookies.
Variable SESSION_USER_AGENT : string.
Variable URL_parts : string -> option (string * string).
Variable URL_resolve : string -> string -> option string.

Local Abbreviation fetch_loop' := (fetch_loop SESSION_USER_AGENT URL_parts URL_resolve).
Local Abbreviation client := (fetchWithBrowserHeaders SESSION_USER_AGENT URL_parts URL_resolve).

(** A turn on a URL the constructor accepts starts by sending the request,
    with the cookies of the jar as it is then. *)
Lemma fetch_loop_first_event (fuel : nat) (url : string) (options : list (string * string))
      (rc : nat) (s : Session) (hostname origin : string) :
  URL_parts url = Some (hostname, origin) ->
  exists tr,
    trace (snd (fetch_loop' (S fuel) url options rc s)) =
    (trace s ++
     EvFetch url (request_headers SESSION_USER_AGENT hostname origin
                    (getCookieString (cookieJar s)) options) :: tr)%list.
Proof.
  intro Hurl.
  destruct (network s) as [|[r|reason] tape] eqn:Hnet.
  - destruct (fetch_loop_no_response SESSION_USER_AGENT URL_parts URL_resolve
                fuel url options rc s hostname origin Hurl) as [reason ->].
    { rewrite Hnet. discriminate. }
    exists []. reflexivity.
  - rewrite (fetch_loop_response SESSION_USER_AGENT URL_parts URL_resolve
               fuel url options rc s hostname origin r tape Hurl Hnet).
    cbv zeta.
    assert (Hone : exists tr,
               trace (after_response url
                        (request_headers SESSION_USER_AGENT hostname origin
                           (getCookieString (cookieJar s)) options) r s) =
               (trace s ++
                EvFetch url (request_headers SESSION_USER_AGENT hostname origin
                               (getCookieString (cookieJar s)) options) :: tr)%list).
    { eexists. apply after_response_trace. }
    destruct (is_redirect_status (status r)); [|exact Hone].
    destruct (MAX_REDIRECTS <=? rc)%nat; [exact Hone|].
    destruct (location r) as [[|c loc]|]; try exact Hone.
    destruct (URL_resolve (String c loc) url) as [next|]; [|exact Hone].
    destruct (fetch_loop_bounded SESSION_USER_AGENT URL_parts URL_resolve fuel next options
                (S rc) (after_redirect url
                          (request_headers SESSION_USER_AGENT hostname origin
                             (getCookieString (cookieJar s)) options) r next s))
      as (tr & Htr & _).
    rewrite after_redirect_trace in Htr.
    eexists. rewrite Htr, <- app_assoc. reflexivity.
  - destruct (fetch_loop_no_response SESSION_USER_AGENT URL_parts URL_resolve
                fuel url options rc s hostname origin Hurl) as [msg ->].
    { rewrite Hnet. discriminate. }
    exists []. reflexivity.
Qed.

(** X8.  The cookies a redirect response sets are sent with the request
    that follows the redirect: below the redirect limit, a run that is
    answered by a redirect with a resolvable [Location] records its
    cookies, logs the redirect, and then requests the resolved URL with
    headers built from the jar as updated by that response. *)
Theorem redirect_request_carries_new_cookies :
  forall (url : string) (options : list (string * string)) (redirectCount : nat)
         (s : Session) (r : Response) (tape : list NetOutcome)
         (hostname origin loc next hostname' origin' : string),
    URL_parts url = Some (hostname, origin) ->
    network s = Responds r :: tape ->
    is_redirect_status (status r) = true ->
    location r = Some loc -> loc <> EmptyString ->
    URL_resolve loc url = Some next ->
    URL_parts next = Some (hostname', origin') ->
    redirectCount < MAX_REDIRECTS ->
    exists tr,
      trace (snd (client url options redirectCount s)) =
      (trace s ++
       [ EvFetch url (request_headers SESSION_USER_AGENT hostname origin
                        (getCookieString (cookieJar s)) options);
         EvParseCookies r;
         EvConsole ("Redirect " ++ N_toString (status r) ++ " to " ++ next);
         EvFetch next (request_headers SESSION_USER_AGENT hostname' origin'
                         (getCookieString (parseCookies r (cookieJar s))) options) ]
       ++ tr)%list.
Proof.
  intros url options rc s r tape hostname origin loc next hostname' origin'
         Hurl Hnet Hst Hloc Hne Hres Hnext Hrc.
  unfold fetchWithBrowserHeaders.
  rewrite (fetch_loop_response SESSION_USER_AGENT URL_parts URL_resolve
             _ url options rc s hostname origin r tape Hurl Hnet).
  cbv zeta. rewrite Hst, Hloc.
  assert (Hlim : (MAX_REDIRECTS <=? rc)%nat = false) by (apply Nat.leb_gt; exact Hrc).
  rewrite Hlim. destruct loc as [|c loc]; [congruence|]. rewrite Hres.
  destruct (MAX_REDIRECTS - rc) as [|k] eqn:Hk; [lia|].
  destruct (fetch_loop_first_event k next options (S rc)
              (after_redirect url
                 (request_headers SESSION_USER_AGENT hostname origin
                    (getCookieString (cookieJar s)) options) r next s)
              hostname' origin' Hnext) as [tr Htr].
  rewrite after_redirect_trace in Htr.
  exists tr. rewrite Htr, <- app_assoc. reflexivity.
Qed.
End ClientCookies.

Lemma redirect_request_carries_new_cookies_witness :
  let s := Sample.session EmptyString [Responds (Sample.redirect "/login")] in
  exists tr,
    trace (snd (fetchWithBrowserHeaders Sample.agent Sample.URL_parts Sample.URL_resolve
                  BASE_URL [] 0 s)) =
    ([ EvFetch BASE_URL
         (request_headers Sample.agent "www.airbnb.ca" BASE_URL EmptyString []);
       EvParseCookies (Sample.redirect "/login");
       EvConsole "Redirect 302 to https://www.airbnb.ca/login";
       EvFetch "https://www.airbnb.ca/login"
         (request_headers Sample.agent "www.airbnb.ca" BASE_URL "a=1" []) ] ++ tr)%list.
Proof.
  exact (redirect_request_carries_new_cookies
           Sample.agent Sample.URL_parts Sample.URL_resolve BASE_URL [] 0
           (Sample.session EmptyString [Responds (Sample.redirect "/login")])
           (Sample.redirect "/login") [] "www.airbnb.ca" BASE_URL "/login"
           "https://www.airbnb.ca/login" "www.airbnb.ca" BASE_URL
           eq_refl eq_refl eq_refl eq_refl ltac:(discriminate) eq_refl eq_refl
           ltac:(unfold MAX_REDIRECTS; lia)).
Defined.

(* ================================================================== *)
(** ** Further properties: robots.txt and start-up *)
(* ================================================================== *)

Section StartupFacts.
Variable SESSION_USER_AGENT : string.
Variable URL_parts : string -> option (string * string).
Variable URL_resolve : string -> string -> option string.

Local Abbreviation client := (fetchWithBrowserHeaders SESSION_USER_AGENT URL_parts URL_resolve).
Local Abbreviation fetchRobots := (fetchRobotsTxt SESSION_USER_AGENT URL_parts URL_resolve).
Local Abbreviation initialize :=
  (initializeBrowserSession SESSION_USER_AGENT URL_parts URL_resolve).

(** The client never touches the stored robots.txt. *)
Lemma client_keeps_robots (url : string) (options : list (string * string)) (rc : nat)
      (s : Session) :
  robotsTxtContent (snd (client url options rc s)) = robotsTxtContent s.
Proof.
  destruct (fetch_loop_recorded SESSION_USER_AGENT URL_parts URL_resolve
              (S (MAX_REDIRECTS - rc)) url options rc s) as (_ & _ & _ & _ & _ & _ & H).
  exact H.
Qed.

Lemma fetchRobotsTxt_run (flag : bool) (s : Session) :
  fetchRobots flag s =
  if flag then (Ok tt, s)
  else
    match client (BASE_URL ++ "/robots.txt") [] 0 s with
    | (Ok response, s1) =>
        (Ok tt, mkSession (cookieJar s1) (body response) (network s1) (trace s1))
    | (Throw error, s1) =>
        (Ok tt, mkSession (cookieJar s1) EmptyString (network s1)
                          (trace s1 ++ [EvConsole ("Error fetching robots.txt: "
                                                   ++ message error)]))
    end.
Proof.
  unfold fetchRobotsTxt. destruct flag; [reflexivity|].
  unfold try_catch, bind.
  destruct (client (BASE_URL ++ "/robots.txt") [] 0 s) as [[response|error] s1]; reflexivity.
Qed.

(** X9.  Robots checking fails open: when the request for [/robots.txt]
    fails (rejection, redirect error), [fetchRobotsTxt] does not throw, it
    logs the failure and leaves an empty ruleset, under which
    [isPathAllowed] allows every path for every parser verdict, without
    logging and without changing the session. *)
Theorem robots_fetch_failure_allows_everything :
  forall (s s1 : Session) (error : Exception),
    client (BASE_URL ++ "/robots.txt") [] 0 s = (Throw error, s1) ->
    let run := fetchRobots false s in
    fst run = Ok tt
    /\ robotsTxtContent (snd run) = EmptyString
    /\ cookieJar (snd run) = cookieJar s1
    /\ trace (snd run) =
       (trace s1 ++ [EvConsole ("Error fetching robots.txt: " ++ message error)])%list
    /\ (forall robots_isAllowed path,
          isPathAllowed SESSION_USER_AGENT robots_isAllowed path (snd run) =
          (Ok true, snd run)).
Proof.
  intros s s1 error Hrun run. unfold run. rewrite fetchRobotsTxt_run, Hrun.
  repeat split.
Qed.

(** X10.  The body of whatever response ends the request for
    [/robots.txt] becomes the ruleset, its status not being looked at: a
    non-empty body (an error page included) is handed to the parser on
    every later check, whose verdict must be [true] for the path to be
    allowed; an empty body allows everything. *)
Theorem robots_body_becomes_ruleset :
  forall (s s1 : Session) (response : Response),
    client (BASE_URL ++ "/robots.txt") [] 0 s = (Ok response, s1) ->
    let run := fetchRobots false s in
    fst run = Ok tt
    /\ robotsTxtContent (snd run) = body response
    /\ (forall robots_isAllowed path,
          fst (isPathAllowed SESSION_USER_AGENT robots_isAllowed path (snd run)) =
          Ok (if truthy_string (body response)
              then match robots_isAllowed (body response) path SESSION_USER_AGENT with
                   | Some true => true
                   | _ => false
                   end
              else true)).
Proof.
  intros s s1 response Hrun run. unfold run. rewrite fetchRobotsTxt_run, Hrun.
  repeat split. intros robots_isAllowed path. unfold isPathAllowed. cbn [snd robotsTxtContent].
  destruct (truthy_string (body response)); [|reflexivity]. cbn [negb].
  destruct (robots_isAllowed (body response) path SESSION_USER_AGENT) as [[|]|]; reflexivity.
Qed.

Lemma initialize_run (flag : bool) (s : Session) :
  initialize flag s =
  match client BASE_URL [] 0 (logged "Initializing browser session..." s) with
  | (Ok _, s1) =>
      (Ok tt, logged "Browser session initialized successfully" (snd (fetchRobots flag s1)))
  | (Throw error, s1) =>
      (Ok tt, logged ("Error initializing browser session: " ++ message error) s1)
  end.
Proof.
  unfold initializeBrowserSession, try_catch, bind.
  change (console_error "Initializing browser session..." s)
    with (Ok tt, logged "Initializing browser session..." s).
  cbv beta iota.
  destruct (client BASE_URL [] 0 (logged "Initializing browser session..." s))
    as [[r|error] s1]; [|reflexivity].
  rewrite (surjective_pairing (fetchRobots flag s1)).
  rewrite fetchRobotsTxt_run. destruct flag; [reflexivity|].
  destruct (client (BASE_URL ++ "/robots.txt") [] 0 s1) as [[response|error] s2]; reflexivity.
Qed.



(** X12.  Started with [--ignore-robots-txt], the session never holds a
    ruleset: [initializeBrowserSession] leaves the empty initial ruleset
    empty, and afterwards no URL is denied by the robots check, whatever
    the parser would say and whether or not the caller opts out. *)
Theorem ignore_flag_disables_robots :
  forall (s : Session),
    robotsTxtContent s = EmptyString ->
    let s' := snd (initialize true s) in
    robotsTxtContent s' = EmptyString
    /\ (forall robots_isAllowed u ignoreRobotsText,
          denied_by_robots SESSION_USER_AGENT robots_isAllowed s' u ignoreRobotsText = false).
Proof.
  intros s Hs s'.
  assert (H : robotsTxtContent s' = EmptyString).
  { unfold s'. rewrite initialize_run.
    pose proof (client_keeps_robots BASE_URL [] 0 (logged "Initializing browser session..." s))
      as Hkeep.
    destruct (client BASE_URL [] 0 (logged "Initializing browser session..." s))
      as [[r|error] s1]; cbn [snd] in *.
    - rewrite fetchRobotsTxt_run. cbn [snd logged robotsTxtContent]. rewrite Hkeep. exact Hs.
    - cbn [logged robotsTxtContent]. rewrite Hkeep. exact Hs. }
  split; [exact H|].
  intros robots_isAllowed u ign. unfold denied_by_robots. rewrite H.
  cbn [truthy_string]. rewrite andb_false_r. reflexivity.
Qed.
End StartupFacts.



Lemma robots_fetch_failure_allows_everything_witness :
  let s := Sample.session Sample.robots_txt [Rejects "getaddrinfo ENOTFOUND"] in
  robotsTxtContent
    (snd (fetchRobotsTxt Sample.agent Sample.URL_parts Sample.URL_resolve false s))
  = EmptyString.
Proof.
  exact (proj1 (proj2 (robots_fetch_failure_allows_everything
                         Sample.agent Sample.URL_parts Sample.URL_resolve
                         (Sample.session Sample.robots_txt [Rejects "getaddrinfo ENOTFOUND"])
                         _ (mkException FetchError "getaddrinfo ENOTFOUND") eq_refl))).
Defined.

Lemma robots_body_becomes_ruleset_witness :
  let not_found := mkResponse 404 [] None "<html>Not found</html>" in
  let s := Sample.session EmptyString [Responds not_found] in
  robotsTxtContent
    (snd (fetchRobotsTxt Sample.agent Sample.URL_parts Sample.URL_resolve false s))
  = "<html>Not found</html>".
Proof.
  exact (proj1 (proj2 (robots_body_becomes_ruleset
                         Sample.agent Sample.URL_parts Sample.URL_resolve
                         (Sample.session EmptyString
                            [Responds (mkResponse 404 [] None "<html>Not found</html>")])
                         _ (mkResponse 404 [] None "<html>Not found</html>") eq_refl))).
Defined.

Lemma ignore_flag_disables_robots_witness :
  robotsTxtContent
    (snd (initializeBrowserSession Sample.agent Sample.URL_parts Sample.URL_resolve true
            (Sample.session EmptyString [Responds Sample.home])))
  = EmptyString.
Proof.
  exact (proj1 (ignore_flag_disables_robots
                  Sample.agent Sample.URL_parts Sample.URL_resolve
                  (Sample.session EmptyString [Responds Sample.home]) eq_refl)).
Defined.

(* ================================================================== *)
(** ** Further properties: the handlers and the dispatcher *)
(* ================================================================== *)

Lemma coerce_default_none (x : Arg) (d : Z) :
  coerce (withDefault x (ANumber d)) = None <-> x = ANull.
Proof.
  destruct x; unfold coerce; cbn [withDefault toString]; split; intro H;
    try discriminate; try reflexivity.
Qed.

Lemma coerce_guests_none (adults children infants pets : Arg) :
  coerce_guests adults children infants pets = None <->
  In ANull [adults; children; infants; pets].
Proof.
  unfold coerce_guests.
  pose proof (coerce_default_none adults 1) as Ha.
  pose proof (coerce_default_none children 0) as Hc.
  pose proof (coerce_default_none infants 0) as Hi.
  pose proof (coerce_default_none pets 0) as Hp.
  destruct (coerce (withDefault adults (ANumber 1))) as [a|].
  2:{ split; [intros _; left; now apply Ha | reflexivity]. }
  destruct (coerce (withDefault children (ANumber 0))) as [c|].
  2:{ split; [intros _; right; left; now apply Hc | reflexivity]. }
  destruct (coerce (withDefault infants (ANumber 0))) as [i|].
  2:{ split; [intros _; right; right; left; now apply Hi | reflexivity]. }
  destruct (coerce (withDefault pets (ANumber 0))) as [p|].
  2:{ split; [intros _; right; right; right; left; now apply Hp | reflexivity]. }
  split; [discriminate|].
  intros [H | [H | [H | [H | []]]]];
    [apply Ha in H | apply Hc in H | apply Hi in H | apply Hp in H]; discriminate.
Qed.

(** [encodeURIComponent] throws exactly on the strings that hold a
    surrogate that is not part of a pair. *)
Lemma encodeURIComponent_string_none (s : string) :
  encodeURIComponent_string s = None <-> has_lone_surrogate s = true.
Proof.
  induction s as [|c s IH]; [split; discriminate|].
  rewrite encode_cons. cbn [has_lone_surrogate].
  destruct (lone_surrogate c s); [split; reflexivity|].
  cbn [orb]. rewrite <- IH.
  destruct (encodeURIComponent_string s); split; intro H; try discriminate; reflexivity.
Qed.

Lemma encodeURIComponent_none (x : Arg) :
  encodeURIComponent x = None <-> has_lone_surrogate (ToString x) = true.
Proof. apply encodeURIComponent_string_none. Qed.

Section HandlerFacts.
Variable SESSION_USER_AGENT : string.
Variable URL_parts : string -> option (string * string).
Variable URL_resolve : string -> string -> option string.
Variable URL_parse_other : string -> URL.
Variable robots_isAllowed : string -> string -> string -> option bool.
Variable script_text : string -> string.
Variable JSON_parse : string -> option Json.
Variable cleanObject : Json -> Json.
Variable pickBySchema : JsValue -> option Schema -> JsValue.
Variable flattenArraysInObject : JsValue -> JsValue.

Local Abbreviation handleSearch :=
  (handleAirbnbSearch SESSION_USER_AGENT URL_parts URL_resolve URL_parse_other
     robots_isAllowed script_text JSON_parse cleanObject pickBySchema flattenArraysInObject).
Local Abbreviation handleListing :=
  (handleAirbnbListingDetails SESSION_USER_AGENT URL_parts URL_resolve URL_parse_other
     robots_isAllowed script_text JSON_parse cleanObject pickBySchema flattenArraysInObject).
Local Abbreviation denied := (denied_by_robots SESSION_USER_AGENT robots_isAllowed).
Local Abbreviation client := (fetchWithBrowserHeaders SESSION_USER_AGENT URL_parts URL_resolve).

Lemma buildSearchUrl_none (p : SearchParams) :
  buildSearchUrl URL_parse_other p = None <->
  has_lone_surrogate (ToString (sp_location p)) = true
  \/ In ANull [sp_adults p; sp_children p; sp_infants p; sp_pets p].
Proof.
  rewrite <- coerce_guests_none, <- encodeURIComponent_none. unfold buildSearchUrl.
  destruct (encodeURIComponent (sp_location p)) as [encoded|].
  - destruct (coerce_guests (sp_adults p) (sp_children p) (sp_infants p) (sp_pets p));
      split; intro H; try discriminate; try reflexivity; try (right; reflexivity).
    destruct H as [H | H]; discriminate.
  - split; intro H; [left|]; reflexivity.
Qed.

Lemma buildListingUrl_none (p : ListingParams) :
  buildListingUrl URL_parse_other p = None <->
  In ANull [lp_adults p; lp_children p; lp_infants p; lp_pets p].
Proof.
  rewrite <- coerce_guests_none. unfold buildListingUrl.
  destruct (coerce_guests (lp_adults p) (lp_children p) (lp_infants p) (lp_pets p));
    split; intro H; try discriminate; reflexivity.
Qed.

Lemma handleAirbnbSearch_outcome (p : SearchParams) (s : Session) :
  match buildSearchUrl URL_parse_other p with
  | None => handleSearch p s = (Throw (search_url_error p), s)
  | Some _ => exists r s', handleSearch p s = (Ok r, s')
  end.
Proof.
  destruct (buildSearchUrl URL_parse_other p) as [u|] eqn:Hu.
  - rewrite (handleAirbnbSearch_run SESSION_USER_AGENT URL_parts URL_resolve URL_parse_other
               robots_isAllowed script_text JSON_parse cleanObject pickBySchema
               flattenArraysInObject p s u Hu).
    destruct (denied s u (sp_ignoreRobotsText p)); [eexists; eexists; reflexivity|].
    destruct (fetch_search_page SESSION_USER_AGENT URL_parts URL_resolve u s)
      as [[response|error] s2]; [|eexists; eexists; reflexivity].
    destruct (extractSearchResults script_text JSON_parse cleanObject pickBySchema
                flattenArraysInObject (body response)); eexists; eexists; reflexivity.
  - unfold handleAirbnbSearch. rewrite Hu. reflexivity.
Qed.

Lemma handleAirbnbListingDetails_outcome (p : ListingParams) (s : Session) :
  match buildListingUrl URL_parse_other p with
  | None => handleListing p s = (Throw coercion_error, s)
  | Some _ => exists r s', handleListing p s = (Ok r, s')
  end.
Proof.
  destruct (buildListingUrl URL_parse_other p) as [u|] eqn:Hu.
  - rewrite (handleAirbnbListingDetails_run SESSION_USER_AGENT URL_parts URL_resolve
               URL_parse_other robots_isAllowed script_text JSON_parse cleanObject
               pickBySchema flattenArraysInObject p s u Hu).
    destruct (denied s u (lp_ignoreRobotsText p)); [eexists; eexists; reflexivity|].
    destruct (fetch_listing_page SESSION_USER_AGENT URL_parts URL_resolve u s)
      as [[response|error] s2]; [|eexists; eexists; reflexivity].
    destruct (extractDetails script_text JSON_parse cleanObject pickBySchema
                flattenArraysInObject (body response)); eexists; eexists; reflexivity.
  - unfold handleAirbnbListingDetails. rewrite Hu. reflexivity.
Qed.

(** How the search handler ends, by its arguments. *)
Lemma handleAirbnbSearch_throws (p : SearchParams) (s : Session) :
  (has_lone_surrogate (ToString (sp_location p)) = true ->
     handleSearch p s = (Throw uri_error, s))
  /\ (has_lone_surrogate (ToString (sp_location p)) = false ->
      In ANull [sp_adults p; sp_children p; sp_infants p; sp_pets p] ->
      handleSearch p s = (Throw coercion_error, s))
  /\ (has_lone_surrogate (ToString (sp_location p)) = false ->
      ~ In ANull [sp_adults p; sp_children p; sp_infants p; sp_pets p] ->
      exists r s', handleSearch p s = (Ok r, s')).
Proof.
  pose proof (handleAirbnbSearch_outcome p s) as Hs.
  pose proof (buildSearchUrl_none p) as Hns.
  pose proof (encodeURIComponent_none (sp_location p)) as Henc.
  unfold search_url_error in Hs.
  destruct (buildSearchUrl URL_parse_other p) as [u|].
  - repeat split.
    + intro H. assert (Hn : @Some URL u = None) by (apply Hns; left; exact H). discriminate.
    + intros _ H. assert (Hn : @Some URL u = None) by (apply Hns; right; exact H).
      discriminate.
    + intros _ _. exact Hs.
  - repeat split.
    + intro H. apply Henc in H. rewrite H in Hs. exact Hs.
    + intros H _.
      destruct (encodeURIComponent (sp_location p)) as [encoded|]; [exact Hs|].
      assert (Ht : has_lone_surrogate (ToString (sp_location p)) = true)
        by (apply Henc; reflexivity).
      congruence.
    + intros H Hnn. exfalso.
      destruct (proj1 Hns eq_refl) as [Hl | Hl]; [congruence | exact (Hnn Hl)].
Qed.

(** X13.  The search handler throws exactly in two cases: when the
    location holds a surrogate that is not part of a pair it throws the
    [URIError] of [encodeURIComponent], and otherwise, when one of the
    guest counts is [null], the [TypeError] of [null.toString()].  The
    listing handler throws exactly when one of the guest counts is [null].
    A handler that throws has logged and requested nothing; in every other
    case it returns a result, whatever the network, the robots check and
    the page do. *)
Theorem handlers_throw_on_arguments_only :
  forall (sp : SearchParams) (lp : ListingParams) (s : Session),
    (has_lone_surrogate (ToString (sp_location sp)) = true ->
       handleSearch sp s = (Throw (mkException URIError "URI malformed"), s))
    /\ (has_lone_surrogate (ToString (sp_location sp)) = false ->
        In ANull [sp_adults sp; sp_children sp; sp_infants sp; sp_pets sp] ->
        handleSearch sp s =
        (Throw (mkException TypeError "Cannot read properties of null (reading 'toString')"),
         s))
    /\ (has_lone_surrogate (ToString (sp_location sp)) = false ->
        ~ In ANull [sp_adults sp; sp_children sp; sp_infants sp; sp_pets sp] ->
        exists r s', handleSearch sp s = (Ok r, s'))
    /\ (In ANull [lp_adults lp; lp_children lp; lp_infants lp; lp_pets lp] ->
        handleListing lp s =
        (Throw (mkException TypeError "Cannot read properties of null (reading 'toString')"),
         s))
    /\ (~ In ANull [lp_adults lp; lp_children lp; lp_infants lp; lp_pets lp] ->
        exists r s', handleListing lp s = (Ok r, s')).
Proof.
  intros sp lp s.
  destruct (handleAirbnbSearch_throws sp s) as (H1 & H2 & H3).
  split; [exact H1|]. split; [exact H2|]. split; [exact H3|].
  pose proof (handleAirbnbListingDetails_outcome lp s) as Hl.
  pose proof (buildListingUrl_none lp) as Hnl.
  destruct (buildListingUrl URL_parse_other lp) as [ul|]; split; intro H.
  - apply Hnl in H. discriminate.
  - exact Hl.
  - exact Hl.
  - exfalso. apply H. apply Hnl. reflexivity.
Qed.


(** X14.  When one of the two requests of a pipeline fails (the network
    rejects it, or the redirect handling gives up), the handler returns a
    result with [isError] true whose payload holds the message of the
    failure under [error] and the attempted URL under [searchUrl], for
    listing details under [listingUrl]; the page is not parsed. *)
Theorem fetch_failure_is_reported :
  forall (sp : SearchParams) (lp : ListingParams) (s1 s2 : Session) (us ul : URL)
         (es el : Exception) (s1' s2' : Session),
    buildSearchUrl URL_parse_other sp = Some us ->
    buildListingUrl URL_parse_other lp = Some ul ->
    denied s1 us (sp_ignoreRobotsText sp) = false ->
    denied s2 ul (lp_ignoreRobotsText lp) = false ->
    fetch_search_page SESSION_USER_AGENT URL_parts URL_resolve us s1 = (Throw es, s1') ->
    fetch_listing_page SESSION_USER_AGENT URL_parts URL_resolve ul s2 = (Throw el, s2') ->
    handleSearch sp s1 =
      (Ok {| payload := JObj [("error", JStr (message es)); ("searchUrl", JStr (href us))];
             isError := true |}, s1')
    /\ handleListing lp s2 =
      (Ok {| payload := JObj [("error", JStr (message el)); ("listingUrl", JStr (href ul))];
             isError := true |}, s2').
Proof.
  intros sp lp s1 s2 us ul es el s1' s2' Hus Hul Hds Hdl Hfs Hfl. split.
  - rewrite (handleAirbnbSearch_run SESSION_USER_AGENT URL_parts URL_resolve URL_parse_other
               robots_isAllowed script_text JSON_parse cleanObject pickBySchema
               flattenArraysInObject sp s1 us Hus), Hds, Hfs. reflexivity.
  - rewrite (handleAirbnbListingDetails_run SESSION_USER_AGENT URL_parts URL_resolve
               URL_parse_other robots_isAllowed script_text JSON_parse cleanObject
               pickBySchema flattenArraysInObject lp s2 ul Hul), Hdl, Hfl. reflexivity.
Qed.

Lemma client_rejected (url : string) (options : list (string * string)) (rc : nat)
      (s : Session) (hostname origin reason : string) (tape : list NetOutcome) :
  URL_parts url = Some (hostname, origin) ->
  network s = Rejects reason :: tape ->
  client url options rc s =
  (Throw (mkException FetchError reason),
   mkSession (cookieJar s) (robotsTxtContent s) tape
             (trace s ++ [EvFetch url (request_headers SESSION_USER_AGENT hostname origin
                                         (getCookieString (cookieJar s)) options)])).
Proof.
  intros Hurl Hnet. unfold fetchWithBrowserHeaders. cbn [fetch_loop]. rewrite Hurl.
  unfold bind, do_getCookieString, fetch. rewrite Hnet. reflexivity.
Qed.

(** X15.  A failed first visit of the site ends the call: when the
    network rejects the warm-up request, the handler reports that failure
    with [isError] true and never requests the page itself; one request
    has been sent and the jar is as it was. *)
Theorem warmup_failure_aborts_call :
  forall (sp : SearchParams) (lp : ListingParams) (s : Session) (us ul : URL)
         (reason : string) (tape : list NetOutcome),
    buildSearchUrl URL_parse_other sp = Some us ->
    buildListingUrl URL_parse_other lp = Some ul ->
    denied s us (sp_ignoreRobotsText sp) = false ->
    denied s ul (lp_ignoreRobotsText lp) = false ->
    URL_parts BASE_URL <> None ->
    network s = Rejects reason :: tape ->
    let rs := handleSearch sp s in
    let rl := handleListing lp s in
    fst rs = Ok {| payload := JObj [("error", JStr reason); ("searchUrl", JStr (href us))];
                   isError := true |}
    /\ fst rl = Ok {| payload := JObj [("error", JStr reason); ("listingUrl", JStr (href ul))];
                      isError := true |}
    /\ network (snd rs) = tape /\ network (snd rl) = tape
    /\ cookieJar (snd rs) = cookieJar s /\ cookieJar (snd rl) = cookieJar s
    /\ count_fetches (trace (snd rs)) = S (count_fetches (trace s))
    /\ count_fetches (trace (snd rl)) = S (count_fetches (trace s)).
Proof.
  intros sp lp s us ul reason tape Hus Hul Hds Hdl Hbase Hnet rs rl.
  destruct (URL_parts BASE_URL) as [[hostname origin]|] eqn:Hparts; [clear Hbase | congruence].
  pose proof (client_rejected BASE_URL [] 0 s hostname origin reason tape Hparts Hnet) as Hw.
  unfold rs, rl.
  rewrite (handleAirbnbSearch_run SESSION_USER_AGENT URL_parts URL_resolve URL_parse_other
             robots_isAllowed script_text JSON_parse cleanObject pickBySchema
             flattenArraysInObject sp s us Hus), Hds.
  rewrite (handleAirbnbListingDetails_run SESSION_USER_AGENT URL_parts URL_resolve
             URL_parse_other robots_isAllowed script_text JSON_parse cleanObject
             pickBySchema flattenArraysInObject lp s ul Hul), Hdl.
  unfold fetch_search_page, fetch_listing_page, bind. rewrite Hw.
  cbn [fst snd network cookieJar trace message].
  rewrite count_fetches_app. cbn [count_fetches]. repeat split; lia.
Qed.
End HandlerFacts.


Lemma handlers_throw_on_arguments_only_witness :
  let s := Sample.session Sample.robots_txt [Responds Sample.home] in
  let malformed :=
    mkSearchParams (AString ("Paris " ++ SamplePages.lone_high_surrogate))
                   AUndefined AUndefined AUndefined
                   (ANumber 2) ANull AUndefined AUndefined
                   AUndefined AUndefined AUndefined AUndefined in
  let sp := mkSearchParams (AString "Paris") AUndefined AUndefined AUndefined
                           (ANumber 2) ANull AUndefined AUndefined
                           AUndefined AUndefined AUndefined AUndefined in
  Sample.handleAirbnbSearch malformed s =
    (Throw (mkException URIError "URI malformed"), s)
  /\ Sample.handleAirbnbSearch sp s =
    (Throw (mkException TypeError "Cannot read properties of null (reading 'toString')"), s)
  /\ exists r s', Sample.handleAirbnbListingDetails (Sample.listing "123") s = (Ok r, s').
Proof.
  intros s malformed sp.
  pose proof (handlers_throw_on_arguments_only
                Sample.agent Sample.URL_parts Sample.URL_resolve Sample.URL_parse_other
                Sample.robots_isAllowed Sample.script_text Sample.JSON_parse
                Sample.cleanObject Sample.pickBySchema Sample.flattenArraysInObject
                malformed (Sample.listing "123") s) as (Hmalformed & _ & _ & _ & Hother).
  pose proof (handlers_throw_on_arguments_only
                Sample.agent Sample.URL_parts Sample.URL_resolve Sample.URL_parse_other
                Sample.robots_isAllowed Sample.script_text Sample.JSON_parse
                Sample.cleanObject Sample.pickBySchema Sample.flattenArraysInObject
                sp (Sample.listing "123") s) as (_ & Hnull & _).
  split; [|split].
  - apply Hmalformed. reflexivity.
  - apply Hnull; [reflexivity | right; left; reflexivity].
  - apply Hother. intros [H | [H | [H | [H | []]]]]; discriminate H.
Defined.

Lemma fetch_failure_is_reported_witness :
  let s := Sample.session EmptyString [Responds Sample.home; Rejects "read ECONNRESET"] in
  fst (Sample.handleAirbnbSearch Sample.paris s) =
    Ok {| payload := JObj [("error", JStr "read ECONNRESET");
                           ("searchUrl",
                            JStr "https://www.airbnb.ca/s/Paris/homes?adults=1&children=0&infants=0&pets=0")];
          isError := true |}
  /\ fst (Sample.handleAirbnbListingDetails (Sample.listing "123") s) =
    Ok {| payload := JObj [("error", JStr "read ECONNRESET");
                           ("listingUrl",
                            JStr "https://www.airbnb.ca/rooms/123?adults=1&children=0&infants=0&adults=1&children=0&infants=0&pets=0")];
          isError := true |}.
Proof.
  intro s.
  assert (Hs : Sample.fetch_search_page Sample.paris_url s =
               (Throw (mkException FetchError "read ECONNRESET"),
                snd (Sample.fetch_search_page Sample.paris_url s)))
    by (vm_compute; reflexivity).
  assert (Hl : Sample.fetch_listing_page Sample.listing_url s =
               (Throw (mkException FetchError "read ECONNRESET"),
                snd (Sample.fetch_listing_page Sample.listing_url s)))
    by (vm_compute; reflexivity).
  destruct (fetch_failure_is_reported
              Sample.agent Sample.URL_parts Sample.URL_resolve Sample.URL_parse_other
              Sample.robots_isAllowed Sample.script_text Sample.JSON_parse
              Sample.cleanObject Sample.pickBySchema Sample.flattenArraysInObject
              Sample.paris (Sample.listing "123") s s Sample.paris_url Sample.listing_url
              _ _ _ _ eq_refl eq_refl eq_refl eq_refl Hs Hl) as [H1 H2].
  unfold Sample.handleAirbnbSearch, Sample.handleAirbnbListingDetails.
  rewrite H1, H2. split; reflexivity.
Defined.

Lemma warmup_failure_aborts_call_witness :
  let s := Sample.session EmptyString [Rejects "connect ETIMEDOUT"; Responds Sample.home] in
  network (snd (Sample.handleAirbnbSearch Sample.paris s)) = [Responds Sample.home]
  /\ network (snd (Sample.handleAirbnbListingDetails (Sample.listing "123") s))
     = [Responds Sample.home].
Proof.
  intro s.
  destruct (warmup_failure_aborts_call
              Sample.agent Sample.URL_parts Sample.URL_resolve Sample.URL_parse_other
              Sample.robots_isAllowed Sample.script_text Sample.JSON_parse
              Sample.cleanObject Sample.pickBySchema Sample.flattenArraysInObject
              Sample.paris (Sample.listing "123") s Sample.paris_url Sample.listing_url
              "connect ETIMEDOUT" [Responds Sample.home]
              eq_refl eq_refl eq_refl eq_refl ltac:(discriminate) eq_refl)
    as (_ & _ & H1 & H2 & _).
  split; [exact H1 | exact H2].
Defined.

Section DispatchFacts.
Variable SESSION_USER_AGENT : string.
Variable URL_parts : string -> option (string * string).
Variable URL_resolve : string -> string -> option string.
Variable URL_parse_other : string -> URL.
Variable script_text : string -> string.
Variable JSON_parse : string -> option Json.
Variable cleanObject : Json -> Json.
Variable pickBySchema : JsValue -> option Schema -> JsValue.
Variable flattenArraysInObject : JsValue -> JsValue.
Variable McpError_MethodNotFound : string -> Exception.

Local Abbreviation handleSearch robots :=
  (handleAirbnbSearch SESSION_USER_AGENT URL_parts URL_resolve URL_parse_other
     robots script_text JSON_parse cleanObject pickBySchema flattenArraysInObject).
Local Abbreviation handleListing robots :=
  (handleAirbnbListingDetails SESSION_USER_AGENT URL_parts URL_resolve URL_parse_other
     robots script_text JSON_parse cleanObject pickBySchema flattenArraysInObject).
Local Abbreviation dispatch robots :=
  (callTool SESSION_USER_AGENT URL_parts URL_resolve URL_parse_other robots script_text
     JSON_parse cleanObject pickBySchema flattenArraysInObject McpError_MethodNotFound).

(** X16.  The robots parser has no say when the caller opts out with a
    truthy [ignoreRobotsText] or when no ruleset is stored: the handlers
    then do the same whatever the parser would answer, and nothing about
    robots is logged. *)
Theorem robots_parser_not_consulted :
  forall (robots1 robots2 : string -> string -> string -> option bool)
         (sp : SearchParams) (lp : ListingParams) (s : Session),
    (truthy (withDefault (sp_ignoreRobotsText sp) (ABool false)) = true \/
     robotsTxtContent s = EmptyString) ->
    (truthy (withDefault (lp_ignoreRobotsText lp) (ABool false)) = true \/
     robotsTxtContent s = EmptyString) ->
    handleSearch robots1 sp s = handleSearch robots2 sp s
    /\ handleListing robots1 lp s = handleListing robots2 lp s
    /\ (forall us, denied_by_robots SESSION_USER_AGENT robots1 s us (sp_ignoreRobotsText sp)
                   = false)
    /\ (forall ul, denied_by_robots SESSION_USER_AGENT robots1 s ul (lp_ignoreRobotsText lp)
                   = false).
Proof.
  intros robots1 robots2 sp lp s Hs Hl.
  assert (Hds : forall robots us,
             denied_by_robots SESSION_USER_AGENT robots s us (sp_ignoreRobotsText sp) = false).
  { intros robots us. unfold denied_by_robots. destruct Hs as [-> | ->]; [reflexivity|].
    cbn [truthy_string]. rewrite andb_false_r. reflexivity. }
  assert (Hdl : forall robots ul,
             denied_by_robots SESSION_USER_AGENT robots s ul (lp_ignoreRobotsText lp) = false).
  { intros robots ul. unfold denied_by_robots. destruct Hl as [-> | ->]; [reflexivity|].
    cbn [truthy_string]. rewrite andb_false_r. reflexivity. }
  split; [|split; [|split; [apply Hds | apply Hdl]]].
  - destruct (buildSearchUrl URL_parse_other sp) as [u|] eqn:Hu.
    + rewrite !(handleAirbnbSearch_run SESSION_USER_AGENT URL_parts URL_resolve
                  URL_parse_other _ script_text JSON_parse cleanObject pickBySchema
                  flattenArraysInObject sp s u Hu), !Hds.
      reflexivity.
    + unfold handleAirbnbSearch. rewrite Hu. reflexivity.
  - destruct (buildListingUrl URL_parse_other lp) as [u|] eqn:Hu.
    + rewrite !(handleAirbnbListingDetails_run SESSION_USER_AGENT URL_parts URL_resolve
                  URL_parse_other _ script_text JSON_parse cleanObject pickBySchema
                  flattenArraysInObject lp s u Hu), !Hdl.
      reflexivity.
    + unfold handleAirbnbListingDetails. rewrite Hu. reflexivity.
Qed.
End DispatchFacts.

Lemma robots_parser_not_consulted_witness :
  let opted_out :=
    mkSearchParams (AString "Paris") AUndefined AUndefined AUndefined AUndefined AUndefined
                   AUndefined AUndefined AUndefined AUndefined AUndefined (ABool true) in
  let s := Sample.session Sample.robots_txt [Responds Sample.home; Responds Sample.home] in
  handleAirbnbSearch Sample.agent Sample.URL_parts Sample.URL_resolve Sample.URL_parse_other
    Sample.robots_isAllowed Sample.script_text Sample.JSON_parse Sample.cleanObject
    Sample.pickBySchema Sample.flattenArraysInObject opted_out s
  = handleAirbnbSearch Sample.agent Sample.URL_parts Sample.URL_resolve Sample.URL_parse_other
      (fun _ _ _ => None) Sample.script_text Sample.JSON_parse Sample.cleanObject
      Sample.pickBySchema Sample.flattenArraysInObject opted_out s.
Proof.
  exact (proj1 (robots_parser_not_consulted
                  Sample.agent Sample.URL_parts Sample.URL_resolve Sample.URL_parse_other
                  Sample.script_text Sample.JSON_parse Sample.cleanObject
                  Sample.pickBySchema Sample.flattenArraysInObject
                  Sample.robots_isAllowed (fun _ _ _ => None)
                  (mkSearchParams (AString "Paris") AUndefined AUndefined AUndefined
                     AUndefined AUndefined AUndefined AUndefined AUndefined AUndefined
                     AUndefined (ABool true))
                  (mkListingParams (AString "123") AUndefined AUndefined AUndefined
                     AUndefined AUndefined AUndefined (ABool true))
                  (Sample.session Sample.robots_txt
                     [Responds Sample.home; Responds Sample.home])
                  (or_introl eq_refl) (or_introl eq_refl))).
Defined.

Section CallToolFacts.
Variable SESSION_USER_AGENT : string.
Variable URL_parts : string -> option (string * string).
Variable URL_resolve : string -> string -> option string.
Variable URL_parse_other : string -> URL.
Variable robots_isAllowed : string -> string -> string -> option bool.
Variable script_text : string -> string.
Variable JSON_parse : string -> option Json.
Variable cleanObject : Json -> Json.
Variable pickBySchema : JsValue -> option Schema -> JsValue.
Variable flattenArraysInObject : JsValue -> JsValue.
Variable McpError_MethodNotFound : string -> Exception.

Local Abbreviation handleSearch :=
  (handleAirbnbSearch SESSION_USER_AGENT URL_parts URL_resolve URL_parse_other
     robots_isAllowed script_text JSON_parse cleanObject pickBySchema flattenArraysInObject).
Local Abbreviation handleListing :=
  (handleAirbnbListingDetails SESSION_USER_AGENT URL_parts URL_resolve URL_parse_other
     robots_isAllowed script_text JSON_parse cleanObject pickBySchema flattenArraysInObject).
Local Abbreviation dispatch :=
  (callTool SESSION_USER_AGENT URL_parts URL_resolve URL_parse_other robots_isAllowed
     script_text JSON_parse cleanObject pickBySchema flattenArraysInObject
     McpError_MethodNotFound).

Lemma callTool_search (args : list (string * Arg)) (s : Session) :
  dispatch "airbnb_search" (Some args) s =
  match handleSearch (search_params_of args) s with
  | (Ok r, s') => (Ok (HandlerResult r), s')
  | (Throw error, s') => (Ok (ErrorText ("Error: " ++ message error)), s')
  end.
Proof.
  unfold callTool, try_catch, bind. cbn [String.eqb Ascii.eqb Bool.eqb].
  destruct (handleSearch (search_params_of args) s) as [[r|error] s']; reflexivity.
Qed.

Lemma callTool_listing (args : list (string * Arg)) (s : Session) :
  dispatch "airbnb_listing_details" (Some args) s =
  match handleListing (listing_params_of args) s with
  | (Ok r, s') => (Ok (HandlerResult r), s')
  | (Throw error, s') => (Ok (ErrorText ("Error: " ++ message error)), s')
  end.
Proof.
  unfold callTool, try_catch, bind. cbn [String.eqb Ascii.eqb Bool.eqb].
  destruct (handleListing (listing_params_of args) s) as [[r|error] s']; reflexivity.
Qed.


End CallToolFacts.



(* ================================================================== *)
(** ** Further properties: the search URL *)
(* ================================================================== *)

Lemma searchParams_optional (u : URL) (k : string) (x : Arg) :
  searchParams (append_if u k x) = (searchParams u ++ optional_param k x)%list.
Proof. apply searchParams_append_if. Qed.

Lemma query_synced_append (u : URL) (k v : string) : query_synced (append u k v).
Proof.
  unfold query_synced. rewrite search_append.
  destruct (searchParams (append u k v)) eqn:E; [|reflexivity].
  rewrite searchParams_append in E. symmetry in E. apply app_cons_not_nil in E.
  contradiction.
Qed.

Lemma query_synced_append_if (u : URL) (k : string) (x : Arg) :
  query_synced u -> query_synced (append_if u k x).
Proof.
  intro H. unfold append_if. destruct (truthy x); [apply query_synced_append | exact H].
Qed.

Lemma hash_append_if (u : URL) (k : string) (x : Arg) : hash (append_if u k x) = hash u.
Proof. unfold append_if. destruct (truthy x); reflexivity. Qed.

Lemma buildSearchUrl_query (other : string -> URL) (p : SearchParams) (g : Guests)
      (encoded : string) :
  encodeURIComponent (sp_location p) = Some encoded ->
  coerce_guests (sp_adults p) (sp_children p) (sp_infants p) (sp_pets p) = Some g ->
  exists u, buildSearchUrl other p = Some u
    /\ searchParams u = search_query p g
    /\ pathname u = normalize_path ("/s/" ++ encoded ++ "/homes")
    /\ hash u = EmptyString
    /\ query_synced u.
Proof.
  intros Henc Hg. unfold buildSearchUrl. rewrite Henc, Hg, (new_URL_search _ _ _ Henc).
  eexists. split; [reflexivity|]. unfold search_query.
  rewrite <- totalGuests_positive.
  destruct (JsInt_gt0 (totalGuests g)); split; [|split; [|split]| |split; [|split]].
  - rewrite !searchParams_optional, !searchParams_append, !searchParams_optional.
    cbn [searchParams]. unfold search_guest_params. rewrite <- !app_assoc. reflexivity.
  - rewrite !pathname_append_if. cbn [pathname append]. rewrite !pathname_append_if.
    reflexivity.
  - rewrite !hash_append_if. cbn [hash append]. rewrite !hash_append_if. reflexivity.
  - repeat apply query_synced_append_if. apply query_synced_append.
  - rewrite !searchParams_optional. cbn [searchParams]. rewrite <- !app_assoc. reflexivity.
  - rewrite !pathname_append_if. reflexivity.
  - rewrite !hash_append_if. reflexivity.
  - repeat apply query_synced_append_if. reflexivity.
Qed.

Lemma lowercase_app (a b : string) : lowercase (a ++ b) = lowercase a ++ lowercase b.
Proof. induction a as [|c a IH]; simpl; [reflexivity | now rewrite IH]. Qed.

Lemma lowercase_empty (t : string) : lowercase t = EmptyString -> t = EmptyString.
Proof. destruct t; [reflexivity | discriminate]. Qed.

(** A kept character is not [%], and is a dot only if it is the dot. *)
Lemma unreserved_lower (c : ascii) :
  uri_unreserved c = true ->
  lower c <> "%"%char /\ (lower c = "."%char -> c = "."%char).
Proof.
  destruct c as [[] [] [] [] [] [] [] []]; intro H; vm_compute in H; try discriminate H;
    vm_compute; split; intro H0; try discriminate H0; reflexivity.
Qed.

(** An escaped character gives [%] and two hexadecimal digits that are
    never [2e]. *)
Lemma escaped_lower (c : ascii) :
  uri_unreserved c = false ->
  exists h1 h2 r,
    lowercase (percent_utf8 c) = String "%" (String h1 (String h2 r))
    /\ (h1 = "2"%char -> h2 = "e"%char -> False).
Proof.
  destruct c as [[] [] [] [] [] [] [] []]; intro H; vm_compute in H; try discriminate H;
    vm_compute; do 3 eexists;
    (split; [reflexivity | intros H1 H2; (discriminate H1 || discriminate H2)]).
Qed.

(** The encoding of a string that can be encoded, read off its first
    character. *)
Lemma encode_cons_some (c : ascii) (s t : string) :
  encodeURIComponent_string (String c s) = Some t ->
  exists t', encodeURIComponent_string s = Some t'
    /\ t = (if uri_unreserved c then String c EmptyString else percent_utf8 c) ++ t'.
Proof.
  rewrite encode_cons. destruct (lone_surrogate c s); [discriminate|].
  destruct (encodeURIComponent_string s) as [t'|]; [|discriminate].
  intro H. injection H as <-. exists t'. split; reflexivity.
Qed.

Lemma encode_empty (s : string) :
  encodeURIComponent_string s = Some EmptyString -> s = EmptyString.
Proof.
  destruct s as [|c s]; [reflexivity|]. intro H.
  destruct (encode_cons_some c s _ H) as (t' & _ & Ht).
  destruct (uri_unreserved c) eqn:E; [discriminate|].
  destruct (escaped_lower c E) as (h1 & h2 & r & Hl & _).
  apply (f_equal lowercase) in Ht. rewrite lowercase_app, Hl in Ht. discriminate.
Qed.

Lemma is_single_dot_iff (t : string) :
  is_single_dot t = true <-> lowercase t = "." \/ lowercase t = "%2e".
Proof.
  unfold is_single_dot. rewrite orb_true_iff, !String.eqb_eq. reflexivity.
Qed.

Lemma is_double_dot_iff (t : string) :
  is_double_dot t = true <->
  lowercase t = ".." \/ lowercase t = ".%2e" \/ lowercase t = "%2e." \/ lowercase t = "%2e%2e".
Proof.
  unfold is_double_dot. rewrite !orb_true_iff, !String.eqb_eq. tauto.
Qed.

(** The only string encoded as a single-dot segment is the dot. *)
Lemma encode_single_dot (s t : string) :
  encodeURIComponent_string s = Some t -> is_single_dot t = true -> s = ".".
Proof.
  intro Henc. rewrite is_single_dot_iff. destruct s as [|c s].
  - injection Henc as <-. intros [H | H]; discriminate.
  - destruct (encode_cons_some c s t Henc) as (t' & Ht' & ->).
    rewrite lowercase_app. destruct (uri_unreserved c) eqn:E.
    + destruct (unreserved_lower c E) as [Hp Hd]. cbn [lowercase append].
      intros [H | H]; injection H as Hc Hrest.
      * apply lowercase_empty in Hrest. subst t'. apply encode_empty in Ht'.
        rewrite (Hd Hc), Ht'. reflexivity.
      * contradiction.
    + destruct (escaped_lower c E) as (h1 & h2 & r & -> & Hne). cbn [append].
      intros [H | H]; [discriminate|]. injection H as H1 H2 _.
      exact (False_ind _ (Hne H1 H2)).
Qed.

(** The only string encoded as a double-dot segment is the double dot. *)
Lemma encode_double_dot (s t : string) :
  encodeURIComponent_string s = Some t -> is_double_dot t = true -> s = "..".
Proof.
  intro Henc. rewrite is_double_dot_iff. destruct s as [|c s].
  - injection Henc as <-. intros [H | [H | [H | H]]]; discriminate.
  - destruct (encode_cons_some c s t Henc) as (t' & Ht' & ->).
    rewrite lowercase_app. destruct (uri_unreserved c) eqn:E.
    + destruct (unreserved_lower c E) as [Hp Hd]. cbn [lowercase append].
      intros [H | [H | [H | H]]]; injection H as Hc Hrest; try contradiction.
      * rewrite (Hd Hc). f_equal.
        apply (encode_single_dot s t' Ht'), is_single_dot_iff. now left.
      * rewrite (Hd Hc). f_equal.
        apply (encode_single_dot s t' Ht'), is_single_dot_iff. now right.
    + destruct (escaped_lower c E) as (h1 & h2 & r & -> & Hne). cbn [append].
      intros [H | [H | [H | H]]]; try discriminate;
        injection H as H1 H2 _; exact (False_ind _ (Hne H1 H2)).
Qed.

Lemma plain_no_slash (t : string) :
  all_chars plain_char t = true ->
  has_char "/" t = false /\ has_char "?" t = false /\ has_char "#" t = false
  /\ has_char "&" t = false /\ has_char "=" t = false /\ has_char " " t = false.
Proof.
  induction t as [|c t IH]; simpl; [repeat split|].
  intro H. apply andb_true_iff in H as [Hc Ht]. specialize (IH Ht).
  destruct IH as (H1 & H2 & H3 & H4 & H5 & H6). rewrite H1, H2, H3, H4, H5, H6.
  clear - Hc.
  destruct c as [[] [] [] [] [] [] [] []]; vm_compute in Hc; try discriminate Hc;
    vm_compute; repeat split.
Qed.

Lemma normalize_search_path (enc : string) :
  has_char "/" enc = false ->
  normalize_path ("/s/" ++ enc ++ "/homes") =
  if is_double_dot enc then "/homes"
  else if is_single_dot enc then "/s/homes"
  else "/s/" ++ enc ++ "/homes".
Proof.
  intro Hs. unfold normalize_path.
  change ("/s/" ++ enc ++ "/homes") with (String "/" ("s" ++ String "/" (enc ++ String "/" "homes"))).
  cbv beta iota.
  rewrite (split_at_separator "/" "s") by reflexivity.
  rewrite (split_at_separator "/" enc) by exact Hs.
  change (split "/" "homes") with ["homes"].
  cbn [path_state]. change (is_double_dot "s") with false. change (is_single_dot "s") with false.
  cbv beta iota.
  destruct (is_double_dot enc); [reflexivity|].
  destruct (is_single_dot enc); [reflexivity|].
  change (is_double_dot "homes") with false. change (is_single_dot "homes") with false.
  reflexivity.
Qed.

Lemma encode_is_double_dot (s t : string) :
  encodeURIComponent_string s = Some t -> is_double_dot t = String.eqb s "..".
Proof.
  intro Henc. destruct (String.eqb_spec s "..") as [-> | Hne].
  - injection Henc as <-. reflexivity.
  - destruct (is_double_dot t) eqn:E; [|reflexivity].
    apply (encode_double_dot s t Henc) in E. contradiction.
Qed.

Lemma encode_is_single_dot (s t : string) :
  encodeURIComponent_string s = Some t -> is_single_dot t = String.eqb s ".".
Proof.
  intro Henc. destruct (String.eqb_spec s ".") as [-> | Hne].
  - injection Henc as <-. reflexivity.
  - destruct (is_single_dot t) eqn:E; [|reflexivity].
    apply (encode_single_dot s t Henc) in E. contradiction.
Qed.

(** X18.  Whenever the location can be encoded and the guest counts
    coerce, the text of the search URL is the base URL, the normalised
    path and the serialized query, with no fragment; the query lists, in
    this order, [place_id], [checkin], [checkout], the four guest counts
    (present when the adults count plus the children count is positive),
    [price_min], [price_max] and [cursor], where each optional entry is
    present exactly when its argument is truthy (a [minPrice] of [0] or an
    empty string adds nothing) and the question mark is absent when the
    list is empty.  The counts are printed as the Numbers that [parseInt]
    gave: a count beyond 2^53 is printed as the double it was rounded
    to. *)
Theorem search_url_text :
  forall (other : string -> URL) (p : SearchParams) (g : Guests) (encoded : string),
    encodeURIComponent (sp_location p) = Some encoded ->
    coerce_guests (sp_adults p) (sp_children p) (sp_infants p) (sp_pets p) = Some g ->
    exists u, buildSearchUrl other p = Some u
      /\ searchParams u = search_query p g
      /\ href u =
         BASE_URL
         ++ normalize_path ("/s/" ++ encoded ++ "/homes")
         ++ match search_query p g with
            | [] => EmptyString
            | ps => "?" ++ serialize_params ps
            end.
Proof.
  intros other p g encoded Henc Hg.
  destruct (buildSearchUrl_query other p g encoded Henc Hg)
    as (u & Hu & Hps & Hpath & Hhash & Hsync).
  exists u. split; [exact Hu|]. split; [exact Hps|].
  unfold href. rewrite Hpath, Hhash, Hsync, Hps, append_empty_r. reflexivity.
Qed.

Lemma search_url_text_witness :
  (exists u,
     buildSearchUrl Sample.URL_parse_other
       (mkSearchParams (AString "Paris") AUndefined (AString "2025-01-02") AUndefined
                       (ANumber 2) AUndefined AUndefined AUndefined
                       (ANumber 0) (ANumber 300) (AString EmptyString) AUndefined) = Some u
     /\ searchParams u =
        [("checkin", "2025-01-02"); ("adults", "2"); ("children", "0");
         ("infants", "0"); ("pets", "0"); ("price_max", "300")]
     /\ href u =
        "https://www.airbnb.ca/s/Paris/homes?checkin=2025-01-02&adults=2&children=0&infants=0&pets=0&price_max=300")
  /\ (exists u,
     buildSearchUrl Sample.URL_parse_other
       (mkSearchParams (AString "Paris") AUndefined AUndefined AUndefined
                       (AString "9007199254740993") (AString "-9007199254740992")
                       AUndefined AUndefined
                       AUndefined AUndefined AUndefined AUndefined) = Some u
     /\ searchParams u = []
     /\ href u = "https://www.airbnb.ca/s/Paris/homes")
  /\ (exists u,
     buildSearchUrl Sample.URL_parse_other
       (mkSearchParams (AString "Paris") AUndefined AUndefined AUndefined
                       (AString "9007199254740993") (ANumber 1000000000000000000000)
                       AUndefined AUndefined
                       AUndefined AUndefined AUndefined AUndefined) = Some u
     /\ searchParams u =
        [("adults", "9007199254740992"); ("children", "1"); ("infants", "0");
         ("pets", "0")]
     /\ href u =
        "https://www.airbnb.ca/s/Paris/homes?adults=9007199254740992&children=1&infants=0&pets=0").
Proof.
  split; [|split].
  - exact (search_url_text Sample.URL_parse_other
             (mkSearchParams (AString "Paris") AUndefined (AString "2025-01-02") AUndefined
                             (ANumber 2) AUndefined AUndefined AUndefined
                             (ANumber 0) (ANumber 300) (AString EmptyString) AUndefined)
             (mkGuests (Int 2) (Int 0) (Int 0) (Int 0)) "Paris" eq_refl eq_refl).
  - exact (search_url_text Sample.URL_parse_other
             (mkSearchParams (AString "Paris") AUndefined AUndefined AUndefined
                             (AString "9007199254740993") (AString "-9007199254740992")
                             AUndefined AUndefined
                             AUndefined AUndefined AUndefined AUndefined)
             (mkGuests (Int 9007199254740992) (Int (-9007199254740992)) (Int 0) (Int 0))
             "Paris" eq_refl eq_refl).
  - exact (search_url_text Sample.URL_parse_other
             (mkSearchParams (AString "Paris") AUndefined AUndefined AUndefined
                             (AString "9007199254740993") (ANumber 1000000000000000000000)
                             AUndefined AUndefined
                             AUndefined AUndefined AUndefined AUndefined)
             (mkGuests (Int 9007199254740992) (Int 1) (Int 0) (Int 0))
             "Paris" eq_refl eq_refl).
Defined.

(** X19.  Whenever the guest counts coerce: if the location holds a
    surrogate that is not part of a pair no URL is built; otherwise the
    URL is built and its path is [/s/<encoded location>/homes] unless the
    location reads [.] or [..], in which case the URL parser drops the dot
    segment and the path is [/s/homes], respectively [/homes]; and the
    encoded location never contains [/], [?] or [#], so that no location
    adds a path segment, a query or a fragment to the URL. *)
Theorem search_path_from_location :
  forall (other : string -> URL) (p : SearchParams) (g : Guests),
    coerce_guests (sp_adults p) (sp_children p) (sp_infants p) (sp_pets p) = Some g ->
    match encodeURIComponent (sp_location p) with
    | None =>
        has_lone_surrogate (ToString (sp_location p)) = true
        /\ buildSearchUrl other p = None
    | Some encoded =>
        has_lone_surrogate (ToString (sp_location p)) = false
        /\ has_char "/" encoded = false
        /\ has_char "?" encoded = false
        /\ has_char "#" encoded = false
        /\ exists u, buildSearchUrl other p = Some u
             /\ pathname u =
                (if String.eqb (ToString (sp_location p)) ".." then "/homes"
                 else if String.eqb (ToString (sp_location p)) "." then "/s/homes"
                 else "/s/" ++ encoded ++ "/homes")
    end.
Proof.
  intros other p g Hg.
  pose proof (encodeURIComponent_none (sp_location p)) as Hnone.
  destruct (encodeURIComponent (sp_location p)) as [encoded|] eqn:Henc.
  - destruct (buildSearchUrl_query other p g encoded Henc Hg) as (u & Hu & _ & Hpath & _ & _).
    destruct (plain_no_slash _ (encodeURIComponent_plain _ _ Henc))
      as (Hslash & Hquery & Hfrag & _).
    split.
    { destruct (has_lone_surrogate (ToString (sp_location p))); [|reflexivity].
      destruct Hnone as [_ Hn]. discriminate (Hn eq_refl). }
    split; [exact Hslash|]. split; [exact Hquery|]. split; [exact Hfrag|].
    exists u. split; [exact Hu|].
    rewrite Hpath, (normalize_search_path _ Hslash).
    rewrite (encode_is_double_dot _ _ Henc), (encode_is_single_dot _ _ Henc).
    reflexivity.
  - split; [apply Hnone; reflexivity|].
    unfold buildSearchUrl. rewrite Henc. reflexivity.
Qed.

Lemma search_path_from_location_witness :
  (exists u,
     buildSearchUrl Sample.URL_parse_other
       (mkSearchParams (AString "San Jose/CR?x#y") AUndefined AUndefined AUndefined
                       AUndefined AUndefined AUndefined AUndefined
                       AUndefined AUndefined AUndefined AUndefined) = Some u
     /\ pathname u = "/s/San%20Jose%2FCR%3Fx%23y/homes")
  /\ (exists u,
     buildSearchUrl Sample.URL_parse_other
       (mkSearchParams (AString "..") AUndefined AUndefined AUndefined
                       AUndefined AUndefined AUndefined AUndefined
                       AUndefined AUndefined AUndefined AUndefined) = Some u
     /\ pathname u = "/homes")
  /\ buildSearchUrl Sample.URL_parse_other
       (mkSearchParams (AString SamplePages.lone_high_surrogate)
                       AUndefined AUndefined AUndefined
                       AUndefined AUndefined AUndefined AUndefined
                       AUndefined AUndefined AUndefined AUndefined) = None.
Proof.
  split; [|split].
  - destruct (search_path_from_location Sample.URL_parse_other
           (mkSearchParams (AString "San Jose/CR?x#y") AUndefined AUndefined AUndefined
                           AUndefined AUndefined AUndefined AUndefined
                           AUndefined AUndefined AUndefined AUndefined)
           (mkGuests (Int 1) (Int 0) (Int 0) (Int 0)) eq_refl)
      as (_ & _ & _ & _ & u & Hu & Hpath).
    exists u. split; [exact Hu | exact Hpath].
  - destruct (search_path_from_location Sample.URL_parse_other
           (mkSearchParams (AString "..") AUndefined AUndefined AUndefined
                           AUndefined AUndefined AUndefined AUndefined
                           AUndefined AUndefined AUndefined AUndefined)
           (mkGuests (Int 1) (Int 0) (Int 0) (Int 0)) eq_refl)
      as (_ & _ & _ & _ & u & Hu & Hpath).
    exists u. split; [exact Hu | exact Hpath].
  - exact (proj2 (search_path_from_location Sample.URL_parse_other
           (mkSearchParams (AString SamplePages.lone_high_surrogate)
                           AUndefined AUndefined AUndefined
                           AUndefined AUndefined AUndefined AUndefined
                           AUndefined AUndefined AUndefined AUndefined)
           (mkGuests (Int 1) (Int 0) (Int 0) (Int 0)) eq_refl)).
Defined.

(* ================================================================== *)
(** ** Further properties: the extraction *)
(* ================================================================== *)

Lemma link_result_linked (result : JsValue) :
  has_listing result = true -> link_result result = Ok (linked_entry result).
Proof.
  destruct result as [[| | | | |fields]|]; unfold has_listing, link_result, linked_entry;
    cbn [get bind_result spread]; try (intro H; discriminate H).
  destruct (Map_get fields "listing") as [[| | | | |inner]|];
    intro H; try discriminate H; reflexivity.
Qed.

Lemma link_result_unlinked (result : JsValue) :
  has_listing result = false -> exists msg, link_result result = Throw (type_error msg).
Proof.
  destruct result as [[| | | | |fields]|]; unfold has_listing, link_result;
    cbn [get bind_result]; try (intros _; eexists; reflexivity).
  destruct (Map_get fields "listing") as [[| | | | |inner]|];
    intro H; try discriminate H; eexists; reflexivity.
Qed.

Lemma map_link_results (picked : list JsValue) :
  if forallb has_listing picked
  then map_result link_result picked = Ok (map linked_entry picked)
  else exists msg, map_result link_result picked = Throw (type_error msg).
Proof.
  induction picked as [|result picked IH]; [reflexivity|].
  cbn [forallb map_result map].
  destruct (has_listing result) eqn:Hr; cbn [andb].
  - rewrite (link_result_linked _ Hr).
    destruct (forallb has_listing picked).
    + rewrite IH. reflexivity.
    + destruct IH as [msg ->]. exists msg. reflexivity.
  - destruct (link_result_unlinked _ Hr) as [msg ->]. exists msg. reflexivity.
Qed.



Lemma filter_null_section (sections : list Json) :
  In JNull sections ->
  exists msg, filter_result section_allowed sections = Throw (type_error msg).
Proof.
  induction sections as [|section sections IH]; intro Hin; [contradiction|].
  cbn [filter_result].
  destruct section as [| b | repr | text | items | fields];
    try (eexists; reflexivity);
    (destruct Hin as [Hhead | Htail]; [discriminate Hhead|]);
    destruct (IH Htail) as [msg Hmsg];
    unfold section_allowed at 1; cbn [get bind_result]; rewrite Hmsg;
    exists msg; reflexivity.
Qed.

Lemma clean_in_place_null (cleanObject : Json -> Json) (sections : list Json) :
  In JNull sections -> In JNull (map (clean_in_place cleanObject) sections).
Proof. intro Hin. exact (in_map (clean_in_place cleanObject) sections JNull Hin). Qed.

(** X21.  In the listing pipeline, when the parsed [sections] array holds
    a [null], the extraction throws a [TypeError] whatever the other
    sections are: no section is reported, not even the allow-listed ones
    that precede the [null]. *)
Theorem null_section_discards_details :
  forall (script_text : string -> string) (JSON_parse : string -> option Json)
         (cleanObject : Json -> Json) (pickBySchema : JsValue -> option Schema -> JsValue)
         (flattenArraysInObject : JsValue -> JsValue)
         (html : string) (sections : list Json),
    parsed_sections script_text JSON_parse html = Ok (Some (JArr sections)) ->
    In JNull sections ->
    (exists msg,
       project_sections cleanObject pickBySchema flattenArraysInObject sections =
       Throw (type_error msg))
    /\ exists msg,
         extractDetails script_text JSON_parse cleanObject pickBySchema
                        flattenArraysInObject html = Throw (type_error msg).
Proof.
  intros script_text JSON_parse cleanObject pickBySchema flattenArraysInObject
         html sections Hparsed Hin.
  destruct (filter_null_section _ (clean_in_place_null cleanObject sections Hin))
    as [msg Hmsg].
  assert (Hproj : project_sections cleanObject pickBySchema flattenArraysInObject sections =
                  Throw (type_error msg)).
  { unfold project_sections. rewrite Hmsg. reflexivity. }
  split; exists msg; [exact Hproj|].
  unfold extractDetails. rewrite Hparsed. cbn [bind_result as_array].
  rewrite Hproj. reflexivity.
Qed.

Lemma null_section_discards_details_witness :
  exists msg,
    SamplePages.extractDetails
      (SamplePages.page (SamplePages.listing_state SamplePages.sections_with_null)) =
    Throw (type_error msg).
Proof.
  exact (proj2 (null_section_discards_details
                  Sample.script_text SamplePages.JSON_parse Sample.cleanObject
                  Sample.pickBySchema Sample.flattenArraysInObject
                  (SamplePages.page (SamplePages.listing_state SamplePages.sections_with_null))
                  SamplePages.sections_with_null eq_refl
                  (or_intror (or_intror (or_intror (or_introl eq_refl)))))).
Defined.
